(** * Verification of the mlx4 userspace verbs (src/verbs.c)

    A shallow embedding of the resource-lifecycle functions of
    [src/verbs.c]: queue-size rounding, completion-queue, queue-pair and
    address-handle creation and destruction, queue-pair modification and the
    dual completion-queue locking helpers.

    C [int] values are integers of [Z] with the 32-bit wrap-around written
    out; the process state touched by the functions (resource table, live
    allocations, doorbell words, and the ordered log of calls made to the
    allocators, the locks and the kernel command client) is an explicit
    [world] threaded through a small state monad. *)

From Stdlib Require Import String Ascii DecimalString.
From Stdlib Require Import ZArith List Lia Bool.
From stdpp Require Import gmap.

Open Scope Z_scope.

(** ** Machine integers *)

Module Int.

(** Two's complement reading of the low 32 bits: what an [int] holds after
    an operation whose mathematical result left the range. *)
Definition sint32 (z : Z) : Z := (z + 2 ^ 31) mod 2 ^ 32 - 2 ^ 31.

Definition uint32 (z : Z) : Z := z mod 2 ^ 32.
Definition uint8 (z : Z) : Z := z mod 2 ^ 8.

(** [x << n], [x + y] and [x * y] on [int]. *)
Definition shl (x n : Z) : Z := sint32 (Z.shiftl x n).
Definition add (x y : Z) : Z := sint32 (x + y).
Definition mul (x y : Z) : Z := sint32 (x * y).

Definition in_int (z : Z) : Prop := - 2 ^ 31 <= z < 2 ^ 31.

End Int.

(** ** Queue-size rounding *)

(** Number of loop iterations granted to the rounding loops.  An [int] that
    starts at 1 and is doubled reaches 0 after 32 doublings and stays there,
    so a loop that has not left by then never leaves; [None] stands for that
    run. *)
Definition loop_fuel : nat := 64.

(** [for (nent = 1; nent <= cqe; nent <<= 1) ;] *)
Fixpoint align_cq_size_loop (fuel : nat) (nent cqe : Z) : option Z :=
  match fuel with
  | O => None
  | S fuel' =>
      if nent <=? cqe
      then align_cq_size_loop fuel' (Int.shl nent 1) cqe
      else Some nent
  end.

Definition align_cq_size (cqe : Z) : option Z :=
  align_cq_size_loop loop_fuel 1 cqe.

(** [for (ret = 1; ret < size + spare; ret <<= 1) ;] *)
Fixpoint align_queue_size_loop (fuel : nat) (ret bound : Z) : option Z :=
  match fuel with
  | O => None
  | S fuel' =>
      if ret <? bound
      then align_queue_size_loop fuel' (Int.shl ret 1) bound
      else Some ret
  end.

(** The [context] argument is not read by the function. *)
Definition align_queue_size (context : Z) (size spare : Z) : option Z :=
  if size =? 0 then Some 0
  else align_queue_size_loop loop_fuel 1 (Int.add size spare).

(** *** What "rounded up to a power of two" means *)

Definition is_pow2 (r : Z) : Prop := exists k, 0 <= k /\ r = 2 ^ k.

Definition smallest_pow2_ge (n r : Z) : Prop :=
  is_pow2 r /\ n <= r /\ forall r', is_pow2 r' -> n <= r' -> r <= r'.

(** ** Data model *)

(** Network byte order: a big-endian field is kept as its bytes in memory
    order, most significant first, which is what the hardware reads whatever
    the byte order of the host. *)
Definition htonl (x : Z) : list Z :=
  [Z.land (Z.shiftr x 24) 255; Z.land (Z.shiftr x 16) 255;
   Z.land (Z.shiftr x 8) 255; Z.land x 255].

Definition htons (x : Z) : list Z :=
  [Z.land (Z.shiftr x 8) 255; Z.land x 255].

(** [a | b] on two big-endian words. *)
Definition be_or (a b : list Z) : list Z := zip_with Z.lor a b.

Inductive mlx4_db_type := MLX4_DB_TYPE_CQ | MLX4_DB_TYPE_RQ.

Inductive ibv_qp_type := IBV_QPT_RC | IBV_QPT_UC | IBV_QPT_UD.

Inductive ibv_qp_state :=
| IBV_QPS_RESET | IBV_QPS_INIT | IBV_QPS_RTR | IBV_QPS_RTS
| IBV_QPS_SQD | IBV_QPS_SQE | IBV_QPS_ERR.

Definition ibv_qp_state_eqb (a b : ibv_qp_state) : bool :=
  match a, b with
  | IBV_QPS_RESET, IBV_QPS_RESET | IBV_QPS_INIT, IBV_QPS_INIT
  | IBV_QPS_RTR, IBV_QPS_RTR | IBV_QPS_RTS, IBV_QPS_RTS
  | IBV_QPS_SQD, IBV_QPS_SQD | IBV_QPS_SQE, IBV_QPS_SQE
  | IBV_QPS_ERR, IBV_QPS_ERR => true
  | _, _ => false
  end.

(** [IBV_QP_STATE = 1 << 0] in [enum ibv_qp_attr_mask]. *)
Definition IBV_QP_STATE : Z := 1.

Record mlx4_buf := { buf : Z; buf_length : Z }.

Record mlx4_pd := { pd_context : Z; pdn : Z }.

(** A completion queue.  [cq_addr] is where the object lives: two
    [struct mlx4_cq *] are equal when these addresses are, and the spin lock
    embedded in the object is named by it. *)
Record mlx4_cq := {
  cq_addr : Z;
  cq_buf : mlx4_buf;
  cqn : Z;
  cons_index : Z;
  set_ci_db : Z;
  arm_db : Z;
  arm_sn : Z
}.

Definition set_cons_index (v : Z) (c : mlx4_cq) : mlx4_cq :=
  {| cq_addr := cq_addr c; cq_buf := cq_buf c; cqn := cqn c;
     cons_index := v; set_ci_db := set_ci_db c; arm_db := arm_db c;
     arm_sn := arm_sn c |}.

Definition set_cq_buf (v : mlx4_buf) (c : mlx4_cq) : mlx4_cq :=
  {| cq_addr := cq_addr c; cq_buf := v; cqn := cqn c;
     cons_index := cons_index c; set_ci_db := set_ci_db c;
     arm_db := arm_db c; arm_sn := arm_sn c |}.

Definition set_set_ci_db (v : Z) (c : mlx4_cq) : mlx4_cq :=
  {| cq_addr := cq_addr c; cq_buf := cq_buf c; cqn := cqn c;
     cons_index := cons_index c; set_ci_db := v; arm_db := arm_db c;
     arm_sn := arm_sn c |}.

Definition set_arm_db (v : Z) (c : mlx4_cq) : mlx4_cq :=
  {| cq_addr := cq_addr c; cq_buf := cq_buf c; cqn := cqn c;
     cons_index := cons_index c; set_ci_db := set_ci_db c; arm_db := v;
     arm_sn := arm_sn c |}.

Definition set_arm_sn (v : Z) (c : mlx4_cq) : mlx4_cq :=
  {| cq_addr := cq_addr c; cq_buf := cq_buf c; cqn := cqn c;
     cons_index := cons_index c; set_ci_db := set_ci_db c;
     arm_db := arm_db c; arm_sn := v |}.

Definition set_cqn (v : Z) (c : mlx4_cq) : mlx4_cq :=
  {| cq_addr := cq_addr c; cq_buf := cq_buf c; cqn := v;
     cons_index := cons_index c; set_ci_db := set_ci_db c;
     arm_db := arm_db c; arm_sn := arm_sn c |}.

(** A shared receive queue. *)
Record mlx4_srq := {
  srq_addr : Z;
  srq_buf : mlx4_buf;
  srq_wrid : Z;
  srq_max : Z;
  srq_max_gs : Z;
  srq_counter : Z;
  srq_db : Z;
  srqn : Z
}.

Record ibv_srq_attr := { max_wr : Z; max_sge : Z; srq_limit : Z }.

(** One side (send or receive) of a queue pair. *)
Record mlx4_wq := {
  wq_wrid : Z;
  wq_max : Z;
  wq_max_gs : Z;
  wq_head : Z;
  wq_tail : Z;
  wq_wqe_shift : Z
}.

Definition set_wq_max (v : Z) (q : mlx4_wq) : mlx4_wq :=
  {| wq_wrid := wq_wrid q; wq_max := v; wq_max_gs := wq_max_gs q;
     wq_head := wq_head q; wq_tail := wq_tail q;
     wq_wqe_shift := wq_wqe_shift q |}.

Definition set_wq_max_gs (v : Z) (q : mlx4_wq) : mlx4_wq :=
  {| wq_wrid := wq_wrid q; wq_max := wq_max q; wq_max_gs := v;
     wq_head := wq_head q; wq_tail := wq_tail q;
     wq_wqe_shift := wq_wqe_shift q |}.

Definition set_wq_head (v : Z) (q : mlx4_wq) : mlx4_wq :=
  {| wq_wrid := wq_wrid q; wq_max := wq_max q; wq_max_gs := wq_max_gs q;
     wq_head := v; wq_tail := wq_tail q; wq_wqe_shift := wq_wqe_shift q |}.

Definition set_wq_tail (v : Z) (q : mlx4_wq) : mlx4_wq :=
  {| wq_wrid := wq_wrid q; wq_max := wq_max q; wq_max_gs := wq_max_gs q;
     wq_head := wq_head q; wq_tail := v; wq_wqe_shift := wq_wqe_shift q |}.

Record ibv_qp_cap := {
  max_send_wr : Z;
  max_recv_wr : Z;
  max_send_sge : Z;
  max_recv_sge : Z;
  max_inline_data : Z
}.

Record ibv_qp_init_attr := {
  init_send_cq : Z;
  init_recv_cq : Z;
  init_srq : option Z;
  cap : ibv_qp_cap;
  qp_type : ibv_qp_type;
  sq_sig_all : Z
}.

Record ibv_qp_attr := { qp_state : ibv_qp_state }.

(** The generic part of a queue pair.  The completion queues are held as the
    objects [send_cq] and [recv_cq] point to; [srq] is [None] for a null
    pointer. *)
Record ibv_qp := {
  context : Z;
  send_cq : mlx4_cq;
  recv_cq : mlx4_cq;
  srq : option Z;
  qp_num : Z
}.

Definition set_qp_num (v : Z) (q : ibv_qp) : ibv_qp :=
  {| context := context q; send_cq := send_cq q; recv_cq := recv_cq q;
     srq := srq q; qp_num := v |}.

Record mlx4_qp := {
  qp_addr : Z;
  ibv : ibv_qp;
  qp_buf : mlx4_buf;
  sq : mlx4_wq;
  rq : mlx4_wq;
  db : Z;
  doorbell_qpn : list Z;
  sq_signal_bits : list Z
}.

Definition set_ibv (v : ibv_qp) (q : mlx4_qp) : mlx4_qp :=
  {| qp_addr := qp_addr q; ibv := v; qp_buf := qp_buf q; sq := sq q;
     rq := rq q; db := db q; doorbell_qpn := doorbell_qpn q;
     sq_signal_bits := sq_signal_bits q |}.

Definition set_sq (v : mlx4_wq) (q : mlx4_qp) : mlx4_qp :=
  {| qp_addr := qp_addr q; ibv := ibv q; qp_buf := qp_buf q; sq := v;
     rq := rq q; db := db q; doorbell_qpn := doorbell_qpn q;
     sq_signal_bits := sq_signal_bits q |}.

Definition set_rq (v : mlx4_wq) (q : mlx4_qp) : mlx4_qp :=
  {| qp_addr := qp_addr q; ibv := ibv q; qp_buf := qp_buf q; sq := sq q;
     rq := v; db := db q; doorbell_qpn := doorbell_qpn q;
     sq_signal_bits := sq_signal_bits q |}.

Definition set_db (v : Z) (q : mlx4_qp) : mlx4_qp :=
  {| qp_addr := qp_addr q; ibv := ibv q; qp_buf := qp_buf q; sq := sq q;
     rq := rq q; db := v; doorbell_qpn := doorbell_qpn q;
     sq_signal_bits := sq_signal_bits q |}.

Definition set_doorbell_qpn (v : list Z) (q : mlx4_qp) : mlx4_qp :=
  {| qp_addr := qp_addr q; ibv := ibv q; qp_buf := qp_buf q; sq := sq q;
     rq := rq q; db := db q; doorbell_qpn := v;
     sq_signal_bits := sq_signal_bits q |}.

Definition set_sq_signal_bits (v : list Z) (q : mlx4_qp) : mlx4_qp :=
  {| qp_addr := qp_addr q; ibv := ibv q; qp_buf := qp_buf q; sq := sq q;
     rq := rq q; db := db q; doorbell_qpn := doorbell_qpn q;
     sq_signal_bits := v |}.

(** Path attributes and the address vector built from them. *)
Record ibv_global_route := {
  dgid : list Z;
  flow_label : Z;
  sgid_index : Z;
  hop_limit : Z;
  traffic_class : Z
}.

Record ibv_ah_attr := {
  grh : ibv_global_route;
  dlid : Z;
  sl : Z;
  src_path_bits : Z;
  static_rate : Z;
  is_global : Z;
  port_num : Z
}.

(** [struct mlx4_av], with the fields [mlx4_create_ah] names. *)
Record mlx4_av := {
  av_port_pd : list Z;
  av_g_slid : Z;
  av_dlid : list Z;
  av_gid_index : Z;
  av_stat_rate : Z;
  av_hop_limit : Z;
  av_sl_tclass_flowlabel : list Z;
  av_dgid : list Z
}.

Record mlx4_ah := { ah_addr : Z; av : mlx4_av }.

(** ** The process state and the calls that leave the file *)

Inductive spinlock :=
| CqLock (cq : Z)
| SqLock (qp : Z)
| RqLock (qp : Z)
| SrqLock (srq : Z).

(** Requests sent through the kernel command client. *)
Inductive kernel_cmd :=
| CmdCreateCq (cqe channel comp_vector buf_addr db_addr : Z)
| CmdDestroyCq (cq : Z)
| CmdCreateSrq (attr : ibv_srq_attr) (buf_addr db_addr : Z)
| CmdDestroySrq (srq : Z)
| CmdCreateQp (attr : ibv_qp_init_attr)
    (buf_addr db_addr log_sq_stride log_sq_bb_count : Z)
| CmdModifyQp (qp : Z) (attr : ibv_qp_attr) (attr_mask : Z)
| CmdDestroyQp (qp : Z).

(** Every call made to a collaborator, with its arguments and, where it
    returns one, its result. *)
Inductive event :=
| EvMalloc (res : option Z)
| EvFree (p : Z)
| EvMemset (p c n : Z)
| EvAllocBuf (size page_size : Z) (res : option Z)
| EvFreeBuf (b : Z)
| EvAllocDb (type : mlx4_db_type) (res : option Z)
| EvFreeDb (d : Z)
| EvAllocQpBuf (cap : ibv_qp_cap) (type : ibv_qp_type) (qp : mlx4_qp)
    (ok : bool)
| EvAllocSrqBuf (attr : ibv_srq_attr) (srq : mlx4_srq) (ok : bool)
| EvSetSqSizes (qp : mlx4_qp) (cap : ibv_qp_cap) (type : ibv_qp_type)
| EvSpinInit (l : spinlock) (r : Z)
| EvSpinLock (l : spinlock)
| EvSpinUnlock (l : spinlock)
| EvCqClean (cq : Z) (qpn : Z) (srq : option Z)
| EvStoreQp (qpn : Z) (qp : Z) (r : Z)
| EvClearQp (qpn : Z)
| EvCmd (c : kernel_cmd) (r : Z).

Definition is_kernel_cmd (e : event) : bool :=
  match e with EvCmd _ _ => true | _ => false end.

Definition is_release (e : event) : bool :=
  match e with
  | EvFree _ | EvFreeBuf _ | EvFreeDb _ => true
  | _ => false
  end.

(** [w_trace] is the log of collaborator calls, oldest first; [w_qp_table]
    the Resource Table of the context (queue-pair number to queue-pair
    object); [w_live] the addresses handed out by the allocators and not yet
    released; [w_db] the contents of the doorbell words; [w_page_size] the
    device page size. *)
Record world := {
  w_trace : list event;
  w_qp_table : gmap Z Z;
  w_live : gset Z;
  w_db : gmap Z Z;
  w_page_size : Z
}.

Definition set_trace (t : list event) (w : world) : world :=
  {| w_trace := t; w_qp_table := w_qp_table w; w_live := w_live w;
     w_db := w_db w; w_page_size := w_page_size w |}.

Definition set_qp_table (t : gmap Z Z) (w : world) : world :=
  {| w_trace := w_trace w; w_qp_table := t; w_live := w_live w;
     w_db := w_db w; w_page_size := w_page_size w |}.

Definition set_live (l : gset Z) (w : world) : world :=
  {| w_trace := w_trace w; w_qp_table := w_qp_table w; w_live := l;
     w_db := w_db w; w_page_size := w_page_size w |}.

Definition set_w_db (d : gmap Z Z) (w : world) : world :=
  {| w_trace := w_trace w; w_qp_table := w_qp_table w; w_live := w_live w;
     w_db := d; w_page_size := w_page_size w |}.

(** A computation on the world.  The result is [None] for a run that does
    not return; the world is then the one reached when the run got stuck in
    its loop. *)
Definition M (A : Type) : Type := world -> option A * world.

#[global] Instance M_ret : MRet M := fun A a w => (Some a, w).

#[global] Instance M_bind : MBind M := fun A B k m w =>
  match m w with
  | (Some a, w') => k a w'
  | (None, w') => (None, w')
  end.

Definition never {A : Type} : M A := fun w => (None, w).

(** The value of a loop, or no return when the loop does not end. *)
Definition loop_result {A : Type} (o : option A) : M A :=
  match o with
  | Some a => mret a
  | None => never
  end.

Definition modify (f : world -> world) : M unit :=
  fun w => (Some tt, f w).

Definition emit (e : event) : M unit :=
  modify (fun w => set_trace (w_trace w ++ [e]) w).

Definition acquire (p : Z) : M unit :=
  modify (fun w => set_live ({[p]} ∪ w_live w) w).

Definition release (p : Z) : M unit :=
  modify (fun w => set_live (w_live w ∖ {[p]}) w).

(** [malloc]: the outcome [r] is the address and the initial (arbitrary)
    contents of the new object, or [None] for a null result. *)
Definition malloc {T : Type} (r : option (Z * T)) : M (option (Z * T)) :=
  emit (EvMalloc (fst <$> r));;
  match r with
  | Some (p, _) => acquire p
  | None => mret tt
  end;;
  mret r.

Definition free (p : Z) : M unit :=
  emit (EvFree p);; release p.

Definition memset (p c n : Z) : M unit := emit (EvMemset p c n).

(** Modelled from the spec: the Buffer Allocator is defined outside
    [verbs.c].  "allocate(size, alignment) returns ... memory sized for a
    queue ring", or fails and hands nothing back; "free(buffer) releases
    it".  [r] is the address it answers, [None] when it fails. *)
Definition mlx4_alloc_buf (r : option Z) (size page_size : Z)
  : M (option mlx4_buf) :=
  emit (EvAllocBuf size page_size r);;
  match r with
  | Some p => acquire p;; mret (Some {| buf := p; buf_length := size |})
  | None => mret None
  end.

Definition mlx4_free_buf (b : mlx4_buf) : M unit :=
  emit (EvFreeBuf (buf b));; release (buf b).

(** Modelled from the spec: the Doorbell Allocator is defined outside
    [verbs.c].  "allocate(kind) returns a free slot"; "release(slot) returns
    it to the page's freelist".  [r] is the slot it answers, [None] for a
    null result. *)
Definition mlx4_alloc_db (r : option Z) (type : mlx4_db_type)
  : M (option Z) :=
  emit (EvAllocDb type r);;
  match r with
  | Some p => acquire p;; mret (Some p)
  | None => mret None
  end.

Definition mlx4_free_db (d : Z) : M unit :=
  emit (EvFreeDb d);; release d.

(** [*d = v] on a doorbell word. *)
Definition write_db (d v : Z) : M unit :=
  modify (fun w => set_w_db (<[d := v]> (w_db w)) w).

Definition pthread_spin_init (l : spinlock) (r : Z) : M Z :=
  emit (EvSpinInit l r);; mret r.

Definition pthread_spin_lock (l : spinlock) : M unit := emit (EvSpinLock l).

Definition pthread_spin_unlock (l : spinlock) : M unit :=
  emit (EvSpinUnlock l).

(** The kernel command client: the request is logged with the code [r] the
    kernel answers. *)
Definition ibv_cmd (c : kernel_cmd) (r : Z) : M Z :=
  emit (EvCmd c r);; mret r.

(** [mlx4_cq_clean(cq, qpn, srq)] is defined outside [verbs.c] and works on
    the completion ring, which the functions of [verbs.c] never read; the
    call is logged with its arguments. *)
Definition mlx4_cq_clean (cq : mlx4_cq) (qpn : Z) (srq : option Z) : M unit :=
  emit (EvCqClean (cq_addr cq) qpn srq).

(** Modelled from the spec: [mlx4_store_qp] is defined outside [verbs.c].
    "store(id, obj) inserts" (Resource Table), and "table registration" can
    fail (Queue Pair Manager, create): with result [r = 0] the entry is
    inserted, with any other result the table is left as it was. *)
Definition mlx4_store_qp (r : Z) (qpn : Z) (qp : Z) : M Z :=
  emit (EvStoreQp qpn qp r);;
  (if r =? 0
   then modify (fun w => set_qp_table (<[qpn := qp]> (w_qp_table w)) w)
   else mret tt);;
  mret r.

(** Modelled from the spec: [mlx4_clear_qp] is defined outside [verbs.c].
    "clear(id) removes an entry". *)
Definition mlx4_clear_qp (qpn : Z) : M unit :=
  emit (EvClearQp qpn);;
  modify (fun w => set_qp_table (delete qpn (w_qp_table w)) w).

(** Modelled from the spec: [mlx4_find_qp] is defined outside [verbs.c].
    "find(id) returns a reference" to the object stored under [id]. *)
Definition mlx4_find_qp (w : world) (qpn : Z) : option Z :=
  w_qp_table w !! qpn.

(** Modelled from the spec: [mlx4_init_qp_indices] is defined outside
    [verbs.c].  "reinitialize local producer/consumer indices on both send
    and receive sides to zero". *)
Definition mlx4_init_qp_indices (qp : mlx4_qp) : mlx4_qp :=
  set_rq (set_wq_tail 0 (set_wq_head 0 (rq qp)))
    (set_sq (set_wq_tail 0 (set_wq_head 0 (sq qp))) qp).

Definition gets {A : Type} (f : world -> A) : M A :=
  fun w => (Some (f w), w).

(** ** The functions of verbs.c *)

Section Verbs.

(** Constants of [mlx4.h] and [wqe.h]. *)
Variable MLX4_CQ_ENTRY_SIZE : Z.
Variable MLX4_STAT_RATE_OFFSET : Z.
Variable MLX4_WQE_CTRL_CQ_UPDATE : Z.

(** *** Completion queues *)

(** What the collaborators answer during one [mlx4_create_cq]. *)
Record create_cq_outcome := {
  cc_malloc : option (Z * mlx4_cq);
  cc_spin_init : Z;
  cc_alloc_buf : option Z;
  cc_alloc_db : option Z;
  cc_cmd_ret : Z;
  cc_resp_cqn : Z
}.

Definition at_cq_addr (p : Z) (c : mlx4_cq) : mlx4_cq :=
  {| cq_addr := p; cq_buf := cq_buf c; cqn := cqn c;
     cons_index := cons_index c; set_ci_db := set_ci_db c;
     arm_db := arm_db c; arm_sn := arm_sn c |}.

(** The labels [err], [err_buf] and [err_db] of [mlx4_create_cq]. *)
Definition create_cq_err (cq : mlx4_cq) : M (option mlx4_cq) :=
  free (cq_addr cq);; mret None.

Definition create_cq_err_buf (cq : mlx4_cq) : M (option mlx4_cq) :=
  mlx4_free_buf (cq_buf cq);; create_cq_err cq.

Definition create_cq_err_db (cq : mlx4_cq) : M (option mlx4_cq) :=
  mlx4_free_db (set_ci_db cq);; create_cq_err_buf cq.

(** Doorbell addresses count 32-bit words, so [cq->set_ci_db + 1] is the
    next word. *)
Definition mlx4_create_cq (k : create_cq_outcome)
    (context cqe channel comp_vector : Z) : M (option mlx4_cq) :=
  if cqe >? 0x3fffff then mret None else
  m ← malloc (cc_malloc k);
  match m with
  | None => mret None
  | Some (p, g) =>
    let cq := set_cons_index 0 (at_cq_addr p g) in
    r ← pthread_spin_init (CqLock (cq_addr cq)) (cc_spin_init k);
    if negb (r =? 0) then create_cq_err cq else
    cqe ← loop_result (align_cq_size cqe);
    page_size ← gets w_page_size;
    b ← mlx4_alloc_buf (cc_alloc_buf k)
          (Int.mul cqe MLX4_CQ_ENTRY_SIZE) page_size;
    match b with
    | None => create_cq_err cq
    | Some b =>
      let cq := set_cq_buf b cq in
      memset (buf (cq_buf cq)) 0 (Int.mul cqe MLX4_CQ_ENTRY_SIZE);;
      d ← mlx4_alloc_db (cc_alloc_db k) MLX4_DB_TYPE_CQ;
      match d with
      | None => create_cq_err_buf cq
      | Some d =>
        let cq := set_set_ci_db d cq in
        let cq := set_arm_db (set_ci_db cq + 1) cq in
        write_db (arm_db cq) 0;;
        let cq := set_arm_sn 1 cq in
        write_db (set_ci_db cq) 0;;
        ret ← ibv_cmd (CmdCreateCq (Int.add cqe (-1)) channel comp_vector
                         (buf (cq_buf cq)) (set_ci_db cq)) (cc_cmd_ret k);
        if negb (ret =? 0) then create_cq_err_db cq else
        let cq := set_cqn (cc_resp_cqn k) cq in
        mret (Some cq)
      end
    end
  end.

Definition mlx4_destroy_cq (cmd_ret : Z) (cq : mlx4_cq) : M Z :=
  ret ← ibv_cmd (CmdDestroyCq (cq_addr cq)) cmd_ret;
  if negb (ret =? 0) then mret ret else
  mlx4_free_db (set_ci_db cq);;
  mlx4_free_buf (cq_buf cq);;
  free (cq_addr cq);;
  mret 0.

(** *** Shared receive queues *)

(** What the collaborators answer during one [mlx4_create_srq];
    [cs_alloc_srq_buf] is what [mlx4_alloc_srq_buf] leaves in the object, or
    [None] when it fails. *)
Record create_srq_outcome := {
  cs_malloc : option (Z * mlx4_srq);
  cs_spin_init : Z;
  cs_alloc_srq_buf : mlx4_srq -> option mlx4_srq;
  cs_alloc_db : option Z;
  cs_cmd_ret : Z;
  cs_resp_srqn : Z
}.

Definition srq_with (s : mlx4_srq) (a : Z) (m g c d n : Z) : mlx4_srq :=
  {| srq_addr := a; srq_buf := srq_buf s; srq_wrid := srq_wrid s;
     srq_max := m; srq_max_gs := g; srq_counter := c; srq_db := d;
     srqn := n |}.

Definition mlx4_alloc_srq_buf (f : mlx4_srq -> option mlx4_srq)
    (attr : ibv_srq_attr) (s : mlx4_srq) : M (option mlx4_srq) :=
  match f s with
  | Some s' =>
      let s' := srq_with s' (srq_addr s) (srq_max s') (srq_max_gs s')
                  (srq_counter s') (srq_db s') (srqn s') in
      emit (EvAllocSrqBuf attr s true);;
      acquire (srq_wrid s');; acquire (buf (srq_buf s'));;
      mret (Some s')
  | None => emit (EvAllocSrqBuf attr s false);; mret None
  end.

Definition create_srq_err (s : mlx4_srq) : M (option mlx4_srq) :=
  free (srq_addr s);; mret None.

Definition create_srq_err_free (s : mlx4_srq) : M (option mlx4_srq) :=
  free (srq_wrid s);; mlx4_free_buf (srq_buf s);; create_srq_err s.

Definition create_srq_err_db (s : mlx4_srq) : M (option mlx4_srq) :=
  mlx4_free_db (srq_db s);; create_srq_err_free s.

Definition mlx4_create_srq (k : create_srq_outcome) (pd : mlx4_pd)
    (attr : ibv_srq_attr) : M (option mlx4_srq) :=
  if (max_wr attr >? Int.shl 1 16) || (max_sge attr >? 64)
  then mret None else
  m ← malloc (cs_malloc k);
  match m with
  | None => mret None
  | Some (p, g) =>
    let s := srq_with g p (srq_max g) (srq_max_gs g) (srq_counter g)
               (srq_db g) (srqn g) in
    r ← pthread_spin_init (SrqLock (srq_addr s)) (cs_spin_init k);
    if negb (r =? 0) then create_srq_err s else
    mx ← loop_result (align_queue_size (pd_context pd) (max_wr attr) 1);
    let s := srq_with s (srq_addr s) mx (max_sge attr) 0 (srq_db s)
               (srqn s) in
    b ← mlx4_alloc_srq_buf (cs_alloc_srq_buf k) attr s;
    match b with
    | None => create_srq_err s
    | Some s =>
      d ← mlx4_alloc_db (cs_alloc_db k) MLX4_DB_TYPE_RQ;
      match d with
      | None => create_srq_err_free s
      | Some d =>
        let s := srq_with s (srq_addr s) (srq_max s) (srq_max_gs s)
                   (srq_counter s) d (srqn s) in
        write_db (srq_db s) 0;;
        ret ← ibv_cmd (CmdCreateSrq attr (buf (srq_buf s)) (srq_db s))
                (cs_cmd_ret k);
        if negb (ret =? 0) then create_srq_err_db s else
        mret (Some (srq_with s (srq_addr s) (srq_max s) (srq_max_gs s)
                      (srq_counter s) (srq_db s) (cs_resp_srqn k)))
      end
    end
  end.

(** *** Queue pairs *)

(** What the collaborators answer during one [mlx4_create_qp].
    [cqp_alloc_qp_buf] is what [mlx4_alloc_qp_buf] leaves in the object
    ([None] when it fails) and [cqp_set_sq_sizes] what [mlx4_set_sq_sizes]
    leaves in the object and in the capabilities; [cqp_resp_qp_num] and
    [cqp_resp_cap] are the queue-pair number and the capabilities the kernel
    writes back on success. *)
Record create_qp_outcome := {
  cqp_malloc : option (Z * mlx4_qp);
  cqp_alloc_qp_buf : ibv_qp_cap -> ibv_qp_type -> mlx4_qp -> option mlx4_qp;
  cqp_spin_init_sq : Z;
  cqp_spin_init_rq : Z;
  cqp_alloc_db : option Z;
  cqp_cmd_ret : Z;
  cqp_resp_qp_num : Z;
  cqp_resp_cap : ibv_qp_cap;
  cqp_store_ret : Z;
  cqp_cmd_destroy_ret : Z;
  cqp_set_sq_sizes :
    mlx4_qp -> ibv_qp_cap -> ibv_qp_type -> mlx4_qp * ibv_qp_cap
}.

Definition at_qp_addr (p : Z) (q : mlx4_qp) : mlx4_qp :=
  {| qp_addr := p; ibv := ibv q; qp_buf := qp_buf q; sq := sq q;
     rq := rq q; db := db q; doorbell_qpn := doorbell_qpn q;
     sq_signal_bits := sq_signal_bits q |}.

Definition set_cap (c : ibv_qp_cap) (a : ibv_qp_init_attr)
  : ibv_qp_init_attr :=
  {| init_send_cq := init_send_cq a; init_recv_cq := init_recv_cq a;
     init_srq := init_srq a; cap := c; qp_type := qp_type a;
     sq_sig_all := sq_sig_all a |}.

(** [mlx4_alloc_qp_buf] allocates the two work-request id arrays and the
    buffer of the queue pair and records them in the object. *)
Definition mlx4_alloc_qp_buf
    (f : ibv_qp_cap -> ibv_qp_type -> mlx4_qp -> option mlx4_qp)
    (c : ibv_qp_cap) (type : ibv_qp_type) (qp : mlx4_qp)
  : M (option mlx4_qp) :=
  match f c type qp with
  | Some qp' =>
      let qp' := at_qp_addr (qp_addr qp) qp' in
      emit (EvAllocQpBuf c type qp true);;
      acquire (wq_wrid (sq qp'));; acquire (wq_wrid (rq qp'));;
      acquire (buf (qp_buf qp'));;
      mret (Some qp')
  | None => emit (EvAllocQpBuf c type qp false);; mret None
  end.

Definition mlx4_set_sq_sizes
    (f : mlx4_qp -> ibv_qp_cap -> ibv_qp_type -> mlx4_qp * ibv_qp_cap)
    (qp : mlx4_qp) (c : ibv_qp_cap) (type : ibv_qp_type)
  : M (mlx4_qp * ibv_qp_cap) :=
  emit (EvSetSqSizes qp c type);;
  mret (at_qp_addr (qp_addr qp) (f qp c type).1, (f qp c type).2).

(** [for (n = 0; qp->sq.max > 1 << n; ++n) ;] with [n] an 8-bit counter.
    From [n = 31] on, [1 << n] is read with wrap-around; the function gets
    there only when [sq.max] exceeds [2 ^ 30]. *)
Fixpoint log_sq_bb_count_loop (fuel : nat) (n sq_max : Z) : option Z :=
  match fuel with
  | O => None
  | S fuel' =>
      if sq_max >? Int.shl 1 n
      then log_sq_bb_count_loop fuel' (Int.uint8 (n + 1)) sq_max
      else Some n
  end.

Definition log_sq_bb_count (sq_max : Z) : option Z :=
  log_sq_bb_count_loop 512 0 sq_max.

(** The sanity check at the head of [mlx4_create_qp]. *)
Definition qp_cap_too_large (c : ibv_qp_cap) : bool :=
  (max_send_wr c >? 65536) ||
  (max_recv_wr c >? 65536) ||
  (max_send_sge c >? 64) ||
  (max_recv_sge c >? 64) ||
  (max_inline_data c >? 1024).

(** The hard limits on the capabilities of a queue pair, as the spec gives
    them. *)
Definition qp_cap_within_limits (c : ibv_qp_cap) : Prop :=
  max_send_wr c <= 65536 /\ max_recv_wr c <= 65536 /\
  max_send_sge c <= 64 /\ max_recv_sge c <= 64 /\
  max_inline_data c <= 1024.

(** The labels [err], [err_free], [err_rq_db] and [err_destroy]. *)
Definition create_qp_err (qp : mlx4_qp)
  : M (option (mlx4_qp * ibv_qp_cap)) :=
  free (qp_addr qp);; mret None.

Definition create_qp_err_free (qp : mlx4_qp)
  : M (option (mlx4_qp * ibv_qp_cap)) :=
  free (wq_wrid (sq qp));;
  free (wq_wrid (rq qp));;
  mlx4_free_buf (qp_buf qp);;
  create_qp_err qp.

Definition create_qp_err_rq_db (qp : mlx4_qp)
  : M (option (mlx4_qp * ibv_qp_cap)) :=
  mlx4_free_db (db qp);; create_qp_err_free qp.

Definition create_qp_err_destroy (r : Z) (qp : mlx4_qp)
  : M (option (mlx4_qp * ibv_qp_cap)) :=
  ibv_cmd (CmdDestroyQp (qp_addr qp)) r;; create_qp_err_rq_db qp.

(** On success the result is the new object together with the capabilities
    written back into [attr->cap]. *)
Definition mlx4_create_qp (k : create_qp_outcome) (pd : mlx4_pd)
    (attr : ibv_qp_init_attr) : M (option (mlx4_qp * ibv_qp_cap)) :=
  if qp_cap_too_large (cap attr) then mret None else
  m ← malloc (cqp_malloc k);
  match m with
  | None => mret None
  | Some (p, g) =>
    let qp := at_qp_addr p g in
    sq_max ← loop_result
      (align_queue_size (pd_context pd) (max_send_wr (cap attr)) 0);
    let qp := set_sq (set_wq_max sq_max (sq qp)) qp in
    rq_max ← loop_result
      (align_queue_size (pd_context pd) (max_recv_wr (cap attr)) 0);
    let qp := set_rq (set_wq_max rq_max (rq qp)) qp in
    b ← mlx4_alloc_qp_buf (cqp_alloc_qp_buf k) (cap attr) (qp_type attr) qp;
    match b with
    | None => create_qp_err qp
    | Some qp =>
      let qp := mlx4_init_qp_indices qp in
      r1 ← pthread_spin_init (SqLock (qp_addr qp)) (cqp_spin_init_sq k);
      failed ← (if negb (r1 =? 0) then mret true else
                r2 ← pthread_spin_init (RqLock (qp_addr qp))
                       (cqp_spin_init_rq k);
                mret (negb (r2 =? 0)));
      if failed : bool then create_qp_err_free qp else
      d ← mlx4_alloc_db (cqp_alloc_db k) MLX4_DB_TYPE_RQ;
      match d with
      | None => create_qp_err_free qp
      | Some d =>
        let qp := set_db d qp in
        write_db (db qp) 0;;
        bb ← loop_result (log_sq_bb_count (wq_max (sq qp)));
        ret ← ibv_cmd (CmdCreateQp attr (buf (qp_buf qp)) (db qp)
                         (wq_wqe_shift (sq qp)) bb) (cqp_cmd_ret k);
        if negb (ret =? 0) then create_qp_err_rq_db qp else
        let qp := set_ibv (set_qp_num (cqp_resp_qp_num k) (ibv qp)) qp in
        let attr := set_cap (cqp_resp_cap k) attr in
        ret ← mlx4_store_qp (cqp_store_ret k) (qp_num (ibv qp)) (qp_addr qp);
        if negb (ret =? 0)
        then create_qp_err_destroy (cqp_cmd_destroy_ret k) qp else
        let qp := set_rq (set_wq_max (max_recv_wr (cap attr)) (rq qp)) qp in
        let qp := set_rq (set_wq_max_gs (max_recv_sge (cap attr)) (rq qp))
                    qp in
        '(qp, c) ← mlx4_set_sq_sizes (cqp_set_sq_sizes k) qp (cap attr)
                     (qp_type attr);
        let qp := set_doorbell_qpn
                    (htonl (Int.uint32 (Z.shiftl (qp_num (ibv qp)) 8))) qp in
        let qp := if negb (sq_sig_all attr =? 0)
                  then set_sq_signal_bits (htonl MLX4_WQE_CTRL_CQ_UPDATE) qp
                  else set_sq_signal_bits (htonl 0) qp in
        mret (Some (qp, c))
      end
    end
  end.

(** [qp->srq ? to_msrq(qp->srq) : NULL] *)
Definition srq_or_null (s : option Z) : option Z :=
  match s with
  | Some p => Some p
  | None => None
  end.

Definition mlx4_modify_qp (cmd_ret : Z) (qp : mlx4_qp) (attr : ibv_qp_attr)
    (attr_mask : Z) : M (Z * mlx4_qp) :=
  ret ← ibv_cmd (CmdModifyQp (qp_addr qp) attr attr_mask) cmd_ret;
  if (ret =? 0) &&
     negb (Z.land attr_mask IBV_QP_STATE =? 0) &&
     ibv_qp_state_eqb (qp_state attr) IBV_QPS_RESET
  then
    mlx4_cq_clean (recv_cq (ibv qp)) (qp_num (ibv qp))
      (srq_or_null (srq (ibv qp)));;
    (if negb (cq_addr (send_cq (ibv qp)) =? cq_addr (recv_cq (ibv qp)))
     then mlx4_cq_clean (send_cq (ibv qp)) (qp_num (ibv qp)) None
     else mret tt);;
    mret (ret, mlx4_init_qp_indices qp)
  else mret (ret, qp).

Definition mlx4_lock_cqs (qp : ibv_qp) : M unit :=
  let send_cq := send_cq qp in
  let recv_cq := recv_cq qp in
  if cq_addr send_cq =? cq_addr recv_cq then
    pthread_spin_lock (CqLock (cq_addr send_cq))
  else if cqn send_cq <? cqn recv_cq then
    pthread_spin_lock (CqLock (cq_addr send_cq));;
    pthread_spin_lock (CqLock (cq_addr recv_cq))
  else
    pthread_spin_lock (CqLock (cq_addr recv_cq));;
    pthread_spin_lock (CqLock (cq_addr send_cq)).

Definition mlx4_unlock_cqs (qp : ibv_qp) : M unit :=
  let send_cq := send_cq qp in
  let recv_cq := recv_cq qp in
  if cq_addr send_cq =? cq_addr recv_cq then
    pthread_spin_unlock (CqLock (cq_addr send_cq))
  else if cqn send_cq <? cqn recv_cq then
    pthread_spin_unlock (CqLock (cq_addr recv_cq));;
    pthread_spin_unlock (CqLock (cq_addr send_cq))
  else
    pthread_spin_unlock (CqLock (cq_addr send_cq));;
    pthread_spin_unlock (CqLock (cq_addr recv_cq)).

(** What the collaborators answer during one [mlx4_destroy_qp]: the kernel
    to the destroy command, and the Resource Table to the re-insertion. *)
Record destroy_qp_outcome := {
  dqp_cmd_ret : Z;
  dqp_store_ret : Z
}.

Definition mlx4_destroy_qp (k : destroy_qp_outcome) (qp : mlx4_qp) : M Z :=
  let ibqp := ibv qp in
  mlx4_cq_clean (recv_cq ibqp) (qp_num ibqp) (srq_or_null (srq ibqp));;
  (if negb (cq_addr (send_cq ibqp) =? cq_addr (recv_cq ibqp))
   then mlx4_cq_clean (send_cq ibqp) (qp_num ibqp) None
   else mret tt);;
  mlx4_lock_cqs ibqp;;
  mlx4_clear_qp (qp_num ibqp);;
  mlx4_unlock_cqs ibqp;;
  ret ← ibv_cmd (CmdDestroyQp (qp_addr qp)) (dqp_cmd_ret k);
  if negb (ret =? 0) then
    mlx4_lock_cqs ibqp;;
    mlx4_store_qp (dqp_store_ret k) (qp_num ibqp) (qp_addr qp);;
    mlx4_unlock_cqs ibqp;;
    mret ret
  else
    mlx4_free_db (db qp);;
    free (wq_wrid (sq qp));;
    free (wq_wrid (rq qp));;
    mlx4_free_buf (qp_buf qp);;
    free (qp_addr qp);;
    mret 0.

(** *** Address handles *)

(** [memset(&ah->av, 0, sizeof ah->av)] *)
Definition av_zero (v : mlx4_av) : mlx4_av :=
  {| av_port_pd := [0; 0; 0; 0]; av_g_slid := 0; av_dlid := [0; 0];
     av_gid_index := 0; av_stat_rate := 0; av_hop_limit := 0;
     av_sl_tclass_flowlabel := [0; 0; 0; 0];
     av_dgid := replicate 16 0 |}.

Definition set_av_port_pd (x : list Z) (v : mlx4_av) : mlx4_av :=
  {| av_port_pd := x; av_g_slid := av_g_slid v; av_dlid := av_dlid v;
     av_gid_index := av_gid_index v; av_stat_rate := av_stat_rate v;
     av_hop_limit := av_hop_limit v;
     av_sl_tclass_flowlabel := av_sl_tclass_flowlabel v;
     av_dgid := av_dgid v |}.

Definition set_av_g_slid (x : Z) (v : mlx4_av) : mlx4_av :=
  {| av_port_pd := av_port_pd v; av_g_slid := x; av_dlid := av_dlid v;
     av_gid_index := av_gid_index v; av_stat_rate := av_stat_rate v;
     av_hop_limit := av_hop_limit v;
     av_sl_tclass_flowlabel := av_sl_tclass_flowlabel v;
     av_dgid := av_dgid v |}.

Definition set_av_dlid (x : list Z) (v : mlx4_av) : mlx4_av :=
  {| av_port_pd := av_port_pd v; av_g_slid := av_g_slid v; av_dlid := x;
     av_gid_index := av_gid_index v; av_stat_rate := av_stat_rate v;
     av_hop_limit := av_hop_limit v;
     av_sl_tclass_flowlabel := av_sl_tclass_flowlabel v;
     av_dgid := av_dgid v |}.

Definition set_av_gid_index (x : Z) (v : mlx4_av) : mlx4_av :=
  {| av_port_pd := av_port_pd v; av_g_slid := av_g_slid v;
     av_dlid := av_dlid v; av_gid_index := x;
     av_stat_rate := av_stat_rate v; av_hop_limit := av_hop_limit v;
     av_sl_tclass_flowlabel := av_sl_tclass_flowlabel v;
     av_dgid := av_dgid v |}.

Definition set_av_stat_rate (x : Z) (v : mlx4_av) : mlx4_av :=
  {| av_port_pd := av_port_pd v; av_g_slid := av_g_slid v;
     av_dlid := av_dlid v; av_gid_index := av_gid_index v;
     av_stat_rate := x; av_hop_limit := av_hop_limit v;
     av_sl_tclass_flowlabel := av_sl_tclass_flowlabel v;
     av_dgid := av_dgid v |}.

Definition set_av_hop_limit (x : Z) (v : mlx4_av) : mlx4_av :=
  {| av_port_pd := av_port_pd v; av_g_slid := av_g_slid v;
     av_dlid := av_dlid v; av_gid_index := av_gid_index v;
     av_stat_rate := av_stat_rate v; av_hop_limit := x;
     av_sl_tclass_flowlabel := av_sl_tclass_flowlabel v;
     av_dgid := av_dgid v |}.

Definition set_av_sl_tclass_flowlabel (x : list Z) (v : mlx4_av) : mlx4_av :=
  {| av_port_pd := av_port_pd v; av_g_slid := av_g_slid v;
     av_dlid := av_dlid v; av_gid_index := av_gid_index v;
     av_stat_rate := av_stat_rate v; av_hop_limit := av_hop_limit v;
     av_sl_tclass_flowlabel := x;
     av_dgid := av_dgid v |}.

Definition set_av_dgid (x : list Z) (v : mlx4_av) : mlx4_av :=
  {| av_port_pd := av_port_pd v; av_g_slid := av_g_slid v;
     av_dlid := av_dlid v; av_gid_index := av_gid_index v;
     av_stat_rate := av_stat_rate v; av_hop_limit := av_hop_limit v;
     av_sl_tclass_flowlabel := av_sl_tclass_flowlabel v;
     av_dgid := x |}.

(** The statements of [mlx4_create_ah] between [malloc] and [return], on
    the address vector [v] of the new object. *)
Definition fill_av (pd : mlx4_pd) (attr : ibv_ah_attr) (v : mlx4_av)
  : mlx4_av :=
  let v := av_zero v in
  let v := set_av_port_pd
             (htonl (Int.uint32
                       (Z.lor (pdn pd) (Int.shl (port_num attr) 24)))) v in
  let v := set_av_g_slid (src_path_bits attr) v in
  let v := set_av_dlid (htons (dlid attr)) v in
  let v := if negb (static_rate attr =? 0)
           then set_av_stat_rate
                  (Int.uint8 (static_rate attr + MLX4_STAT_RATE_OFFSET)) v
           else v in
  let v := set_av_sl_tclass_flowlabel
             (htonl (Int.uint32 (Int.shl (sl attr) 28))) v in
  if negb (is_global attr =? 0) then
    let v := set_av_g_slid (Z.lor (av_g_slid v) 0x80) v in
    let v := set_av_gid_index (sgid_index (grh attr)) v in
    let v := set_av_hop_limit (hop_limit (grh attr)) v in
    let v := set_av_sl_tclass_flowlabel
               (be_or (av_sl_tclass_flowlabel v)
                  (htonl (Int.uint32
                            (Z.lor (Int.shl (traffic_class (grh attr)) 20)
                               (flow_label (grh attr)))))) v in
    set_av_dgid (take 16 (dgid (grh attr))) v
  else v.

(** [m] is what [malloc] answers: the address and the initial contents of
    the new object, or [None]. *)
Definition mlx4_create_ah (m : option (Z * mlx4_ah)) (pd : mlx4_pd)
    (attr : ibv_ah_attr) : M (option mlx4_ah) :=
  a ← malloc m;
  match a with
  | None => mret None
  | Some (p, g) => mret (Some {| ah_addr := p; av := fill_av pd attr (av g) |})
  end.

Definition mlx4_destroy_ah (ah : mlx4_ah) : M Z :=
  free (ah_addr ah);; mret 0.

(** *** The remaining entry points *)

(** [ENOSYS] of [errno.h]. *)
Definition ENOSYS : Z := 38.

Definition mlx4_resize_cq (ibcq : mlx4_cq) (cqe : Z) : M Z :=
  mret (- ENOSYS).

Definition mlx4_destroy_srq (cmd_ret : Z) (s : mlx4_srq) : M Z :=
  ret ← ibv_cmd (CmdDestroySrq (srq_addr s)) cmd_ret;
  if negb (ret =? 0) then mret ret else
  mlx4_free_db (srq_db s);;
  mlx4_free_buf (srq_buf s);;
  free (srq_wrid s);;
  free (srq_addr s);;
  mret 0.

(** The device attributes, with the field [mlx4_query_device] writes. *)
Record ibv_device_attr := { fw_ver : string }.

(** [%d] of a value that is not negative. *)
Definition dec (n : Z) : string :=
  NilEmpty.string_of_uint (N.to_uint (Z.to_N n)).

Fixpoint zeros (n : nat) : string :=
  match n with
  | O => EmptyString
  | S n' => String "0"%char (zeros n')
  end.

(** [%03d] and the like: zeros in front up to the width. *)
Definition pad0 (width : nat) (s : string) : string :=
  String.append (zeros (width - String.length s)) s.

(** [snprintf(buf, size, ...)] keeps at most [size - 1] characters. *)
Definition snprintf (size : nat) (s : string) : string :=
  substring 0 (size - 1) s.

(** [sizeof attr->fw_ver] *)
Definition fw_ver_size : nat := 64.

(** [ibv_cmd_query_device] answers with its code [cmd_ret], with the
    attributes [attr] as it filled them in and with the raw firmware
    version; the function touches nothing else. *)
Definition mlx4_query_device (cmd_ret raw_fw_ver : Z)
    (attr : ibv_device_attr) : Z * ibv_device_attr :=
  if negb (cmd_ret =? 0) then (cmd_ret, attr) else
  let major := Z.land (Z.shiftr raw_fw_ver 32) 0xffff in
  let minor := Z.land (Z.shiftr raw_fw_ver 16) 0xffff in
  let sub_minor := Z.land raw_fw_ver 0xffff in
  (0, {| fw_ver :=
           snprintf fw_ver_size
             (String.append (dec major)
                (String.append "."%string
                   (String.append (dec minor)
                      (String.append "."%string
                         (pad0 3 (dec sub_minor)))))) |}).

(** ** Reading a run *)

(** The calls a run added to the log. *)
Definition new_events (w w' : world) : list event :=
  drop (List.length (w_trace w)) (w_trace w').

Definition spinlock_eqb (a b : spinlock) : bool :=
  match a, b with
  | CqLock x, CqLock y | SqLock x, SqLock y | RqLock x, RqLock y
  | SrqLock x, SrqLock y => x =? y
  | _, _ => false
  end.

(** Giving a lock back takes its most recent acquisition off the list of
    held locks. *)
Fixpoint give_back (l : spinlock) (held : list spinlock) : list spinlock :=
  match held with
  | [] => []
  | h :: held' => if spinlock_eqb l h then held' else h :: give_back l held'
  end.

(** The spin locks a log leaves held, most recently taken first. *)
Fixpoint held_after (t : list event) (held : list spinlock) : list spinlock :=
  match t with
  | [] => held
  | EvSpinLock l :: t' => held_after t' (l :: held)
  | EvSpinUnlock l :: t' => held_after t' (give_back l held)
  | _ :: t' => held_after t' held
  end.

(** The cleaning the spec asks of destroy and of a reset: the receive
    completion queue for the queue-pair number, with the shared receive
    queue if the queue pair has one, then the send completion queue if it
    is a different one. *)
Definition clean_events (qp : ibv_qp) : list event :=
  EvCqClean (cq_addr (recv_cq qp)) (qp_num qp) (srq qp) ::
  (if cq_addr (send_cq qp) =? cq_addr (recv_cq qp) then []
   else [EvCqClean (cq_addr (send_cq qp)) (qp_num qp) None]).

(** *** The Lock-Ordering Protocol, in the words of the spec *)

(** Kernel-assigned identifiers name completion queues: the two completion
    queues of a queue pair carry the same [cqn] only when they are the same
    object. *)
Definition cq_ids_unique (qp : ibv_qp) : Prop :=
  cq_addr (send_cq qp) <> cq_addr (recv_cq qp) ->
  cqn (send_cq qp) <> cqn (recv_cq qp).

(** [lock_order qp l]: [l] is an admissible order in which to take the
    completion-queue locks of [qp].  One lock when both sides use the same
    completion queue; otherwise both locks, the one with the strictly
    smaller identifier first. *)
Inductive lock_order (qp : ibv_qp) : list mlx4_cq -> Prop :=
| lock_order_same :
    cq_addr (send_cq qp) = cq_addr (recv_cq qp) ->
    lock_order qp [send_cq qp]
| lock_order_send_first :
    cq_addr (send_cq qp) <> cq_addr (recv_cq qp) ->
    cqn (send_cq qp) < cqn (recv_cq qp) ->
    lock_order qp [send_cq qp; recv_cq qp]
| lock_order_recv_first :
    cq_addr (send_cq qp) <> cq_addr (recv_cq qp) ->
    cqn (recv_cq qp) < cqn (send_cq qp) ->
    lock_order qp [recv_cq qp; send_cq qp].

Definition cq_lock (c : mlx4_cq) : spinlock := CqLock (cq_addr c).

(** Taking the locks of [l] in order, and giving them back in the reverse
    order. *)
Definition lock_events (l : list mlx4_cq) : list event :=
  map (fun c => EvSpinLock (cq_lock c)) l.

Definition unlock_events (l : list mlx4_cq) : list event :=
  map (fun c => EvSpinUnlock (cq_lock c)) (rev l).

(** Running a computation: its result and the world it leaves. *)
Definition result {A : Type} (m : M A) (w : world) : option A := (m w).1.
Definition after {A : Type} (m : M A) (w : world) : world := (m w).2.

(** [grows m]: whatever [m] does, the log it leaves extends the log it
    found. *)
Definition grows {A : Type} (m : M A) : Prop :=
  forall w, w_trace w `prefix_of` w_trace (after m w).

Definition log (t : list event) (w : world) : world :=
  set_trace (w_trace w ++ t) w.

(** *** Reading allocations, bytes and lock orders *)

(** An allocator never hands out an address that is still in use. *)
Definition fresh (w : world) (o : option Z) : Prop :=
  forall p, o = Some p -> p ∉ w_live w.

(** What [mlx4_alloc_srq_buf] hands out is not in use either. *)
Definition srq_buf_fresh (k : create_srq_outcome) (w : world) : Prop :=
  forall s s', cs_alloc_srq_buf k s = Some s' ->
    (srq_wrid s' ∉ w_live w) /\ (buf (srq_buf s') ∉ w_live w).

(** What [mlx4_alloc_qp_buf] hands out is not in use either. *)
Definition qp_buf_fresh (k : create_qp_outcome) (w : world) : Prop :=
  forall c t q q', cqp_alloc_qp_buf k c t q = Some q' ->
    (wq_wrid (sq q') ∉ w_live w) /\ (wq_wrid (rq q') ∉ w_live w) /\
    (buf (qp_buf q') ∉ w_live w).

(** Path attributes that fit their hardware fields: a 24-bit protection
    domain number, an 8-bit port, a 4-bit service level, a 16-bit
    destination identifier, 7 source path bits, an 8-bit traffic class and
    a 20-bit flow label. *)
Definition ah_attr_in_range (pd : mlx4_pd) (attr : ibv_ah_attr) : Prop :=
  0 <= pdn pd < 2 ^ 24 /\ 0 <= port_num attr < 2 ^ 8 /\
  0 <= sl attr < 2 ^ 4 /\ 0 <= dlid attr < 2 ^ 16 /\
  0 <= src_path_bits attr < 2 ^ 7 /\
  0 <= traffic_class (grh attr) < 2 ^ 8 /\
  0 <= flow_label (grh attr) < 2 ^ 20.

(** [holds_on_bits b p f]: [f] holds on every number whose binary
    expansion is that of [p] followed by [b] more bits. *)
Fixpoint holds_on_bits (b : nat) (p : Z) (f : Z -> bool) : bool :=
  match b with
  | O => f p
  | S b' => holds_on_bits b' (2 * p) f && holds_on_bits b' (2 * p + 1) f
  end.

(** An allocator call that handed something out. *)
Definition is_allocation (e : event) : bool :=
  match e with
  | EvMalloc (Some _) | EvAllocBuf _ _ (Some _) | EvAllocDb _ (Some _) => true
  | _ => false
  end.

(** The number a big-endian field holds. *)
Definition be_value (bs : list Z) : Z :=
  fold_left (fun acc b => acc * 256 + b) bs 0.

(** [takes_before t x y]: in the log [t] the lock [x] is taken at an
    earlier position than the lock [y]. *)
Definition takes_before (t : list event) (x y : spinlock) : Prop :=
  exists i j : nat,
    (i < j)%nat /\ t !! i = Some (EvSpinLock x) /\
    t !! j = Some (EvSpinLock y).

(** Within a set of completion queues, the kernel-assigned identifier
    names the object. *)
Definition named_by_cqn (l : list mlx4_cq) : Prop :=
  forall a b, In a l -> In b l -> (cq_addr a = cq_addr b <-> cqn a = cqn b).

(** The calls a computation adds to the log of [w]. *)
Definition calls {A : Type} (m : M A) (w : world) : list event :=
  new_events w (after m w).


(** The queue pairs the kernel holds after the calls of a log, counted
    against those it held before: an accepted create command adds one, an
    accepted destroy command takes one away, a refused command changes
    nothing. *)
Definition kernel_qp_delta (e : event) : Z :=
  match e with
  | EvCmd (CmdCreateQp _ _ _ _ _) r => if r =? 0 then 1 else 0
  | EvCmd (CmdDestroyQp _) r => if r =? 0 then -1 else 0
  | _ => 0
  end.

Definition kernel_qps_left (t : list event) : Z :=
  foldr (fun e n => kernel_qp_delta e + n) 0 t.

(** ** Sample objects

    A queue pair with two distinct completion queues, registered under the
    number 7 in a world that holds its allocations; used to run the
    functions on concrete inputs. *)

Definition sample_cq (addr n : Z) : mlx4_cq :=
  {| cq_addr := addr; cq_buf := {| buf := addr + 4096; buf_length := 4096 |};
     cqn := n; cons_index := 0; set_ci_db := addr + 64; arm_db := addr + 65;
     arm_sn := 1 |}.

Definition sample_wq (wrid : Z) : mlx4_wq :=
  {| wq_wrid := wrid; wq_max := 16; wq_max_gs := 4; wq_head := 3;
     wq_tail := 2; wq_wqe_shift := 6 |}.

Definition sample_ibv_qp : ibv_qp :=
  {| context := 1; send_cq := sample_cq 20000 5; recv_cq := sample_cq 30000 9;
     srq := None; qp_num := 7 |}.

Definition sample_qp : mlx4_qp :=
  {| qp_addr := 1000; ibv := sample_ibv_qp;
     qp_buf := {| buf := 8192; buf_length := 2048 |};
     sq := sample_wq 1100; rq := sample_wq 1200; db := 1300;
     doorbell_qpn := htonl (Z.shiftl 7 8); sq_signal_bits := htonl 0 |}.

Definition sample_world : world :=
  {| w_trace := []; w_qp_table := {[7 := 1000]};
     w_live := {[1000; 1100; 1200; 1300; 8192]}; w_db := ∅;
     w_page_size := 4096 |}.

Definition sample_pd : mlx4_pd := {| pd_context := 1; pdn := 18 |}.

(** Collaborators that all succeed. *)
Definition sample_cq_outcome : create_cq_outcome :=
  {| cc_malloc := Some (40000, sample_cq 0 0); cc_spin_init := 0;
     cc_alloc_buf := Some 65536; cc_alloc_db := Some 512; cc_cmd_ret := 0;
     cc_resp_cqn := 11 |}.

Definition sample_qp_outcome : create_qp_outcome :=
  {| cqp_malloc := Some (1000, sample_qp);
     cqp_alloc_qp_buf := fun _ _ q => Some q;
     cqp_spin_init_sq := 0; cqp_spin_init_rq := 0;
     cqp_alloc_db := Some 1300; cqp_cmd_ret := 0; cqp_resp_qp_num := 7;
     cqp_resp_cap :=
       {| max_send_wr := 0; max_recv_wr := 8; max_send_sge := 1;
          max_recv_sge := 1; max_inline_data := 0 |};
     cqp_store_ret := 0; cqp_cmd_destroy_ret := 0;
     cqp_set_sq_sizes := fun q c _ => (q, c) |}.

Definition sample_srq : mlx4_srq :=
  {| srq_addr := 0; srq_buf := {| buf := 12288; buf_length := 4096 |};
     srq_wrid := 5100; srq_max := 170; srq_max_gs := 170;
     srq_counter := 170; srq_db := 170; srqn := 170 |}.

Definition sample_srq_outcome : create_srq_outcome :=
  {| cs_malloc := Some (5000, sample_srq); cs_spin_init := 0;
     cs_alloc_srq_buf := fun s => Some s; cs_alloc_db := Some 520;
     cs_cmd_ret := 0; cs_resp_srqn := 3 |}.

Definition sample_init_attr (c : ibv_qp_cap) : ibv_qp_init_attr :=
  {| init_send_cq := 20000; init_recv_cq := 30000; init_srq := None;
     cap := c; qp_type := IBV_QPT_RC; sq_sig_all := 0 |}.

(** Capabilities at exactly the limits, one step beyond the send depth, and
    with no send work requests. *)
Definition cap_at_limits : ibv_qp_cap :=
  {| max_send_wr := 65536; max_recv_wr := 65536; max_send_sge := 64;
     max_recv_sge := 64; max_inline_data := 1024 |}.

Definition cap_send_too_deep : ibv_qp_cap :=
  {| max_send_wr := 65537; max_recv_wr := 16; max_send_sge := 1;
     max_recv_sge := 1; max_inline_data := 0 |}.

Definition cap_no_send : ibv_qp_cap :=
  {| max_send_wr := 0; max_recv_wr := 8; max_send_sge := 1;
     max_recv_sge := 1; max_inline_data := 0 |}.

Definition sample_ah_attr : ibv_ah_attr :=
  {| grh := {| dgid := [254; 128; 0; 0; 0; 0; 0; 0; 0; 2; 201; 3; 0; 0; 0; 1];
               flow_label := 0x12345; sgid_index := 2; hop_limit := 64;
               traffic_class := 7 |};
     dlid := 0x1234; sl := 3; src_path_bits := 5; static_rate := 2;
     is_global := 1; port_num := 1 |}.

Definition set_static_rate (r : Z) (a : ibv_ah_attr) : ibv_ah_attr :=
  {| grh := grh a; dlid := dlid a; sl := sl a;
     src_path_bits := src_path_bits a; static_rate := r;
     is_global := is_global a; port_num := port_num a |}.

(** Two sets of attributes without a global route that differ in the
    route fields only. *)
Definition local_ah_attr : ibv_ah_attr :=
  {| grh := grh sample_ah_attr;
     dlid := 0x1234; sl := 3; src_path_bits := 5; static_rate := 2;
     is_global := 0; port_num := 1 |}.

Definition local_ah_attr_other_route : ibv_ah_attr :=
  {| grh := {| dgid := []; flow_label := 7; sgid_index := 0; hop_limit := 1;
               traffic_class := 0 |};
     dlid := 0x1234; sl := 3; src_path_bits := 5; static_rate := 2;
     is_global := 0; port_num := 1 |}.

(** A world in which nothing is allocated or registered yet. *)
Definition empty_world : world :=
  {| w_trace := []; w_qp_table := ∅; w_live := ∅; w_db := ∅;
     w_page_size := 4096 |}.

(** The kernel refuses the create command. *)
Definition refused_cq_outcome : create_cq_outcome :=
  {| cc_malloc := Some (40000, sample_cq 0 0); cc_spin_init := 0;
     cc_alloc_buf := Some 65536; cc_alloc_db := Some 512; cc_cmd_ret := 12;
     cc_resp_cqn := 0 |}.

Definition refused_srq_outcome : create_srq_outcome :=
  {| cs_malloc := Some (5000, sample_srq); cs_spin_init := 0;
     cs_alloc_srq_buf := fun s => Some s; cs_alloc_db := Some 520;
     cs_cmd_ret := 12; cs_resp_srqn := 0 |}.

(** The kernel creates the queue pair, the Resource Table cannot take it. *)
Definition unregistered_qp_outcome : create_qp_outcome :=
  {| cqp_malloc := Some (1000, sample_qp);
     cqp_alloc_qp_buf := fun _ _ q => Some q;
     cqp_spin_init_sq := 0; cqp_spin_init_rq := 0;
     cqp_alloc_db := Some 1300; cqp_cmd_ret := 0; cqp_resp_qp_num := 9;
     cqp_resp_cap := cap_no_send; cqp_store_ret := -1;
     cqp_cmd_destroy_ret := 0;
     cqp_set_sq_sizes := fun q c _ => (q, c) |}.

(** A queue pair that uses the completion queues of [sample_ibv_qp] the
    other way round. *)
Definition swapped_ibv_qp : ibv_qp :=
  {| context := 1; send_cq := sample_cq 30000 9; recv_cq := sample_cq 20000 5;
     srq := None; qp_num := 8 |}.


(** The Resource Table cannot take the queue pair, and the kernel refuses
    to destroy it again. *)
Definition orphaning_qp_outcome : create_qp_outcome :=
  {| cqp_malloc := Some (1000, sample_qp);
     cqp_alloc_qp_buf := fun _ _ q => Some q;
     cqp_spin_init_sq := 0; cqp_spin_init_rq := 0;
     cqp_alloc_db := Some 1300; cqp_cmd_ret := 0; cqp_resp_qp_num := 9;
     cqp_resp_cap := cap_no_send; cqp_store_ret := -1;
     cqp_cmd_destroy_ret := 16;
     cqp_set_sq_sizes := fun q c _ => (q, c) |}.

(** Memory as [malloc] may hand it out: nothing in it is zero. *)
Definition garbage_av : mlx4_av :=
  {| av_port_pd := [255; 255; 255; 255]; av_g_slid := 170;
     av_dlid := [170; 170]; av_gid_index := 170; av_stat_rate := 170;
     av_hop_limit := 170; av_sl_tclass_flowlabel := [170; 170; 170; 170];
     av_dgid := replicate 16 170 |}.

Definition garbage_ah : mlx4_ah := {| ah_addr := 0; av := garbage_av |}.

(** How far the loop counter is after [n] doublings. *)
Fixpoint doubled (n : nat) (x : Z) : Z :=
  match n with
  | O => x
  | S n' => doubled n' (Int.shl x 1)
  end.

(** ** Facts *)

(** *** Machine integers *)

Lemma sint32_id z : Int.in_int z -> Int.sint32 z = z.
Proof.
  unfold Int.in_int, Int.sint32. intros Hz.
  rewrite Z.mod_small by lia. lia.
Qed.

Lemma shl_pow2 k : 0 <= k < 30 -> Int.shl (2 ^ k) 1 = 2 ^ (k + 1).
Proof.
  intros Hk. unfold Int.shl.
  rewrite Z.shiftl_mul_pow2 by lia.
  rewrite Z.pow_add_r by lia.
  apply sint32_id. unfold Int.in_int.
  assert (2 ^ k < 2 ^ 30) by (apply Z.pow_lt_mono_r; lia).
  assert (0 < 2 ^ k) by (apply Z.pow_pos_nonneg; lia).
  lia.
Qed.

(** *** The rounding loops *)

Lemma pow2_least k bound r' :
  0 <= k ->
  (0 < k -> 2 ^ (k - 1) < bound) ->
  is_pow2 r' -> bound <= r' -> 2 ^ k <= r'.
Proof.
  intros Hk Hprev [j [Hj ->]] Hb.
  destruct (Z.eq_dec k 0) as [-> | Hk0].
  - change (2 ^ 0) with 1.
    assert (0 < 2 ^ j) by (apply Z.pow_pos_nonneg; lia). lia.
  - apply Z.pow_le_mono_r; [lia |].
    destruct (Z_lt_le_dec j k) as [Hlt | Hge]; [| lia].
    assert (2 ^ j <= 2 ^ (k - 1)) by (apply Z.pow_le_mono_r; lia).
    specialize (Hprev ltac:(lia)). lia.
Qed.

Lemma align_queue_size_loop_spec fuel : forall k bound,
  0 <= k <= 30 ->
  bound <= 2 ^ 30 ->
  (0 < k -> 2 ^ (k - 1) < bound) ->
  (Z.to_nat (31 - k) <= fuel)%nat ->
  exists r, align_queue_size_loop fuel (2 ^ k) bound = Some r /\
            smallest_pow2_ge bound r.
Proof.
  induction fuel as [| fuel IH]; intros k bound Hk Hb Hprev Hfuel.
  - lia.
  - simpl. destruct (Z.ltb_spec (2 ^ k) bound) as [Hlt | Hge].
    + assert (k < 30).
      { destruct (Z_lt_le_dec k 30) as [? | Hk30]; [assumption |].
        assert (k = 30) as -> by lia. lia. }
      rewrite shl_pow2 by lia.
      apply IH; try lia.
      intros _. replace (k + 1 - 1) with k by lia. assumption.
    + exists (2 ^ k). split; [reflexivity |].
      split; [exists k; split; [lia | reflexivity] |].
      split; [assumption |].
      intros r' Hr' Hle. eapply pow2_least; eauto; lia.
Qed.

Lemma align_cq_size_loop_as_queue fuel : forall nent cqe,
  align_cq_size_loop fuel nent cqe = align_queue_size_loop fuel nent (cqe + 1).
Proof.
  induction fuel as [| fuel IH]; intros nent cqe; [reflexivity |].
  simpl. rewrite IH.
  destruct (Z.leb_spec nent cqe), (Z.ltb_spec nent (cqe + 1));
    solve [reflexivity | lia].
Qed.

Lemma align_queue_size_spec ctx size spare :
  1 <= size -> 0 <= spare -> size + spare <= 2 ^ 30 ->
  exists r, align_queue_size ctx size spare = Some r /\
            smallest_pow2_ge (size + spare) r.
Proof.
  intros Hs Hsp Hb. unfold align_queue_size.
  destruct (Z.eqb_spec size 0) as [-> | _]; [lia |].
  unfold Int.add. rewrite sint32_id by (unfold Int.in_int; lia).
  apply (align_queue_size_loop_spec loop_fuel 0); unfold loop_fuel; lia.
Qed.

Lemma align_cq_size_spec cqe :
  cqe < 2 ^ 30 ->
  exists r, align_cq_size cqe = Some r /\ smallest_pow2_ge (cqe + 1) r.
Proof.
  intros Hb. unfold align_cq_size. rewrite align_cq_size_loop_as_queue.
  apply (align_queue_size_loop_spec loop_fuel 0); unfold loop_fuel; lia.
Qed.

(** A queue size that passes the sanity checks is always rounded: the loop
    returns. *)
Lemma align_queue_size_returns ctx size spare :
  0 <= size -> 0 <= spare -> size + spare <= 2 ^ 30 ->
  exists r, align_queue_size ctx size spare = Some r.
Proof.
  intros Hs Hsp Hb.
  destruct (Z.eq_dec size 0) as [-> | Hne].
  - exists 0. reflexivity.
  - destruct (align_queue_size_spec ctx size spare) as [r [Hr _]];
      [lia | lia | lia |]. eauto.
Qed.

(** The fuel is enough: a rounding loop that has not returned within
    [loop_fuel] iterations does not return however long it runs. *)

Lemma align_queue_size_loop_split a : forall m x bound,
  align_queue_size_loop a x bound = None ->
  align_queue_size_loop (a + m) x bound =
  align_queue_size_loop m (doubled a x) bound.
Proof.
  induction a as [| a IH]; intros m x bound Hnone; [reflexivity |].
  simpl in *. destruct (x <? bound); [| discriminate].
  apply IH, Hnone.
Qed.

Lemma align_queue_size_loop_mono a : forall m x bound r,
  align_queue_size_loop a x bound = Some r ->
  align_queue_size_loop (a + m) x bound = Some r.
Proof.
  induction a as [| a IH]; intros m x bound r Hsome; [discriminate |].
  simpl in *. destruct (x <? bound); [| assumption].
  apply IH, Hsome.
Qed.

Lemma align_queue_size_loop_zero m bound :
  align_queue_size_loop m 0 bound =
  if 0 <? bound then None
  else match m with O => None | S _ => Some 0 end.
Proof.
  induction m as [| m IH]; cbn [align_queue_size_loop].
  - destruct (0 <? bound); reflexivity.
  - change (Int.shl 0 1) with 0. rewrite IH.
    destruct (0 <? bound); reflexivity.
Qed.

Lemma align_queue_size_loop_fuel_enough bound :
  align_queue_size_loop loop_fuel 1 bound = None ->
  forall n, align_queue_size_loop n 1 bound = None.
Proof.
  intros Hnone n.
  assert (H32 : align_queue_size_loop 32 1 bound = None).
  { destruct (align_queue_size_loop 32 1 bound) as [r |] eqn:E;
      [| reflexivity].
    apply (align_queue_size_loop_mono 32 32) in E.
    change (32 + 32)%nat with loop_fuel in E. congruence. }
  assert (Hpos : (0 <? bound) = true).
  { pose proof (align_queue_size_loop_split 32 32 1 bound H32) as E.
    change (32 + 32)%nat with loop_fuel in E. rewrite Hnone in E.
    change (doubled 32 1) with 0 in E.
    rewrite align_queue_size_loop_zero in E.
    destruct (0 <? bound); [reflexivity | discriminate]. }
  destruct (align_queue_size_loop n 1 bound) as [r |] eqn:E; [| reflexivity].
  apply (align_queue_size_loop_mono n 32) in E.
  rewrite Nat.add_comm in E.
  rewrite (align_queue_size_loop_split 32 n 1 bound H32) in E.
  change (doubled 32 1) with 0 in E.
  rewrite align_queue_size_loop_zero, Hpos in E. discriminate.
Qed.

(** *** Running the monad *)

Lemma grows_ret {A : Type} (a : A) : grows (mret a).
Proof. intros w. reflexivity. Qed.

Lemma grows_bind {A B : Type} (m : M A) (k : A -> M B) :
  grows m -> (forall a, grows (k a)) -> grows (m ≫= k).
Proof.
  intros Hm Hk w. unfold after, mbind, M_bind.
  specialize (Hm w). unfold after in Hm.
  destruct (m w) as [[a |] w1]; simpl in *; [| assumption].
  etransitivity; [exact Hm |]. apply (Hk a w1).
Qed.

Lemma grows_modify (f : world -> world) :
  (forall w, w_trace w `prefix_of` w_trace (f w)) -> grows (modify f).
Proof. intros Hf w. apply Hf. Qed.

Lemma grows_never {A : Type} : grows (@never A).
Proof. intros w. reflexivity. Qed.

Lemma grows_loop_result {A : Type} (o : option A) : grows (loop_result o).
Proof. destruct o; [apply grows_ret | apply grows_never]. Qed.

Lemma grows_gets {A : Type} (f : world -> A) : grows (gets f).
Proof. intros w. reflexivity. Qed.

Lemma grows_emit e : grows (emit e).
Proof. apply grows_modify. intros w. simpl. by apply prefix_app_r. Qed.

Lemma grows_acquire p : grows (acquire p).
Proof. apply grows_modify. reflexivity. Qed.

Lemma grows_release p : grows (release p).
Proof. apply grows_modify. reflexivity. Qed.

Lemma grows_write_db d v : grows (write_db d v).
Proof. apply grows_modify. reflexivity. Qed.

Create HintDb grows.

#[local] Hint Resolve grows_ret grows_never grows_loop_result grows_gets
  grows_emit grows_acquire grows_release grows_write_db : grows.

(** One step through the shape of a computation. *)
Ltac grows_step :=
  lazymatch goal with
  | |- grows (mbind _ _) => apply grows_bind; [| intros]
  | |- grows (mret _) => apply grows_ret
  | |- grows (if ?b then _ else _) => destruct b
  | |- grows (match ?x with _ => _ end) => destruct x
  | |- grows _ => solve [auto with grows]
  end.

Ltac grows_auto := repeat grows_step.

Lemma grows_malloc {T : Type} (r : option (Z * T)) : grows (malloc r).
Proof. unfold malloc. grows_auto. Qed.

Lemma grows_free p : grows (free p).
Proof. unfold free. grows_auto. Qed.

Lemma grows_memset p c n : grows (memset p c n).
Proof. apply grows_emit. Qed.

Lemma grows_mlx4_alloc_buf r size page_size :
  grows (mlx4_alloc_buf r size page_size).
Proof. unfold mlx4_alloc_buf. grows_auto. Qed.

Lemma grows_mlx4_free_buf b : grows (mlx4_free_buf b).
Proof. unfold mlx4_free_buf. grows_auto. Qed.

Lemma grows_mlx4_alloc_db r type : grows (mlx4_alloc_db r type).
Proof. unfold mlx4_alloc_db. grows_auto. Qed.

Lemma grows_mlx4_free_db d : grows (mlx4_free_db d).
Proof. unfold mlx4_free_db. grows_auto. Qed.

Lemma grows_pthread_spin_init l r : grows (pthread_spin_init l r).
Proof. unfold pthread_spin_init. grows_auto. Qed.

Lemma grows_ibv_cmd c r : grows (ibv_cmd c r).
Proof. unfold ibv_cmd. grows_auto. Qed.

Lemma grows_mlx4_store_qp r qpn qp : grows (mlx4_store_qp r qpn qp).
Proof.
  unfold mlx4_store_qp. grows_auto. apply grows_modify. reflexivity.
Qed.

#[local] Hint Resolve grows_malloc grows_free grows_memset
  grows_mlx4_alloc_buf grows_mlx4_free_buf grows_mlx4_alloc_db
  grows_mlx4_free_db grows_pthread_spin_init grows_ibv_cmd
  grows_mlx4_store_qp : grows.

Lemma log_trace t w : w_trace (log t w) = w_trace w ++ t.
Proof. reflexivity. Qed.

Lemma log_nil w : log [] w = w.
Proof. destruct w. unfold log, set_trace. simpl. by rewrite app_nil_r. Qed.

Lemma log_log t1 t2 w : log t2 (log t1 w) = log (t1 ++ t2) w.
Proof. unfold log, set_trace. simpl. by rewrite app_assoc. Qed.

Lemma emit_run e w : emit e w = (Some tt, log [e] w).
Proof. reflexivity. Qed.

Lemma new_events_log t w : new_events w (log t w) = t.
Proof.
  unfold new_events. rewrite log_trace. by rewrite drop_app_length.
Qed.

(** Unfolding the primitives down to the world they leave. *)
Ltac run :=
  cbv [mbind M_bind mret M_ret never loop_result modify emit acquire
       release gets malloc free memset mlx4_alloc_buf mlx4_free_buf
       mlx4_alloc_db mlx4_free_db write_db pthread_spin_init
       pthread_spin_lock pthread_spin_unlock ibv_cmd mlx4_cq_clean
       mlx4_store_qp mlx4_clear_qp result after fst snd log
       set_trace set_qp_table set_live set_w_db w_trace w_qp_table w_live
       w_db w_page_size].

(** *** The dual-CQ lock helpers *)

Lemma lock_order_exists qp :
  cq_ids_unique qp ->
  exists l, lock_order qp l /\
    l = (if cq_addr (send_cq qp) =? cq_addr (recv_cq qp) then [send_cq qp]
         else if cqn (send_cq qp) <? cqn (recv_cq qp)
              then [send_cq qp; recv_cq qp]
              else [recv_cq qp; send_cq qp]).
Proof.
  intros Huniq.
  destruct (Z.eqb_spec (cq_addr (send_cq qp)) (cq_addr (recv_cq qp)))
    as [Heq | Hne].
  - eexists; split; [by apply lock_order_same | reflexivity].
  - specialize (Huniq Hne).
    destruct (Z.ltb_spec (cqn (send_cq qp)) (cqn (recv_cq qp))).
    + eexists; split; [by apply lock_order_send_first | reflexivity].
    + eexists; split; [apply lock_order_recv_first; [done | lia] |].
      reflexivity.
Qed.

Lemma lock_cqs_run qp l w :
  l = (if cq_addr (send_cq qp) =? cq_addr (recv_cq qp) then [send_cq qp]
       else if cqn (send_cq qp) <? cqn (recv_cq qp)
            then [send_cq qp; recv_cq qp]
            else [recv_cq qp; send_cq qp]) ->
  mlx4_lock_cqs qp w = (Some tt, log (lock_events l) w) /\
  mlx4_unlock_cqs qp w = (Some tt, log (unlock_events l) w).
Proof.
  intros ->. unfold mlx4_lock_cqs, mlx4_unlock_cqs.
  destruct (cq_addr (send_cq qp) =? cq_addr (recv_cq qp));
    [| destruct (cqn (send_cq qp) <? cqn (recv_cq qp))];
    run; simpl; rewrite <- ?app_assoc; split; reflexivity.
Qed.

(** C7: the dual-CQ lock and unlock helpers obey the Lock-Ordering
    Protocol.  For every queue pair there is an order [l] of its
    completion-queue locks that the protocol admits (one lock when send and
    receive completion queue are the same object, otherwise the two locks in
    strictly ascending order of kernel-assigned identifier) such that
    [mlx4_lock_cqs] takes exactly the locks of [l] in that order and
    [mlx4_unlock_cqs] gives back exactly those locks in the reverse
    order. *)
Theorem lock_cqs_obeys_protocol (qp : ibv_qp) (w : world) :
  cq_ids_unique qp ->
  exists l,
    lock_order qp l /\
    mlx4_lock_cqs qp w = (Some tt, log (lock_events l) w) /\
    (forall w', mlx4_unlock_cqs qp w' = (Some tt, log (unlock_events l) w')) /\
    held_after (lock_events l) [] = rev (map cq_lock l) /\
    held_after (lock_events l ++ unlock_events l) [] = [].
Proof.
  intros Huniq.
  destruct (lock_order_exists qp Huniq) as [l [Hord Hl]].
  exists l. split; [assumption |].
  split; [apply (lock_cqs_run qp l w Hl) |].
  split; [intros w'; apply (lock_cqs_run qp l w' Hl) |].
  destruct Hord; split; unfold cq_lock; simpl; rewrite ?Z.eqb_refl; simpl;
    rewrite ?Z.eqb_refl; reflexivity.
Qed.

(** *** Destroying a queue pair *)

Lemma srq_or_null_id s : srq_or_null s = s.
Proof. destruct s; reflexivity. Qed.

(** Everything [mlx4_destroy_qp] does, by outcome of the kernel command. *)
Lemma destroy_qp_run k qp w l :
  l = (if cq_addr (send_cq (ibv qp)) =? cq_addr (recv_cq (ibv qp))
       then [send_cq (ibv qp)]
       else if cqn (send_cq (ibv qp)) <? cqn (recv_cq (ibv qp))
            then [send_cq (ibv qp); recv_cq (ibv qp)]
            else [recv_cq (ibv qp); send_cq (ibv qp)]) ->
  let qpn := qp_num (ibv qp) in
  let before_cmd :=
    clean_events (ibv qp) ++ lock_events l ++ [EvClearQp qpn] ++
    unlock_events l in
  let w' := after (mlx4_destroy_qp k qp) w in
  (dqp_cmd_ret k = 0 ->
   result (mlx4_destroy_qp k qp) w = Some 0 /\
   w_trace w' =
     w_trace w ++ before_cmd ++ [EvCmd (CmdDestroyQp (qp_addr qp)) 0] ++
     [EvFreeDb (db qp); EvFree (wq_wrid (sq qp)); EvFree (wq_wrid (rq qp));
      EvFreeBuf (buf (qp_buf qp)); EvFree (qp_addr qp)] /\
   w_qp_table w' = delete qpn (w_qp_table w) /\
   w_live w' =
     w_live w ∖ {[db qp]} ∖ {[wq_wrid (sq qp)]} ∖ {[wq_wrid (rq qp)]}
       ∖ {[buf (qp_buf qp)]} ∖ {[qp_addr qp]}) /\
  (dqp_cmd_ret k <> 0 ->
   result (mlx4_destroy_qp k qp) w = Some (dqp_cmd_ret k) /\
   w_trace w' =
     w_trace w ++ before_cmd ++
     [EvCmd (CmdDestroyQp (qp_addr qp)) (dqp_cmd_ret k)] ++
     lock_events l ++ [EvStoreQp qpn (qp_addr qp) (dqp_store_ret k)] ++
     unlock_events l /\
   w_qp_table w' =
     (if dqp_store_ret k =? 0
      then <[qpn := qp_addr qp]> (delete qpn (w_qp_table w))
      else delete qpn (w_qp_table w)) /\
   w_live w' = w_live w).
Proof.
  intros -> qpn before_cmd w'. subst qpn before_cmd w'.
  unfold mlx4_destroy_qp, mlx4_lock_cqs, mlx4_unlock_cqs, clean_events.
  rewrite srq_or_null_id.
  split; intros Hret.
  - rewrite Hret.
    destruct (cq_addr (send_cq (ibv qp)) =? cq_addr (recv_cq (ibv qp)));
      [| destruct (cqn (send_cq (ibv qp)) <? cqn (recv_cq (ibv qp)))];
      run; simpl; rewrite <- ?app_assoc; repeat split; reflexivity.
  - apply Z.eqb_neq in Hret.
    destruct (cq_addr (send_cq (ibv qp)) =? cq_addr (recv_cq (ibv qp)));
      [| destruct (cqn (send_cq (ibv qp)) <? cqn (recv_cq (ibv qp)))];
      run; rewrite Hret; simpl;
      destruct (dqp_store_ret k =? 0); simpl; rewrite <- ?app_assoc;
      repeat split; reflexivity.
Qed.

(** C3: the steps of queue-pair [destroy()] come in this order: the receive
    completion queue is cleaned for the queue-pair number (with the shared
    receive queue if the queue pair uses one) and the send completion queue
    if it is a different one; then the queue-pair number is removed from the
    Resource Table while the completion-queue locks are held, taken in an
    order the Lock-Ordering Protocol admits and given back in reverse; only
    then the kernel destroy command is issued; when the kernel succeeds the
    doorbell, the work-request id arrays, the buffer and the object are
    released and the function returns 0.  No lock is held when the function
    returns. *)
Theorem destroy_qp_steps_in_order (k : destroy_qp_outcome) (qp : mlx4_qp)
    (w : world) :
  cq_ids_unique (ibv qp) ->
  let qpn := qp_num (ibv qp) in
  let w' := after (mlx4_destroy_qp k qp) w in
  exists l tail,
    lock_order (ibv qp) l /\
    new_events w w' =
      clean_events (ibv qp) ++ lock_events l ++ [EvClearQp qpn] ++
      unlock_events l ++
      [EvCmd (CmdDestroyQp (qp_addr qp)) (dqp_cmd_ret k)] ++ tail /\
    held_after (clean_events (ibv qp) ++ lock_events l) [] =
      rev (map cq_lock l) /\
    held_after (new_events w w') [] = [] /\
    (dqp_cmd_ret k = 0 ->
     result (mlx4_destroy_qp k qp) w = Some 0 /\
     tail = [EvFreeDb (db qp); EvFree (wq_wrid (sq qp));
             EvFree (wq_wrid (rq qp)); EvFreeBuf (buf (qp_buf qp));
             EvFree (qp_addr qp)] /\
     mlx4_find_qp w' qpn = None /\
     w_live w' =
       w_live w ∖ {[db qp]} ∖ {[wq_wrid (sq qp)]} ∖ {[wq_wrid (rq qp)]}
         ∖ {[buf (qp_buf qp)]} ∖ {[qp_addr qp]}).
Proof.
  intros Huniq qpn w'.
  destruct (lock_order_exists (ibv qp) Huniq) as [l [Hord Hl]].
  destruct (destroy_qp_run k qp w l Hl) as [Hok Hfail].
  assert (Hheld : held_after (clean_events (ibv qp) ++ lock_events l) [] =
                  rev (map cq_lock l)).
  { unfold clean_events.
    destruct Hord;
      destruct (cq_addr (send_cq (ibv qp)) =? cq_addr (recv_cq (ibv qp)));
      reflexivity. }
  assert (Hfree : forall t1 t2,
            held_after (clean_events (ibv qp) ++ lock_events l ++
                        [EvClearQp qpn] ++ unlock_events l ++ [t1] ++ t2) [] =
            held_after ([t1] ++ t2) []).
  { intros t1 t2. unfold clean_events.
    destruct Hord;
      destruct (cq_addr (send_cq (ibv qp)) =? cq_addr (recv_cq (ibv qp)));
      unfold cq_lock; simpl; rewrite ?Z.eqb_refl; simpl;
      rewrite ?Z.eqb_refl; reflexivity. }
  destruct (Z.eq_dec (dqp_cmd_ret k) 0) as [Hret | Hret].
  - destruct (Hok Hret) as (Hres & Htrace & Htable & Hlive).
    assert (Hnew : new_events w w' =
              clean_events (ibv qp) ++ lock_events l ++ [EvClearQp qpn] ++
              unlock_events l ++
              [EvCmd (CmdDestroyQp (qp_addr qp)) (dqp_cmd_ret k)] ++
              [EvFreeDb (db qp); EvFree (wq_wrid (sq qp));
               EvFree (wq_wrid (rq qp)); EvFreeBuf (buf (qp_buf qp));
               EvFree (qp_addr qp)]).
    { unfold new_events, w'. rewrite Htrace.
      rewrite drop_app_length, Hret, <- !app_assoc. reflexivity. }
    exists l. eexists. split; [assumption |].
    split; [exact Hnew |].
    split; [assumption |].
    split; [rewrite Hnew; rewrite Hfree; reflexivity |].
    intros _. split; [assumption |]. split; [reflexivity |].
    split; [| assumption].
    unfold mlx4_find_qp, w'. rewrite Htable. apply lookup_delete_eq.
  - destruct (Hfail Hret) as (Hres & Htrace & Htable & Hlive).
    assert (Hnew : new_events w w' =
              clean_events (ibv qp) ++ lock_events l ++ [EvClearQp qpn] ++
              unlock_events l ++
              [EvCmd (CmdDestroyQp (qp_addr qp)) (dqp_cmd_ret k)] ++
              lock_events l ++
              [EvStoreQp qpn (qp_addr qp) (dqp_store_ret k)] ++
              unlock_events l).
    { unfold new_events, w'. rewrite Htrace.
      rewrite drop_app_length, <- !app_assoc. reflexivity. }
    exists l. eexists. split; [assumption |].
    split; [exact Hnew |].
    split; [assumption |].
    split.
    { rewrite Hnew, Hfree.
      destruct Hord; unfold cq_lock; simpl; rewrite ?Z.eqb_refl; simpl;
        rewrite ?Z.eqb_refl; reflexivity. }
    intros Hzero. contradiction.
Qed.

(** What a failed kernel destroy leaves behind: the kernel's code is
    returned, the re-insertion is attempted under the lock order, nothing
    is released — and the queue-pair number is in the Resource Table again
    when, and only when, the re-insertion itself succeeded. *)
Lemma destroy_qp_kernel_failure (k : destroy_qp_outcome) (qp : mlx4_qp)
    (w : world) :
  cq_ids_unique (ibv qp) ->
  dqp_cmd_ret k <> 0 ->
  let qpn := qp_num (ibv qp) in
  let w' := after (mlx4_destroy_qp k qp) w in
  exists l,
    lock_order (ibv qp) l /\
    result (mlx4_destroy_qp k qp) w = Some (dqp_cmd_ret k) /\
    new_events w w' =
      clean_events (ibv qp) ++ lock_events l ++ [EvClearQp qpn] ++
      unlock_events l ++
      [EvCmd (CmdDestroyQp (qp_addr qp)) (dqp_cmd_ret k)] ++
      lock_events l ++ [EvStoreQp qpn (qp_addr qp) (dqp_store_ret k)] ++
      unlock_events l /\
    filter is_release (new_events w w') = [] /\
    w_live w' = w_live w /\
    (dqp_store_ret k = 0 -> mlx4_find_qp w' qpn = Some (qp_addr qp)) /\
    (dqp_store_ret k <> 0 -> mlx4_find_qp w' qpn = None) /\
    (forall k2, dqp_cmd_ret k2 = 0 ->
       result (mlx4_destroy_qp k2 qp) w' = Some 0).
Proof.
  intros Huniq Hret qpn w'.
  destruct (lock_order_exists (ibv qp) Huniq) as [l [Hord Hl]].
  destruct (destroy_qp_run k qp w l Hl) as [_ Hfail].
  destruct (Hfail Hret) as (Hres & Htrace & Htable & Hlive).
  assert (Hnew : new_events w w' =
      clean_events (ibv qp) ++ lock_events l ++ [EvClearQp qpn] ++
      unlock_events l ++
      [EvCmd (CmdDestroyQp (qp_addr qp)) (dqp_cmd_ret k)] ++
      lock_events l ++ [EvStoreQp qpn (qp_addr qp) (dqp_store_ret k)] ++
      unlock_events l).
  { unfold new_events. unfold w'. rewrite Htrace.
    rewrite drop_app_length, <- !app_assoc. reflexivity. }
  exists l. split; [assumption |]. split; [assumption |].
  split; [assumption |].
  split.
  { rewrite Hnew. unfold clean_events.
    destruct Hord;
      destruct (cq_addr (send_cq (ibv qp)) =? cq_addr (recv_cq (ibv qp)));
      reflexivity. }
  split; [assumption |].
  split; [| split].
  - intros Hst. unfold mlx4_find_qp. unfold w'. rewrite Htable, Hst. simpl.
    apply lookup_insert_eq.
  - intros Hst. unfold mlx4_find_qp. unfold w'. rewrite Htable.
    apply Z.eqb_neq in Hst. rewrite Hst. apply lookup_delete_eq.
  - intros k2 Hk2.
    destruct (destroy_qp_run k2 qp w' l Hl) as [Hok _].
    apply (Hok Hk2).
Qed.

(** C1, at the input where it fails: the kernel refuses the destroy command
    (code 16) and the Resource Table cannot take the entry back (code -1).
    [mlx4_destroy_qp] returns 16 and releases nothing, but queue-pair
    number 7, registered before the call, is no longer in the table. *)
Theorem destroy_qp_failed_reinsert_loses_entry :
  let k := {| dqp_cmd_ret := 16; dqp_store_ret := -1 |} in
  let w' := after (mlx4_destroy_qp k sample_qp) sample_world in
  mlx4_find_qp sample_world 7 = Some 1000 /\
  result (mlx4_destroy_qp k sample_qp) sample_world = Some 16 /\
  w_live w' = w_live sample_world /\
  In (EvStoreQp 7 1000 (-1)) (w_trace w') /\
  mlx4_find_qp w' 7 = None.
Proof.
  intros k w'.
  assert (Huniq : cq_ids_unique (ibv sample_qp)) by (intros _; discriminate).
  destruct (destroy_qp_kernel_failure k sample_qp sample_world Huniq)
    as (l & _ & Hres & Hnew & _ & Hlive & _ & Hlost & _);
    [discriminate |].
  split; [reflexivity |]. split; [exact Hres |]. split; [exact Hlive |].
  split; [| apply Hlost; discriminate].
  vm_compute. tauto.
Qed.

(** *** Modifying a queue pair *)

Lemma state_bit_test mask :
  (Z.land mask IBV_QP_STATE =? 0) = negb (Z.testbit mask 0).
Proof.
  unfold IBV_QP_STATE. change 1 with (Z.ones 1).
  rewrite Z.land_ones by lia. change (2 ^ 1) with 2.
  rewrite <- Z.bit0_mod.
  destruct (Z.testbit mask 0); reflexivity.
Qed.

Lemma ibv_qp_state_eqb_eq a b : ibv_qp_state_eqb a b = true <-> a = b.
Proof. destruct a, b; simpl; split; congruence. Qed.

(** C8: a queue-pair modify whose mask has the state bit, whose target
    state is reset and whose kernel call succeeds cleans the receive
    completion queue for the queue-pair number (with the shared receive
    queue if there is one), cleans the send completion queue too when it is
    a different one, and sets the producer and consumer indices of both
    sides to zero; the buffer and the doorbell of the queue pair, like every
    other field, stay as they were.  When the kernel call fails, or the mask
    lacks the state bit, or the target state is not reset, the kernel call
    is all that happens and the object is unchanged.  Either way the
    kernel's code is returned. *)
Theorem modify_qp_reset_cleanup (cmd_ret : Z) (qp : mlx4_qp)
    (attr : ibv_qp_attr) (attr_mask : Z) (w : world) :
  let run := mlx4_modify_qp cmd_ret qp attr attr_mask in
  let cmd := EvCmd (CmdModifyQp (qp_addr qp) attr attr_mask) cmd_ret in
  let to_reset :=
    cmd_ret = 0 /\ Z.testbit attr_mask 0 = true /\
    qp_state attr = IBV_QPS_RESET in
  (to_reset ->
   exists qp',
     run w = (Some (cmd_ret, qp'), log (cmd :: clean_events (ibv qp)) w) /\
     wq_head (sq qp') = 0 /\ wq_tail (sq qp') = 0 /\
     wq_head (rq qp') = 0 /\ wq_tail (rq qp') = 0 /\
     qp_buf qp' = qp_buf qp /\ db qp' = db qp /\
     qp_addr qp' = qp_addr qp /\ ibv qp' = ibv qp /\
     wq_wrid (sq qp') = wq_wrid (sq qp) /\
     wq_wrid (rq qp') = wq_wrid (rq qp) /\
     wq_max (sq qp') = wq_max (sq qp) /\ wq_max (rq qp') = wq_max (rq qp)) /\
  (~ to_reset -> run w = (Some (cmd_ret, qp), log [cmd] w)).
Proof.
  intros run cmd to_reset. subst run cmd to_reset.
  unfold mlx4_modify_qp, clean_events.
  rewrite srq_or_null_id, state_bit_test, negb_involutive.
  split.
  - intros (-> & -> & ->). exists (mlx4_init_qp_indices qp).
    split; [| repeat split].
    destruct (cq_addr (send_cq (ibv qp)) =? cq_addr (recv_cq (ibv qp)));
      run; simpl; rewrite <- ?app_assoc; reflexivity.
  - intros Hnot.
    destruct ((cmd_ret =? 0) && Z.testbit attr_mask 0 &&
              ibv_qp_state_eqb (qp_state attr) IBV_QPS_RESET) eqn:Hc.
    + exfalso. apply Hnot.
      apply andb_true_iff in Hc as [Hc Hs].
      apply andb_true_iff in Hc as [Hr Hb].
      apply Z.eqb_eq in Hr. apply ibv_qp_state_eqb_eq in Hs. auto.
    + run. rewrite Hc. reflexivity.
Qed.

(** *** Address handles *)

(** C9: address-descriptor creation is a function of the protection domain
    and the path attributes alone.  Whatever memory [malloc] hands out and
    whatever world the call runs in, two calls with the same protection
    domain and attributes pack the same address vector; the only
    collaborator called is [malloc] (so no kernel command is issued) and
    the Resource Table is not touched.  Destroy releases the object and
    returns 0, always. *)
Theorem create_ah_is_pure (pd : mlx4_pd) (attr : ibv_ah_attr) :
  (forall p1 g1 w1 p2 g2 w2,
     exists blob,
       mlx4_create_ah (Some (p1, g1)) pd attr w1 =
         (Some (Some {| ah_addr := p1; av := blob |}),
          set_live ({[p1]} ∪ w_live w1) (log [EvMalloc (Some p1)] w1)) /\
       mlx4_create_ah (Some (p2, g2)) pd attr w2 =
         (Some (Some {| ah_addr := p2; av := blob |}),
          set_live ({[p2]} ∪ w_live w2) (log [EvMalloc (Some p2)] w2))) /\
  (forall m w,
     let w' := after (mlx4_create_ah m pd attr) w in
     new_events w w' = [EvMalloc (fst <$> m)] /\
     filter is_kernel_cmd (new_events w w') = [] /\
     w_qp_table w' = w_qp_table w) /\
  (forall ah w,
     mlx4_destroy_ah ah w =
       (Some 0, set_live (w_live w ∖ {[ah_addr ah]})
                  (log [EvFree (ah_addr ah)] w))).
Proof.
  split; [| split].
  - intros p1 g1 w1 p2 g2 w2.
    exists (fill_av pd attr (av_zero (av g1))).
    split; reflexivity.
  - intros m w w'. subst w'.
    assert (Hnew : new_events w (after (mlx4_create_ah m pd attr) w) =
                   [EvMalloc (fst <$> m)]).
    { unfold new_events. destruct m as [[p g] |]; run; simpl;
        by rewrite drop_app_length. }
    rewrite Hnew. split; [reflexivity |]. split; [reflexivity |].
    destruct m as [[p g] |]; reflexivity.
  - intros ah w. reflexivity.
Qed.

(** *** Creation: what happens before and after the first allocation *)

Lemma bind_run {A B : Type} (m : M A) (k : A -> M B) w a w1 :
  m w = (Some a, w1) -> (m ≫= k) w = k a w1.
Proof. intros Hm. unfold mbind, M_bind. rewrite Hm. reflexivity. Qed.

Lemma malloc_run {T : Type} (r : option (Z * T)) w :
  exists w1, malloc r w = (Some r, w1) /\
             w_trace w1 = w_trace w ++ [EvMalloc (fst <$> r)].
Proof. destruct r as [[p g] |]; eexists; split; reflexivity. Qed.

Lemma grows_create_cq_err cq : grows (create_cq_err cq).
Proof. unfold create_cq_err. grows_auto. Qed.

Lemma grows_create_cq_err_buf cq : grows (create_cq_err_buf cq).
Proof.
  unfold create_cq_err_buf. grows_auto. apply grows_create_cq_err.
Qed.

Lemma grows_create_cq_err_db cq : grows (create_cq_err_db cq).
Proof.
  unfold create_cq_err_db. grows_auto. apply grows_create_cq_err_buf.
Qed.

Lemma grows_mlx4_alloc_qp_buf f c type qp :
  grows (mlx4_alloc_qp_buf f c type qp).
Proof. unfold mlx4_alloc_qp_buf. grows_auto. Qed.

Lemma grows_mlx4_set_sq_sizes f qp c type :
  grows (mlx4_set_sq_sizes f qp c type).
Proof. unfold mlx4_set_sq_sizes. grows_auto. Qed.

Lemma grows_create_qp_err qp : grows (create_qp_err qp).
Proof. unfold create_qp_err. grows_auto. Qed.

Lemma grows_create_qp_err_free qp : grows (create_qp_err_free qp).
Proof.
  unfold create_qp_err_free. grows_auto. apply grows_create_qp_err.
Qed.

Lemma grows_create_qp_err_rq_db qp : grows (create_qp_err_rq_db qp).
Proof.
  unfold create_qp_err_rq_db. grows_auto. apply grows_create_qp_err_free.
Qed.

Lemma grows_create_qp_err_destroy r qp : grows (create_qp_err_destroy r qp).
Proof.
  unfold create_qp_err_destroy. grows_auto.
  apply grows_create_qp_err_rq_db.
Qed.

#[local] Hint Resolve grows_create_cq_err grows_create_cq_err_buf
  grows_create_cq_err_db grows_mlx4_alloc_qp_buf grows_mlx4_set_sq_sizes
  grows_create_qp_err grows_create_qp_err_free grows_create_qp_err_rq_db
  grows_create_qp_err_destroy : grows.

(** A creation that got past its sanity check calls [malloc] first, and
    that call stays at the head of what the run adds to the log. *)
Lemma create_cq_past_check k ctx cqe channel comp_vector w :
  cqe <= 0x3fffff ->
  exists t,
    new_events w (after (mlx4_create_cq k ctx cqe channel comp_vector) w) =
    EvMalloc (fst <$> cc_malloc k) :: t.
Proof.
  intros Hle. unfold mlx4_create_cq.
  destruct (Z.gtb_spec cqe 0x3fffff) as [Hgt | _]; [lia |].
  lazymatch goal with
  | |- context [mbind ?K (malloc ?r)] =>
      assert (HK : forall a, grows (K a)) by (intros; grows_auto)
  end.
  destruct (malloc_run (cc_malloc k) w) as [w1 [Hm Ht1]].
  unfold after at 1. rewrite (bind_run _ _ w _ w1 Hm).
  destruct (HK (cc_malloc k) w1) as [t Ht]. unfold after in Ht.
  exists t. unfold new_events. rewrite Ht, Ht1, <- app_assoc.
  by rewrite drop_app_length.
Qed.

Lemma qp_cap_too_large_false c :
  qp_cap_within_limits c -> qp_cap_too_large c = false.
Proof.
  intros (H1 & H2 & H3 & H4 & H5). unfold qp_cap_too_large.
  rewrite !Z.gtb_ltb.
  repeat (apply orb_false_intro); apply Z.ltb_ge; assumption.
Qed.

Lemma qp_cap_too_large_true c :
  max_send_wr c > 65536 \/ max_recv_wr c > 65536 \/ max_send_sge c > 64 \/
  max_recv_sge c > 64 \/ max_inline_data c > 1024 ->
  qp_cap_too_large c = true.
Proof.
  unfold qp_cap_too_large. rewrite !orb_true_iff, !Z.gtb_ltb, !Z.ltb_lt.
  lia.
Qed.

Lemma create_qp_past_check k pd attr w :
  qp_cap_within_limits (cap attr) ->
  exists t,
    new_events w (after (mlx4_create_qp k pd attr) w) =
    EvMalloc (fst <$> cqp_malloc k) :: t.
Proof.
  intros Hin. unfold mlx4_create_qp.
  rewrite (qp_cap_too_large_false _ Hin).
  lazymatch goal with
  | |- context [mbind ?K (malloc ?r)] =>
      assert (HK : forall a, grows (K a)) by (intros; grows_auto)
  end.
  destruct (malloc_run (cqp_malloc k) w) as [w1 [Hm Ht1]].
  unfold after at 1. rewrite (bind_run _ _ w _ w1 Hm).
  destruct (HK (cqp_malloc k) w1) as [t Ht]. unfold after in Ht.
  exists t. unfold new_events. rewrite Ht, Ht1, <- app_assoc.
  by rewrite drop_app_length.
Qed.

Lemma new_events_same w : new_events w w = [].
Proof. unfold new_events. by rewrite drop_all. Qed.

(** C2: a queue-pair creation request with send depth or receive depth
    above 65536, or send or receive scatter-gather entries above 64, or
    inline data above 1024 bytes returns the null handle and leaves the
    world as it was: nothing is logged, so no allocator and no kernel
    command was called.  A request within the limits, in particular one at
    exactly the limits, is not stopped by the check: the function goes on
    to its first allocation. *)
Theorem create_qp_rejects_oversized (k : create_qp_outcome) (pd : mlx4_pd)
    (attr : ibv_qp_init_attr) (w : world) :
  let c := cap attr in
  (max_send_wr c > 65536 \/ max_recv_wr c > 65536 \/ max_send_sge c > 64 \/
   max_recv_sge c > 64 \/ max_inline_data c > 1024 ->
   mlx4_create_qp k pd attr w = (Some None, w)) /\
  (max_send_wr c <= 65536 /\ max_recv_wr c <= 65536 /\
   max_send_sge c <= 64 /\ max_recv_sge c <= 64 /\
   max_inline_data c <= 1024 ->
   exists t,
     new_events w (after (mlx4_create_qp k pd attr) w) =
     EvMalloc (fst <$> cqp_malloc k) :: t).
Proof.
  intros c. subst c. split.
  - intros Hbig. unfold mlx4_create_qp.
    rewrite (qp_cap_too_large_true _ Hbig). reflexivity.
  - intros Hin. apply create_qp_past_check, Hin.
Qed.

(** C5, as the code has it: completion-queue creation returns the null
    handle with the world untouched (nothing allocated, nothing logged)
    exactly when the requested depth exceeds [2 ^ 22 - 1]; a depth of
    [2 ^ 22 - 1] or less passes the check and reaches the first
    allocation. *)
Theorem create_cq_rejects_above_limit (k : create_cq_outcome)
    (ctx cqe channel comp_vector : Z) (w : world) :
  (mlx4_create_cq k ctx cqe channel comp_vector w = (Some None, w) <->
   cqe > 2 ^ 22 - 1) /\
  (cqe <= 2 ^ 22 - 1 ->
   exists t,
     new_events w (after (mlx4_create_cq k ctx cqe channel comp_vector) w) =
     EvMalloc (fst <$> cc_malloc k) :: t).
Proof.
  change (2 ^ 22 - 1) with 0x3fffff.
  split; [split |].
  - intros Hrun.
    destruct (Z_gt_le_dec cqe 0x3fffff) as [Hgt | Hle]; [assumption |].
    destruct (create_cq_past_check k ctx cqe channel comp_vector w Hle)
      as [t Ht].
    unfold after in Ht. rewrite Hrun in Ht. simpl in Ht.
    rewrite new_events_same in Ht. discriminate.
  - intros Hgt. unfold mlx4_create_cq.
    destruct (Z.gtb_spec cqe 0x3fffff) as [_ | Hle]; [reflexivity | lia].
  - apply create_cq_past_check.
Qed.

(** C6: a completion-queue creation with requested depth 100 in which every
    collaborator succeeds returns an object whose ring was allocated for
    128 entries; the kernel create command got 127 as its depth; the
    consumer index is 0, the arm sequence 1, both doorbell words are 0, and
    the identifier the kernel returned is stored in the object. *)
Theorem create_cq_depth_100 (k : create_cq_outcome)
    (ctx channel comp_vector : Z) (w : world) (p b d : Z) (g : mlx4_cq) :
  cc_malloc k = Some (p, g) ->
  cc_spin_init k = 0 ->
  cc_alloc_buf k = Some b ->
  cc_alloc_db k = Some d ->
  cc_cmd_ret k = 0 ->
  let run := mlx4_create_cq k ctx 100 channel comp_vector in
  let size := Int.mul 128 MLX4_CQ_ENTRY_SIZE in
  exists cq,
    result run w = Some (Some cq) /\
    new_events w (after run w) =
      [EvMalloc (Some p); EvSpinInit (CqLock p) 0;
       EvAllocBuf size (w_page_size w) (Some b); EvMemset b 0 size;
       EvAllocDb MLX4_DB_TYPE_CQ (Some d);
       EvCmd (CmdCreateCq 127 channel comp_vector b d) 0] /\
    cq_addr cq = p /\
    cq_buf cq = {| buf := b; buf_length := size |} /\
    (0 < MLX4_CQ_ENTRY_SIZE < 2 ^ 24 ->
     buf_length (cq_buf cq) / MLX4_CQ_ENTRY_SIZE = 128) /\
    cons_index cq = 0 /\
    arm_sn cq = 1 /\
    cqn cq = cc_resp_cqn k /\
    set_ci_db cq = d /\ arm_db cq = d + 1 /\
    w_db (after run w) !! set_ci_db cq = Some 0 /\
    w_db (after run w) !! arm_db cq = Some 0.
Proof.
  intros Hm Hs Hb Hd Hc run size. subst run size.
  unfold mlx4_create_cq, new_events.
  change (100 >? 0x3fffff) with false.
  change (align_cq_size 100) with (Some 128).
  rewrite Hm, Hs, Hb, Hd, Hc.
  eexists. run. simpl.
  split; [reflexivity |].
  split; [rewrite <- !app_assoc; by rewrite drop_app_length |].
  split; [reflexivity |]. split; [reflexivity |].
  split.
  { intros HE. unfold Int.mul. rewrite sint32_id by (unfold Int.in_int; lia).
    apply Z.div_mul. lia. }
  repeat (split; [reflexivity |]).
  split; [apply lookup_insert_eq |].
  destruct (Z.eq_dec d (d + 1)); [lia |].
  rewrite lookup_insert_ne by assumption. apply lookup_insert_eq.
Qed.

Lemma alloc_qp_buf_run f c type qp w :
  exists b ok w1,
    mlx4_alloc_qp_buf f c type qp w = (Some b, w1) /\
    w_trace w1 = w_trace w ++ [EvAllocQpBuf c type qp ok].
Proof.
  unfold mlx4_alloc_qp_buf.
  destruct (f c type qp) as [qp' |]; do 3 eexists; split; reflexivity.
Qed.

Lemma shl_one n : 0 <= n <= 30 -> Int.shl 1 n = 2 ^ n.
Proof.
  intros Hn. unfold Int.shl. rewrite Z.shiftl_1_l.
  apply sint32_id. unfold Int.in_int.
  assert (2 ^ n <= 2 ^ 30) by (apply Z.pow_le_mono_r; lia).
  assert (0 < 2 ^ n) by (apply Z.pow_pos_nonneg; lia). lia.
Qed.

Lemma log_sq_bb_count_loop_spec fuel : forall n sq_max,
  0 <= n <= 30 ->
  sq_max <= 2 ^ 30 ->
  (0 < n -> 2 ^ (n - 1) < sq_max) ->
  (Z.to_nat (31 - n) <= fuel)%nat ->
  exists r, log_sq_bb_count_loop fuel n sq_max = Some r /\
            0 <= r <= 30 /\ sq_max <= 2 ^ r /\
            (0 < r -> 2 ^ (r - 1) < sq_max).
Proof.
  induction fuel as [| fuel IH]; intros n sq_max Hn Hb Hprev Hfuel; [lia |].
  cbn [log_sq_bb_count_loop]. rewrite shl_one by lia.
  destruct (Z.gtb_spec sq_max (2 ^ n)) as [Hgt | Hle].
  - assert (n < 30).
    { destruct (Z_lt_le_dec n 30) as [? | Hn30]; [assumption |].
      assert (n = 30) as -> by lia. lia. }
    assert (Int.uint8 (n + 1) = n + 1) as ->
      by (unfold Int.uint8; apply Z.mod_small; lia).
    apply IH; try lia.
    intros _. replace (n + 1 - 1) with n by lia. lia.
  - exists n. repeat split; first [lia | assumption].
Qed.




(** C4, as the code has it: for every requested depth [d >= 1] with
    [d + spare <= 2 ^ 30], the queue-size rounding of shared receive queues
    ([spare = 1]) and queue pairs ([spare = 0]) returns the smallest power
    of two that is at least [d + spare]; the completion-queue rounding
    returns, for [d < 2 ^ 30], the smallest power of two that is at least
    [d + 1], that is, strictly greater than [d]. *)
Theorem rounding_returns_smallest_pow2 (d : Z) :
  1 <= d ->
  (forall ctx spare, 0 <= spare -> d + spare <= 2 ^ 30 ->
     exists r, align_queue_size ctx d spare = Some r /\
               smallest_pow2_ge (d + spare) r) /\
  (d < 2 ^ 30 ->
     exists r, align_cq_size d = Some r /\ smallest_pow2_ge (d + 1) r /\
               d < r).
Proof.
  intros Hd. split.
  - intros ctx spare Hsp Hb. by apply align_queue_size_spec.
  - intros Hb. destruct (align_cq_size_spec d Hb) as [r [Hr Hsm]].
    exists r. split; [assumption |]. split; [assumption |].
    destruct Hsm as (_ & Hle & _). lia.
Qed.

(** Completion-queue creation always returns: past the check the depth is
    small enough for the rounding loop to end. *)
Lemma create_cq_returns k ctx cqe channel comp_vector w :
  exists r, result (mlx4_create_cq k ctx cqe channel comp_vector) w = Some r.
Proof.
  unfold mlx4_create_cq.
  destruct (Z.gtb_spec cqe 0x3fffff) as [Hgt | Hle].
  - eexists. reflexivity.
  - destruct (align_cq_size_spec cqe) as [r [Hr _]]; [lia |].
    rewrite Hr. destruct k as [m s b d c n]. simpl.
    destruct m as [[p g] |]; [| eexists; reflexivity].
    unfold result. run.
    destruct (s =? 0); [| eexists; reflexivity].
    destruct b as [b |]; [| eexists; reflexivity].
    destruct d as [d |]; [| eexists; reflexivity].
    destruct (c =? 0); eexists; reflexivity.
Qed.

Lemma align_cq_size_fuel_enough cqe :
  align_cq_size cqe = None ->
  forall n, align_cq_size_loop n 1 cqe = None.
Proof.
  unfold align_cq_size. rewrite align_cq_size_loop_as_queue.
  intros Hnone n. rewrite align_cq_size_loop_as_queue.
  by apply align_queue_size_loop_fuel_enough.
Qed.

(** ** More of what the code shows *)

(** *** Rounding: bounds, fixed points, order *)

Lemma smallest_pow2_ge_below_double n r :
  1 <= n -> smallest_pow2_ge n r -> r < 2 * n.
Proof.
  intros Hn ([k [Hk ->]] & Hle & Hleast).
  destruct (Z.eq_dec k 0) as [-> | Hk0]; [simpl; lia |].
  assert (Hhalf : 2 ^ k = 2 * 2 ^ (k - 1)).
  { replace k with (Z.succ (k - 1)) at 1 by lia.
    apply Z.pow_succ_r. lia. }
  assert (Hpos : 0 < 2 ^ (k - 1)) by (apply Z.pow_pos_nonneg; lia).
  destruct (Z_lt_le_dec (2 ^ (k - 1)) n) as [Hlt | Hge]; [lia |].
  specialize (Hleast (2 ^ (k - 1))).
  assert (2 ^ k <= 2 ^ (k - 1)); [| lia].
  apply Hleast; [| assumption]. exists (k - 1). split; [lia | reflexivity].
Qed.

Lemma smallest_pow2_ge_unique n r1 r2 :
  smallest_pow2_ge n r1 -> smallest_pow2_ge n r2 -> r1 = r2.
Proof.
  intros (Hp1 & Hle1 & Hl1) (Hp2 & Hle2 & Hl2).
  specialize (Hl1 r2 Hp2 Hle2). specialize (Hl2 r1 Hp1 Hle1). lia.
Qed.

(** X1: the queue-size rounding returns, and never more than doubles:
    for a depth [d >= 1] and a spare [>= 0] with [d + spare <= 2 ^ 30] it
    returns a value in [d + spare, 2 * (d + spare)), and the
    completion-queue rounding of a depth [1 <= d < 2 ^ 30] returns a value
    in (d, 2 * d]. *)
Theorem rounding_stays_below_double (ctx d spare : Z) :
  1 <= d -> 0 <= spare -> d + spare <= 2 ^ 30 ->
  (exists r, align_queue_size ctx d spare = Some r /\
             d + spare <= r < 2 * (d + spare)) /\
  (d < 2 ^ 30 ->
   exists r, align_cq_size d = Some r /\ d < r <= 2 * d).
Proof.
  intros Hd Hsp Hb. split; [| intros Hd30].
  - destruct (align_queue_size_spec ctx d spare Hd Hsp Hb) as [r [Hr Hsm]].
    exists r. split; [exact Hr |].
    assert (Hpos : 1 <= d + spare) by lia.
    pose proof (smallest_pow2_ge_below_double (d + spare) r Hpos Hsm).
    destruct Hsm as (_ & Hle & _). lia.
  - assert (Hlt : d < 2 ^ 30) by lia.
    destruct (align_cq_size_spec d Hlt) as [r [Hr Hsm]].
    exists r. split; [exact Hr |].
    assert (Hpos : 1 <= d + 1) by lia.
    pose proof (smallest_pow2_ge_below_double (d + 1) r Hpos Hsm).
    destruct Hsm as ([k [Hk ->]] & Hle & _).
    destruct (Z.eq_dec k 0) as [-> | Hk0]; [simpl in Hle; lia |].
    assert (Hhalf : 2 ^ k = 2 * 2 ^ (k - 1)).
    { replace k with (Z.succ (k - 1)) at 1 by lia.
      apply Z.pow_succ_r. lia. }
    lia.
Qed.

(** A rounded depth is rounded to itself. *)
Lemma align_queue_size_fixed_point ctx d spare r :
  1 <= d -> 0 <= spare -> d + spare <= 2 ^ 30 ->
  smallest_pow2_ge (d + spare) r ->
  align_queue_size ctx r 0 = Some r.
Proof.
  intros Hd Hsp Hdb Hsm.
  assert (Hpos : 1 <= d + spare) by lia.
  pose proof (smallest_pow2_ge_below_double (d + spare) r Hpos Hsm) as Hlt.
  destruct Hsm as (Hp & Hle & Hleast).
  assert (Hr30 : r <= 2 ^ 30).
  { apply Hleast; [exists 30; split; [lia | reflexivity] | lia]. }
  destruct (align_queue_size_spec ctx r 0) as [r' [Hr' Hsm']];
    [lia | lia | lia |].
  rewrite Hr'. f_equal.
  destruct Hsm' as (_ & Hle' & Hleast').
  assert (Hrr : r + 0 <= r) by lia.
  specialize (Hleast' r Hp Hrr). lia.
Qed.

(** X2: for requested depths [0 <= d1 <= d2] and a spare [>= 0] with
    [d2 + spare <= 2 ^ 30] the queue-size rounding returns for both, it is
    monotone (the deeper request never gets the smaller queue), and what it
    returns it leaves as it is: rounding a result once more, with no
    spare, gives the same result.  A depth of 0 is covered: it is kept. *)
Theorem rounding_fixed_points_and_order (ctx d1 d2 spare : Z) :
  0 <= d1 -> d1 <= d2 -> 0 <= spare -> d2 + spare <= 2 ^ 30 ->
  exists r1 r2,
    align_queue_size ctx d1 spare = Some r1 /\
    align_queue_size ctx d2 spare = Some r2 /\
    r1 <= r2 /\
    (d1 = 0 -> r1 = 0) /\
    align_queue_size ctx r1 0 = Some r1 /\
    align_queue_size ctx r2 0 = Some r2.
Proof.
  intros H1 H12 Hsp Hb.
  assert (Hzero : forall sp, align_queue_size ctx 0 sp = Some 0)
    by reflexivity.
  destruct (Z.eq_dec d2 0) as [-> | Hd2].
  { assert (d1 = 0) as -> by lia.
    exists 0, 0. rewrite !Hzero. repeat split; lia. }
  destruct (align_queue_size_spec ctx d2 spare) as [r2 [Hr2 Hsm2]];
    [lia | lia | lia |].
  pose proof (align_queue_size_fixed_point ctx d2 spare r2) as Hfix2.
  destruct (Z.eq_dec d1 0) as [-> | Hd1].
  { exists 0, r2. rewrite !Hzero.
    destruct Hsm2 as (Hp2 & Hle2 & Hl2).
    repeat split; first [lia | assumption | idtac].
    apply Hfix2; first [lia | repeat split; assumption]. }
  destruct (align_queue_size_spec ctx d1 spare) as [r1 [Hr1 Hsm1]];
    [lia | lia | lia |].
  exists r1, r2.
  split; [exact Hr1 |]. split; [exact Hr2 |].
  split.
  { destruct Hsm1 as (_ & _ & Hleast1). destruct Hsm2 as (Hp2 & Hle2 & _).
    apply Hleast1; [assumption | lia]. }
  split; [lia |].
  split.
  - apply (align_queue_size_fixed_point ctx d1 spare); first [lia | assumption].
  - apply Hfix2; first [lia | assumption].
Qed.

(** *** The send-queue size sent to the kernel *)

(** X3: the send-queue size the kernel is given for a queue of [sq_max]
    entries is the least [n] with [sq_max <= 2 ^ n]; for a depth that came
    out of the rounding it is the exact logarithm, and for an empty send
    queue it is 0. *)
Theorem log_sq_bb_count_is_log2 (ctx sq_max : Z) :
  sq_max <= 2 ^ 30 ->
  exists n,
    log_sq_bb_count sq_max = Some n /\
    0 <= n <= 30 /\ sq_max <= 2 ^ n /\
    (0 < n -> 2 ^ (n - 1) < sq_max) /\
    (forall d, 1 <= d <= 2 ^ 30 ->
       align_queue_size ctx d 0 = Some sq_max -> 2 ^ n = sq_max) /\
    (sq_max <= 1 -> n = 0).
Proof.
  intros Hb.
  destruct (log_sq_bb_count_loop_spec 512 0 sq_max) as (n & Hn & Hr & Hle & Hp);
    [lia | lia | lia | lia |].
  exists n. split; [exact Hn |]. split; [exact Hr |]. split; [exact Hle |].
  split; [exact Hp |]. split.
  - intros d Hd Hal.
    destruct (align_queue_size_spec ctx d 0) as [r [Hr' Hsm]];
      [lia | lia | lia |].
    assert (r = sq_max) as -> by congruence.
    destruct Hsm as ([k [Hk Hpow]] & _ & _).
    destruct (Z.eq_dec n 0) as [-> | Hn0].
    + assert (0 < 2 ^ k) by (apply Z.pow_pos_nonneg; lia).
      change (2 ^ 0) with 1 in *. lia.
    + specialize (Hp ltac:(lia)). rewrite Hpow in *.
      assert (k <= n).
      { destruct (Z_lt_le_dec n k) as [Hlt | ?]; [| lia].
        assert (2 ^ n < 2 ^ k) by (apply Z.pow_lt_mono_r; lia). lia. }
      assert (n - 1 < k).
      { destruct (Z_lt_le_dec (n - 1) k) as [? | Hge]; [lia |].
        assert (2 ^ k <= 2 ^ (n - 1)) by (apply Z.pow_le_mono_r; lia). lia. }
      f_equal. lia.
  - intros Hs. destruct (Z.eq_dec n 0) as [? | Hn0]; [assumption |].
    specialize (Hp ltac:(lia)).
    assert (1 <= 2 ^ (n - 1)); [| lia].
    assert (0 < 2 ^ (n - 1)) by (apply Z.pow_pos_nonneg; lia). lia.
Qed.

(** *** Completion queues: every way out of creation, and destruction *)

Lemma drop_length_app {A : Type} (l1 l2 c : list A) :
  l2 = l1 ++ c -> drop (List.length l1) l2 = c.
Proof. intros ->. by rewrite drop_app_length. Qed.

(** Equations between sets of live addresses. *)
Ltac live_solver :=
  apply set_eq; intros ?x;
  rewrite ?elem_of_difference, ?elem_of_union, ?elem_of_singleton;
  intuition (subst; try tauto; try contradiction).

Lemma fresh_some w p : fresh w (Some p) -> p ∉ w_live w.
Proof. intros H. by apply H. Qed.

Lemma align_cq_size_low cqe : cqe <= 0 -> align_cq_size cqe = Some 1.
Proof.
  intros Hle. unfold align_cq_size, loop_fuel. cbn [align_cq_size_loop].
  destruct (Z.leb_spec 1 cqe); [lia | reflexivity].
Qed.

(** The run of a creation in which every collaborator succeeds. *)
Lemma create_cq_success_run k ctx cqe channel comp_vector w p g b d nent :
  cqe <= 0x3fffff ->
  cc_malloc k = Some (p, g) -> cc_spin_init k = 0 ->
  cc_alloc_buf k = Some b -> cc_alloc_db k = Some d -> cc_cmd_ret k = 0 ->
  align_cq_size cqe = Some nent ->
  mlx4_create_cq k ctx cqe channel comp_vector w =
  (Some (Some {| cq_addr := p;
                 cq_buf := {| buf := b;
                              buf_length := Int.mul nent MLX4_CQ_ENTRY_SIZE |};
                 cqn := cc_resp_cqn k; cons_index := 0; set_ci_db := d;
                 arm_db := d + 1; arm_sn := 1 |}),
   {| w_trace :=
        w_trace w ++
        [EvMalloc (Some p); EvSpinInit (CqLock p) 0;
         EvAllocBuf (Int.mul nent MLX4_CQ_ENTRY_SIZE) (w_page_size w) (Some b);
         EvMemset b 0 (Int.mul nent MLX4_CQ_ENTRY_SIZE);
         EvAllocDb MLX4_DB_TYPE_CQ (Some d);
         EvCmd (CmdCreateCq (Int.add nent (-1)) channel comp_vector b d) 0];
      w_qp_table := w_qp_table w;
      w_live := {[d]} ∪ ({[b]} ∪ ({[p]} ∪ w_live w));
      w_db := <[d := 0]> (<[d + 1 := 0]> (w_db w));
      w_page_size := w_page_size w |}).
Proof.
  intros Hle Hm Hs Hb Hd Hc Hal. unfold mlx4_create_cq.
  destruct (Z.gtb_spec cqe 0x3fffff) as [Hgt | _]; [lia |].
  rewrite Hm, Hs, Hb, Hd, Hc, Hal. run. simpl.
  rewrite <- !app_assoc. reflexivity.
Qed.

(** X4: whatever the collaborators answer, a completion-queue creation that
    returns the null handle leaves no allocation behind and does not touch
    the Resource Table: what was allocated before the failure has been
    released again. *)
Theorem create_cq_failure_leaves_nothing (k : create_cq_outcome)
    (ctx cqe channel comp_vector : Z) (w : world) :
  fresh w (fst <$> cc_malloc k) ->
  fresh w (cc_alloc_buf k) ->
  fresh w (cc_alloc_db k) ->
  let run := mlx4_create_cq k ctx cqe channel comp_vector in
  result run w = Some None ->
  w_live (after run w) = w_live w /\
  w_qp_table (after run w) = w_qp_table w /\
  List.length (filter is_release (calls run w)) =
  List.length (filter is_allocation (calls run w)).
Proof.
  intros Fm Fb Fd run. subst run. unfold calls, new_events, mlx4_create_cq.
  destruct (Z.gtb_spec cqe 0x3fffff) as [Hgt | Hle].
  - intros _. unfold after. simpl. rewrite drop_all. auto.
  - destruct (align_cq_size_spec cqe) as [nent [Hal _]]; [lia |].
    rewrite Hal. destruct k as [m s b d c n]. simpl in *.
    destruct m as [[p g] |]; simpl in *.
    2: { intros _. run. simpl. rewrite drop_app_length. auto. }
    pose proof (fresh_some _ _ Fm) as Hp.
    destruct (s =? 0) eqn:Es; run; rewrite ?Es; simpl.
    2: { intros _. rewrite <- ?app_assoc, drop_app_length.
         split; [live_solver | split; reflexivity]. }
    destruct b as [b |]; simpl.
    2: { intros _. rewrite <- ?app_assoc, drop_app_length.
         split; [live_solver | split; reflexivity]. }
    pose proof (fresh_some _ _ Fb) as Hb.
    destruct d as [d |]; simpl.
    2: { intros _. rewrite <- ?app_assoc, drop_app_length.
         split; [live_solver | split; reflexivity]. }
    pose proof (fresh_some _ _ Fd) as Hd.
    destruct (c =? 0) eqn:Ec; simpl; [discriminate |].
    intros _. rewrite <- ?app_assoc, drop_app_length.
    split; [live_solver | split; reflexivity].
Qed.

(** X5: a completion-queue creation that succeeds gets a ring of [nent]
    entries where [nent] is a power of two above the requested depth and at
    most [2 ^ 22]; the kernel is asked for [nent - 1] entries, which is at
    least the requested depth; a requested depth of 0 or less gives a ring
    of one entry and asks the kernel for 0. *)
Theorem create_cq_ring_size (k : create_cq_outcome)
    (ctx cqe channel comp_vector : Z) (w : world) (cq : mlx4_cq) :
  let run := mlx4_create_cq k ctx cqe channel comp_vector in
  result run w = Some (Some cq) ->
  exists nent,
    is_pow2 nent /\ cqe < nent <= 2 ^ 22 /\
    (cqe <= 0 -> nent = 1) /\
    buf_length (cq_buf cq) = Int.mul nent MLX4_CQ_ENTRY_SIZE /\
    filter is_kernel_cmd (calls run w) =
      [EvCmd (CmdCreateCq (nent - 1) channel comp_vector (buf (cq_buf cq))
                (set_ci_db cq)) 0] /\
    cqn cq = cc_resp_cqn k /\ cons_index cq = 0 /\ arm_sn cq = 1 /\
    arm_db cq = set_ci_db cq + 1 /\
    w_db (after run w) !! set_ci_db cq = Some 0 /\
    w_db (after run w) !! arm_db cq = Some 0.
Proof.
  intros run. subst run. unfold calls, new_events.
  destruct (Z_gt_le_dec cqe 0x3fffff) as [Hgt | Hle].
  { unfold mlx4_create_cq.
    destruct (Z.gtb_spec cqe 0x3fffff) as [_ | ?]; [discriminate | lia]. }
  destruct (align_cq_size_spec cqe) as [nent [Hal Hsm]]; [lia |].
  intros Hres.
  assert (Hok : exists p g b d,
            cc_malloc k = Some (p, g) /\ cc_spin_init k = 0 /\
            cc_alloc_buf k = Some b /\ cc_alloc_db k = Some d /\
            cc_cmd_ret k = 0).
  { revert Hres. unfold mlx4_create_cq.
    destruct (Z.gtb_spec cqe 0x3fffff) as [? | _]; [lia |].
    rewrite Hal. destruct k as [m s b d c n]. simpl.
    destruct m as [[p g] |]; [| discriminate].
    unfold result. run.
    destruct (Z.eqb_spec s 0) as [-> | ?]; simpl; [| discriminate].
    destruct b as [b |]; simpl; [| discriminate].
    destruct d as [d |]; simpl; [| discriminate].
    destruct (Z.eqb_spec c 0) as [-> | ?]; simpl; [| discriminate].
    intros _. by exists p, g, b, d. }
  destruct Hok as (p & g & b & d & Hm & Hs & Hb & Hd & Hc).
  pose proof (create_cq_success_run k ctx cqe channel comp_vector w
                p g b d nent Hle Hm Hs Hb Hd Hc Hal) as Hrun.
  unfold result, after in *. rewrite Hrun in *. simpl in *.
  injection Hres as <-. simpl.
  pose proof (smallest_pow2_ge_below_double (cqe + 1) nent) as Hdbl.
  destruct Hsm as (Hp & Hlow & Hleast).
  assert (Hup : nent <= 2 ^ 22).
  { apply Hleast; [exists 22; split; [lia | reflexivity] | lia]. }
  assert (Hpos : 0 < nent).
  { destruct Hp as [j [Hj ->]]. apply Z.pow_pos_nonneg; lia. }
  exists nent. split; [assumption |]. split; [lia |].
  split.
  { intros Hneg. rewrite (align_cq_size_low cqe Hneg) in Hal. congruence. }
  split; [reflexivity |].
  split.
  { rewrite drop_app_length. simpl. unfold Int.add.
    rewrite sint32_id by (unfold Int.in_int; lia).
    replace (nent + -1) with (nent - 1) by lia. reflexivity. }
  repeat (split; [reflexivity |]).
  split; [apply lookup_insert_eq |].
  destruct (Z.eq_dec d (d + 1)); [lia |].
  rewrite lookup_insert_ne by assumption. apply lookup_insert_eq.
Qed.

Lemma create_cq_success_inv k ctx cqe channel comp_vector w cq :
  result (mlx4_create_cq k ctx cqe channel comp_vector) w = Some (Some cq) ->
  exists p g b d nent,
    cqe <= 0x3fffff /\
    cc_malloc k = Some (p, g) /\ cc_spin_init k = 0 /\
    cc_alloc_buf k = Some b /\ cc_alloc_db k = Some d /\
    cc_cmd_ret k = 0 /\ align_cq_size cqe = Some nent.
Proof.
  unfold mlx4_create_cq.
  destruct (Z.gtb_spec cqe 0x3fffff) as [? | Hle]; [discriminate |].
  destruct (align_cq_size_spec cqe) as [nent [Hal _]]; [lia |].
  rewrite Hal. destruct k as [m s b d c n]. simpl.
  destruct m as [[p g] |]; [| discriminate].
  unfold result. run.
  destruct (Z.eqb_spec s 0) as [-> | ?]; simpl; [| discriminate].
  destruct b as [b |]; simpl; [| discriminate].
  destruct d as [d |]; simpl; [| discriminate].
  destruct (Z.eqb_spec c 0) as [-> | ?]; simpl; [| discriminate].
  intros _. by exists p, g, b, d, nent.
Qed.

(** X6: destroying a completion queue that was just created.  The kernel's
    code is returned and the Resource Table is as before the creation.  When
    the kernel accepts, the doorbell, the buffer and the object are
    released, in that order, and the live allocations are exactly those
    from before the creation; when the kernel refuses, nothing is released
    and the only trace of the call is the refused command. *)
Theorem create_then_destroy_cq (k : create_cq_outcome)
    (ctx cqe channel comp_vector : Z) (w : world) (cq : mlx4_cq) (r : Z) :
  fresh w (fst <$> cc_malloc k) ->
  fresh w (cc_alloc_buf k) ->
  fresh w (cc_alloc_db k) ->
  let create := mlx4_create_cq k ctx cqe channel comp_vector in
  result create w = Some (Some cq) ->
  let w1 := after create w in
  let destroy := mlx4_destroy_cq r cq in
  result destroy w1 = Some r /\
  w_qp_table (after destroy w1) = w_qp_table w /\
  (r = 0 ->
   w_live (after destroy w1) = w_live w /\
   calls destroy w1 =
     [EvCmd (CmdDestroyCq (cq_addr cq)) 0; EvFreeDb (set_ci_db cq);
      EvFreeBuf (buf (cq_buf cq)); EvFree (cq_addr cq)]) /\
  (r <> 0 ->
   after destroy w1 = log [EvCmd (CmdDestroyCq (cq_addr cq)) r] w1).
Proof.
  intros Fm Fb Fd create Hres w1 destroy. subst create w1 destroy.
  destruct (create_cq_success_inv _ _ _ _ _ _ _ Hres)
    as (p & g & b & d & nent & Hle & Hm & Hs & Hb & Hd & Hc & Hal).
  pose proof (create_cq_success_run k ctx cqe channel comp_vector w
                p g b d nent Hle Hm Hs Hb Hd Hc Hal) as Hrun.
  rewrite Hm in Fm. rewrite Hb in Fb. rewrite Hd in Fd.
  pose proof (fresh_some _ _ Fm). pose proof (fresh_some _ _ Fb).
  pose proof (fresh_some _ _ Fd).
  unfold result, after, calls, new_events in *. rewrite Hrun in *.
  simpl in Hres. injection Hres as <-. simpl.
  unfold mlx4_destroy_cq.
  destruct (Z.eqb_spec r 0) as [-> | Hr].
  - run. simpl. split; [reflexivity |]. split; [reflexivity |].
    split; [| intros Hne; contradiction].
    intros _. split; [live_solver |].
    rewrite <- !app_assoc. rewrite app_assoc. by rewrite drop_app_length.
  - run. apply Z.eqb_neq in Hr. rewrite Hr. simpl.
    split; [reflexivity |]. split; [reflexivity |].
    split; [intros ->; discriminate |]. intros _. reflexivity.
Qed.

(** *** Shared receive queues *)

Lemma grows_mlx4_alloc_srq_buf f attr s : grows (mlx4_alloc_srq_buf f attr s).
Proof. unfold mlx4_alloc_srq_buf. grows_auto. Qed.

Lemma grows_create_srq_err s : grows (create_srq_err s).
Proof. unfold create_srq_err. grows_auto. Qed.

Lemma grows_create_srq_err_free s : grows (create_srq_err_free s).
Proof.
  unfold create_srq_err_free. grows_auto. apply grows_create_srq_err.
Qed.

Lemma grows_create_srq_err_db s : grows (create_srq_err_db s).
Proof.
  unfold create_srq_err_db. grows_auto. apply grows_create_srq_err_free.
Qed.

#[local] Hint Resolve grows_mlx4_alloc_srq_buf grows_create_srq_err
  grows_create_srq_err_free grows_create_srq_err_db : grows.

(** X7: shared-receive-queue creation returns the null handle with the
    world untouched exactly when the requested depth exceeds 65536 or the
    scatter-gather entries exceed 64; otherwise its first call is
    [malloc]. *)
Theorem create_srq_rejects_oversized (k : create_srq_outcome) (pd : mlx4_pd)
    (attr : ibv_srq_attr) (w : world) :
  (mlx4_create_srq k pd attr w = (Some None, w) <->
   max_wr attr > 65536 \/ max_sge attr > 64) /\
  (max_wr attr <= 65536 /\ max_sge attr <= 64 ->
   exists t, calls (mlx4_create_srq k pd attr) w =
             EvMalloc (fst <$> cs_malloc k) :: t).
Proof.
  assert (Hpast : max_wr attr <= 65536 /\ max_sge attr <= 64 ->
            exists t, calls (mlx4_create_srq k pd attr) w =
                      EvMalloc (fst <$> cs_malloc k) :: t).
  { intros [Hw Hs]. unfold calls, mlx4_create_srq.
    change (Int.shl 1 16) with 65536.
    destruct (Z.gtb_spec (max_wr attr) 65536) as [? | _]; [lia |].
    destruct (Z.gtb_spec (max_sge attr) 64) as [? | _]; [lia |].
    cbn [orb].
    lazymatch goal with
    | |- context [mbind ?K (malloc ?r)] =>
        assert (HK : forall a, grows (K a)) by (intros; grows_auto)
    end.
    destruct (malloc_run (cs_malloc k) w) as [w1 [Hm Ht1]].
    unfold after at 1. rewrite (bind_run _ _ w _ w1 Hm).
    destruct (HK (cs_malloc k) w1) as [t Ht]. unfold after in Ht.
    exists t. unfold new_events. rewrite Ht, Ht1, <- app_assoc.
    by rewrite drop_app_length. }
  split; [split |]; [| | exact Hpast].
  - intros Hrun.
    destruct (Z_gt_le_dec (max_wr attr) 65536) as [? | Hw]; [by left |].
    destruct (Z_gt_le_dec (max_sge attr) 64) as [? | Hs]; [by right |].
    destruct (Hpast (conj Hw Hs)) as [t Ht].
    unfold calls, after in Ht. rewrite Hrun in Ht. simpl in Ht.
    rewrite new_events_same in Ht. discriminate.
  - intros Hbig. unfold mlx4_create_srq.
    change (Int.shl 1 16) with 65536.
    destruct (Z.gtb_spec (max_wr attr) 65536);
      destruct (Z.gtb_spec (max_sge attr) 64); try reflexivity. lia.
Qed.

Lemma alloc_srq_buf_run f attr s w :
  exists b ok w1,
    mlx4_alloc_srq_buf f attr s w = (Some b, w1) /\
    w_trace w1 = w_trace w ++ [EvAllocSrqBuf attr s ok].
Proof.
  unfold mlx4_alloc_srq_buf.
  destruct (f s) as [s' |]; do 3 eexists; split; reflexivity.
Qed.

(** X8: the shared receive queue handed to the buffer allocation has the
    requested scatter-gather count, a pending counter of 0, and as depth
    the smallest power of two that is at least one more than the requested
    depth, so always room for more receives than were asked for; a
    requested depth of 0 stays 0. *)
Theorem create_srq_depth (k : create_srq_outcome) (pd : mlx4_pd)
    (attr : ibv_srq_attr) (w : world) (p : Z) (g : mlx4_srq) :
  cs_malloc k = Some (p, g) ->
  cs_spin_init k = 0 ->
  0 <= max_wr attr <= 65536 -> max_sge attr <= 64 ->
  exists s0 ok t,
    calls (mlx4_create_srq k pd attr) w =
      EvMalloc (Some p) :: EvSpinInit (SrqLock p) 0 ::
      EvAllocSrqBuf attr s0 ok :: t /\
    srq_addr s0 = p /\ srq_max_gs s0 = max_sge attr /\ srq_counter s0 = 0 /\
    (max_wr attr = 0 -> srq_max s0 = 0) /\
    (1 <= max_wr attr ->
     smallest_pow2_ge (max_wr attr + 1) (srq_max s0) /\
     max_wr attr < srq_max s0 <= 2 * max_wr attr).
Proof.
  intros Hm Hs Hw Hg.
  destruct (align_queue_size_returns (pd_context pd) (max_wr attr) 1)
    as [r Hr]; [lia | lia | lia |].
  unfold calls, mlx4_create_srq. change (Int.shl 1 16) with 65536.
  destruct (Z.gtb_spec (max_wr attr) 65536) as [? | _]; [lia |].
  destruct (Z.gtb_spec (max_sge attr) 64) as [? | _]; [lia |].
  cbn [orb]. rewrite Hm, Hs, Hr.
  destruct (malloc_run (Some (p, g)) w) as [w1 [Hw1 Ht1]].
  unfold after. rewrite (bind_run _ _ w _ w1 Hw1). cbv beta iota zeta.
  erewrite bind_run by reflexivity. cbv beta iota zeta.
  change (negb (0 =? 0)) with false. cbv beta iota zeta.
  erewrite bind_run by reflexivity. cbv beta iota zeta.
  lazymatch goal with
  | |- context [mbind ?K (mlx4_alloc_srq_buf ?f ?a ?s)] =>
      assert (HK : forall a, grows (K a)) by (intros; grows_auto);
      destruct (alloc_srq_buf_run f a s
                  (log [EvSpinInit (SrqLock p) 0] w1))
        as (b & ok & w2 & Hw2 & Ht2);
      exists s, ok
  end.
  rewrite (bind_run _ _ _ _ w2 Hw2).
  destruct (HK b w2) as [t Ht]. unfold after in Ht.
  exists t. split.
  { unfold new_events. rewrite Ht, Ht2, log_trace, Ht1, <- !app_assoc. simpl.
    by rewrite drop_app_length. }
  split; [reflexivity |]. split; [reflexivity |]. split; [reflexivity |].
  simpl. split.
  - intros Hz. rewrite Hz in Hr. by injection Hr.
  - intros Hpos.
    destruct (align_queue_size_spec (pd_context pd) (max_wr attr) 1)
      as [r' [Hr' Hsm]]; [lia | lia | lia |].
    assert (r' = r) as -> by congruence.
    split; [assumption |].
    pose proof (smallest_pow2_ge_below_double (max_wr attr + 1) r
                  ltac:(lia) Hsm) as Hdbl.
    destruct Hsm as ([j [Hj ->]] & Hle & _).
    destruct (Z.eq_dec j 0) as [-> | Hj0]; [simpl in Hle; lia |].
    assert (Hhalf : 2 ^ j = 2 * 2 ^ (j - 1)).
    { replace j with (Z.succ (j - 1)) at 1 by lia.
      apply Z.pow_succ_r. lia. }
    lia.
Qed.

(** X9: a shared-receive-queue creation that returns the null handle
    leaves no allocation behind and does not touch the Resource Table,
    whichever step failed. *)
Theorem create_srq_failure_leaves_nothing (k : create_srq_outcome)
    (pd : mlx4_pd) (attr : ibv_srq_attr) (w : world) :
  fresh w (fst <$> cs_malloc k) ->
  srq_buf_fresh k w ->
  fresh w (cs_alloc_db k) ->
  let run := mlx4_create_srq k pd attr in
  result run w = Some None ->
  w_live (after run w) = w_live w /\
  w_qp_table (after run w) = w_qp_table w.
Proof.
  intros Fm Fb Fd run. subst run. unfold mlx4_create_srq.
  destruct ((max_wr attr >? Int.shl 1 16) || (max_sge attr >? 64)).
  { intros _. split; reflexivity. }
  destruct k as [m s f d c n]. unfold srq_buf_fresh in Fb. simpl in *.
  destruct m as [[p g] |]; simpl in *.
  2: { intros _. split; reflexivity. }
  pose proof (fresh_some _ _ Fm) as Hp.
  unfold result, after. run. unfold mlx4_alloc_srq_buf.
  destruct (s =? 0) eqn:Es; simpl.
  2: { intros _. split; [live_solver | reflexivity]. }
  destruct (align_queue_size (pd_context pd) (max_wr attr) 1) as [mx |];
    simpl; [| discriminate].
  lazymatch goal with
  | |- context [f ?s0] =>
      destruct (f s0) as [s' |] eqn:Ef;
      [destruct (Fb _ _ Ef) as [Hwr Hbf] |]
  end; run; simpl.
  2: { intros _. split; [live_solver | reflexivity]. }
  destruct d as [d |]; simpl.
  2: { intros _. split; [live_solver | reflexivity]. }
  pose proof (fresh_some _ _ Fd) as Hd.
  destruct (c =? 0) eqn:Ec; simpl; [discriminate |].
  intros _. split; [live_solver | reflexivity].
Qed.

(** X10: destroying a shared receive queue that was just created.  When
    the kernel accepts, the doorbell, the buffer, the work-request id array
    and the object are released, in that order, and the live allocations
    are those from before the creation; when the kernel refuses, nothing is
    released.  The kernel's code is returned either way. *)
Theorem create_then_destroy_srq (k : create_srq_outcome) (pd : mlx4_pd)
    (attr : ibv_srq_attr) (w : world) (s : mlx4_srq) (r : Z) :
  fresh w (fst <$> cs_malloc k) ->
  srq_buf_fresh k w ->
  fresh w (cs_alloc_db k) ->
  let create := mlx4_create_srq k pd attr in
  result create w = Some (Some s) ->
  let w1 := after create w in
  let destroy := mlx4_destroy_srq r s in
  result destroy w1 = Some r /\
  srqn s = cs_resp_srqn k /\
  w_db w1 !! srq_db s = Some 0 /\
  (r = 0 ->
   w_live (after destroy w1) = w_live w /\
   calls destroy w1 =
     [EvCmd (CmdDestroySrq (srq_addr s)) 0; EvFreeDb (srq_db s);
      EvFreeBuf (buf (srq_buf s)); EvFree (srq_wrid s);
      EvFree (srq_addr s)]) /\
  (r <> 0 ->
   after destroy w1 = log [EvCmd (CmdDestroySrq (srq_addr s)) r] w1).
Proof.
  intros Fm Fb Fd create Hres w1 destroy. subst create w1 destroy.
  revert Hres. unfold calls, new_events, mlx4_create_srq.
  destruct ((max_wr attr >? Int.shl 1 16) || (max_sge attr >? 64));
    [discriminate |].
  destruct k as [m s0 f d c n]. unfold srq_buf_fresh in Fb. simpl in *.
  destruct m as [[p g] |]; simpl in *; [| discriminate].
  pose proof (fresh_some _ _ Fm) as Hp.
  unfold result, after. run. unfold mlx4_alloc_srq_buf.
  destruct (s0 =? 0) eqn:Es; simpl; [| discriminate].
  destruct (align_queue_size (pd_context pd) (max_wr attr) 1) as [mx |];
    simpl; [| discriminate].
  lazymatch goal with
  | |- context [f ?a] =>
      destruct (f a) as [s' |] eqn:Ef;
      [destruct (Fb _ _ Ef) as [Hwr Hbf] |]
  end; run; simpl; [| discriminate].
  destruct d as [d |]; simpl; [| discriminate].
  pose proof (fresh_some _ _ Fd) as Hd.
  destruct (c =? 0) eqn:Ec; simpl; [| discriminate].
  intros Hres. injection Hres as <-. unfold mlx4_destroy_srq. run. simpl.
  destruct (Z.eqb_spec r 0) as [-> | Hr]; simpl.
  - split; [reflexivity |]. split; [reflexivity |].
    split; [apply lookup_insert_eq |].
    split; [| intros Hne; contradiction].
    intros _. split; [live_solver |].
    apply drop_length_app. rewrite <- ?app_assoc. reflexivity.
  - split; [reflexivity |]. split; [reflexivity |].
    split; [apply lookup_insert_eq |].
    split; [intros ->; contradiction |]. intros _. reflexivity.
Qed.

(** *** Queue pairs: every way out of creation *)

Lemma create_qp_failure_run k pd attr w :
  fresh w (fst <$> cqp_malloc k) ->
  qp_buf_fresh k w ->
  fresh w (cqp_alloc_db k) ->
  let run := mlx4_create_qp k pd attr in
  result run w = Some None ->
  w_live (after run w) = w_live w /\
  w_qp_table (after run w) = w_qp_table w /\
  (filter is_kernel_cmd (calls run w) = [] \/
   (exists c r, r <> 0 /\ filter is_kernel_cmd (calls run w) = [EvCmd c r]) \/
   (exists a b d s bb p g,
      cqp_malloc k = Some (p, g) /\ cqp_store_ret k <> 0 /\
      filter is_kernel_cmd (calls run w) =
        [EvCmd (CmdCreateQp a b d s bb) 0;
         EvCmd (CmdDestroyQp p) (cqp_cmd_destroy_ret k)])).
Proof.
  intros Fm Fb Fd run. subst run. unfold calls, new_events, mlx4_create_qp.
  destruct (qp_cap_too_large (cap attr)).
  { intros _. unfold after. simpl. rewrite drop_all. auto. }
  destruct k as [m f s1 s2 d c n rc st cd f2].
  unfold qp_buf_fresh in Fb. simpl in *.
  destruct m as [[p g] |]; simpl in *.
  2: { intros _. unfold after. run. simpl. rewrite drop_app_length. auto. }
  pose proof (fresh_some _ _ Fm) as Hp.
  unfold result, after. run. unfold mlx4_alloc_qp_buf.
  destruct (align_queue_size (pd_context pd) (max_send_wr (cap attr)) 0)
    as [sm |]; simpl; [| discriminate].
  destruct (align_queue_size (pd_context pd) (max_recv_wr (cap attr)) 0)
    as [rm |]; simpl; [| discriminate].
  lazymatch goal with
  | |- context [f ?a ?b ?q] =>
      destruct (f a b q) as [q' |] eqn:Ef;
      [destruct (Fb _ _ _ _ Ef) as (Hsw & Hrw & Hbf) |]
  end; run; simpl.
  2: { intros _. split; [live_solver |]. split; [reflexivity |]. left.
       erewrite drop_length_app
         by (rewrite <- ?app_assoc; reflexivity).
       reflexivity. }
  destruct (s1 =? 0) eqn:E1; simpl.
  2: { intros _. split; [live_solver |]. split; [reflexivity |]. left.
       erewrite drop_length_app
         by (rewrite <- ?app_assoc; reflexivity).
       reflexivity. }
  destruct (s2 =? 0) eqn:E2; simpl.
  2: { intros _. split; [live_solver |]. split; [reflexivity |]. left.
       erewrite drop_length_app
         by (rewrite <- ?app_assoc; reflexivity).
       reflexivity. }
  destruct d as [d |]; simpl.
  2: { intros _. split; [live_solver |]. split; [reflexivity |]. left.
       erewrite drop_length_app
         by (rewrite <- ?app_assoc; reflexivity).
       reflexivity. }
  pose proof (fresh_some _ _ Fd) as Hd.
  lazymatch goal with
  | |- context [log_sq_bb_count ?x] =>
      destruct (log_sq_bb_count x) as [bb |]
  end; simpl; [| discriminate].
  destruct (Z.eqb_spec c 0) as [-> | Hc]; simpl.
  2: { intros _. split; [live_solver |]. split; [reflexivity |].
       right. left. do 2 eexists. split; [exact Hc |].
       erewrite drop_length_app
         by (rewrite <- ?app_assoc; reflexivity).
       reflexivity. }
  destruct (Z.eqb_spec st 0) as [-> | Hst]; simpl; [discriminate |].
  assert (Est : (st =? 0) = false) by (by apply Z.eqb_neq).
  rewrite ?Est. unfold create_qp_err_destroy, create_qp_err_rq_db,
    create_qp_err_free, create_qp_err. run. simpl.
  intros _. split; [live_solver |]. split; [reflexivity |].
  right. right. do 7 eexists. split; [reflexivity |]. split; [exact Hst |].
  erewrite drop_length_app by (rewrite <- ?app_assoc; reflexivity).
  reflexivity.
Qed.

(** X11: a queue-pair creation that returns the null handle leaves no
    allocation behind, whichever step failed, and leaves the Resource Table
    as it was. *)
Theorem create_qp_failure_leaves_nothing (k : create_qp_outcome)
    (pd : mlx4_pd) (attr : ibv_qp_init_attr) (w : world) :
  fresh w (fst <$> cqp_malloc k) ->
  qp_buf_fresh k w ->
  fresh w (cqp_alloc_db k) ->
  let run := mlx4_create_qp k pd attr in
  result run w = Some None ->
  w_live (after run w) = w_live w /\
  w_qp_table (after run w) = w_qp_table w.
Proof.
  intros Fm Fb Fd run Hres.
  destruct (create_qp_failure_run k pd attr w Fm Fb Fd Hres) as (Hl & Ht & _).
  split; assumption.
Qed.

Lemma kernel_qps_left_filter (t : list event) :
  kernel_qps_left t = kernel_qps_left (filter is_kernel_cmd t).
Proof.
  induction t as [| e t IH]; [reflexivity |].
  rewrite filter_cons. destruct e; simpl; rewrite IH; reflexivity.
Qed.

(** X12: what a failed queue-pair creation leaves in the kernel.  Either
    it sent the kernel nothing, or its one command was refused, and then
    the kernel holds no new queue pair; or the Resource Table could not
    take the new entry, and then the accepted create command is followed
    by exactly one destroy command for the same object.  The code of that
    destroy command is not looked at, the local allocations are released
    either way: the kernel holds no new queue pair when it accepted the
    destroy, and one that no local object stands for when it refused. *)
Theorem create_qp_failure_kernel_side (k : create_qp_outcome) (pd : mlx4_pd)
    (attr : ibv_qp_init_attr) (w : world) :
  fresh w (fst <$> cqp_malloc k) ->
  qp_buf_fresh k w ->
  fresh w (cqp_alloc_db k) ->
  let run := mlx4_create_qp k pd attr in
  result run w = Some None ->
  w_live (after run w) = w_live w /\
  ((filter is_kernel_cmd (calls run w) = [] /\
    kernel_qps_left (calls run w) = 0) \/
   (exists c r, r <> 0 /\
      filter is_kernel_cmd (calls run w) = [EvCmd c r] /\
      kernel_qps_left (calls run w) = 0) \/
   (exists a b d s bb p g,
      cqp_malloc k = Some (p, g) /\ cqp_store_ret k <> 0 /\
      filter is_kernel_cmd (calls run w) =
        [EvCmd (CmdCreateQp a b d s bb) 0;
         EvCmd (CmdDestroyQp p) (cqp_cmd_destroy_ret k)] /\
      kernel_qps_left (calls run w) =
        (if cqp_cmd_destroy_ret k =? 0 then 0 else 1))).
Proof.
  intros Fm Fb Fd run Hres. subst run.
  destruct (create_qp_failure_run k pd attr w Fm Fb Fd Hres)
    as (Hl & _ & Hc).
  split; [exact Hl |].
  rewrite (kernel_qps_left_filter (calls (mlx4_create_qp k pd attr) w)).
  destruct Hc as [Hc | [(c & r & Hr & Hc) | Hc]].
  - left. rewrite Hc. split; reflexivity.
  - right. left. exists c, r. rewrite Hc.
    split; [exact Hr |]. split; [reflexivity |].
    apply Z.eqb_neq in Hr.
    destruct c; simpl; rewrite ?Hr; reflexivity.
  - right. right.
    destruct Hc as (a & b & d & s & bb & p & g & Hm & Hst & Hc).
    exists a, b, d, s, bb, p, g. rewrite Hc.
    split; [exact Hm |]. split; [exact Hst |]. split; [reflexivity |].
    simpl. destruct (cqp_cmd_destroy_ret k =? 0); reflexivity.
Qed.

(** *** Big-endian fields *)

Lemma land_255 x : Z.land x 255 = x mod 256.
Proof. change 255 with (Z.ones 8). by rewrite Z.land_ones by lia. Qed.

Lemma be_value_htonl x : 0 <= x < 2 ^ 32 -> be_value (htonl x) = x.
Proof.
  intros Hx. unfold be_value, htonl. simpl.
  rewrite !land_255, !Z.shiftr_div_pow2 by lia.
  change (2 ^ 24) with 16777216. change (2 ^ 16) with 65536.
  change (2 ^ 8) with 256. change (2 ^ 32) with 4294967296 in Hx.
  Z.div_mod_to_equations. lia.
Qed.

Lemma be_value_htons x : 0 <= x < 2 ^ 16 -> be_value (htons x) = x.
Proof.
  intros Hx. unfold be_value, htons. simpl.
  rewrite !land_255, !Z.shiftr_div_pow2 by lia.
  change (2 ^ 8) with 256. change (2 ^ 16) with 65536 in Hx.
  Z.div_mod_to_equations. lia.
Qed.

Lemma be_or_htonl a b : be_or (htonl a) (htonl b) = htonl (Z.lor a b).
Proof.
  unfold be_or, htonl. simpl.
  by rewrite !Z.shiftr_lor, !Z.land_lor_distr_l.
Qed.

(** X13: a queue-pair creation that succeeds has registered the new object
    in the Resource Table under the number the kernel returned, without
    disturbing any other entry; it sent the kernel exactly one command, the
    accepted create; the doorbell word of the object holds the queue-pair
    number shifted left by one byte, in network byte order, and the signal
    bits are the completion-update flag when every send is to be signalled
    and 0 otherwise. *)
Theorem create_qp_registers (k : create_qp_outcome) (pd : mlx4_pd)
    (attr : ibv_qp_init_attr) (w : world) (qp : mlx4_qp) (c : ibv_qp_cap) :
  let run := mlx4_create_qp k pd attr in
  result run w = Some (Some (qp, c)) ->
  exists p g,
    cqp_malloc k = Some (p, g) /\ qp_addr qp = p /\
    p ∈ w_live (after run w) /\
    mlx4_find_qp (after run w) (cqp_resp_qp_num k) = Some p /\
    (forall q, q <> cqp_resp_qp_num k ->
       mlx4_find_qp (after run w) q = mlx4_find_qp w q) /\
    (exists cmd, filter is_kernel_cmd (calls run w) = [EvCmd cmd 0]) /\
    doorbell_qpn qp = htonl (Int.uint32 (Z.shiftl (qp_num (ibv qp)) 8)) /\
    be_value (doorbell_qpn qp) = (qp_num (ibv qp) * 256) mod 2 ^ 32 /\
    sq_signal_bits qp =
      (if sq_sig_all attr =? 0 then htonl 0
       else htonl MLX4_WQE_CTRL_CQ_UPDATE).
Proof.
  intros run. subst run. unfold calls, new_events, mlx4_create_qp.
  destruct (qp_cap_too_large (cap attr)); [discriminate |].
  destruct k as [m f s1 s2 d cr n rc st cd f2]. simpl.
  destruct m as [[p g] |]; simpl; [| discriminate].
  unfold result, after. run. unfold mlx4_alloc_qp_buf.
  destruct (align_queue_size (pd_context pd) (max_send_wr (cap attr)) 0)
    as [sm |]; simpl; [| discriminate].
  destruct (align_queue_size (pd_context pd) (max_recv_wr (cap attr)) 0)
    as [rm |]; simpl; [| discriminate].
  lazymatch goal with
  | |- context [f ?a ?b ?q] => destruct (f a b q) as [q' |] eqn:Ef
  end; run; simpl; [| discriminate].
  destruct (s1 =? 0) eqn:E1; simpl; [| discriminate].
  destruct (s2 =? 0) eqn:E2; simpl; [| discriminate].
  destruct d as [d |]; simpl; [| discriminate].
  lazymatch goal with
  | |- context [log_sq_bb_count ?x] =>
      destruct (log_sq_bb_count x) as [bb |]
  end; simpl; [| discriminate].
  destruct (Z.eqb_spec cr 0) as [-> | Hc]; simpl; [| discriminate].
  destruct (Z.eqb_spec st 0) as [-> | Hst]; simpl.
  2: { assert (Est : (st =? 0) = false) by (by apply Z.eqb_neq).
       rewrite ?Est. unfold create_qp_err_destroy, create_qp_err_rq_db,
         create_qp_err_free, create_qp_err. run. simpl. discriminate. }
  unfold mlx4_set_sq_sizes. run. simpl.
  intros Hres. injection Hres as <- <-.
  exists p, g. split; [reflexivity |].
  split; [destruct (negb (sq_sig_all attr =? 0)); reflexivity |].
  split; [rewrite !elem_of_union, !elem_of_singleton; intuition |].
  split; [apply lookup_insert_eq |].
  split; [intros q Hq; by apply lookup_insert_ne |].
  split.
  { eexists. erewrite drop_length_app
      by (rewrite <- ?app_assoc; reflexivity).
    reflexivity. }
  assert (Hdb : forall x, doorbell_qpn
            (if negb (sq_sig_all attr =? 0)
             then set_sq_signal_bits (htonl MLX4_WQE_CTRL_CQ_UPDATE) x
             else set_sq_signal_bits (htonl 0) x) = doorbell_qpn x).
  { intros x. destruct (negb (sq_sig_all attr =? 0)); reflexivity. }
  assert (Hibv : forall x, ibv
            (if negb (sq_sig_all attr =? 0)
             then set_sq_signal_bits (htonl MLX4_WQE_CTRL_CQ_UPDATE) x
             else set_sq_signal_bits (htonl 0) x) = ibv x).
  { intros x. destruct (negb (sq_sig_all attr =? 0)); reflexivity. }
  rewrite Hdb, Hibv. simpl.
  split; [reflexivity |].
  split.
  { rewrite be_value_htonl.
    - unfold Int.uint32. by rewrite Z.shiftl_mul_pow2 by lia.
    - unfold Int.uint32. apply Z.mod_pos_bound. lia. }
  destruct (sq_sig_all attr =? 0); reflexivity.
Qed.

(** *** Destroying a queue pair: what is left alone, and what comes back *)

Lemma lock_list_exists qp :
  exists l,
    l = (if cq_addr (send_cq qp) =? cq_addr (recv_cq qp) then [send_cq qp]
         else if cqn (send_cq qp) <? cqn (recv_cq qp)
              then [send_cq qp; recv_cq qp]
              else [recv_cq qp; send_cq qp]).
Proof. eexists. reflexivity. Qed.

(** X14: whatever the kernel and the table answer, destroying a queue pair
    leaves the Resource Table entries of all other queue-pair numbers as
    they were. *)
Theorem destroy_qp_keeps_other_entries (k : destroy_qp_outcome)
    (qp : mlx4_qp) (w : world) (q : Z) :
  q <> qp_num (ibv qp) ->
  mlx4_find_qp (after (mlx4_destroy_qp k qp) w) q = mlx4_find_qp w q.
Proof.
  intros Hq. destruct (lock_list_exists (ibv qp)) as [l Hl].
  destruct (destroy_qp_run k qp w l Hl) as [Hok Hfail].
  unfold mlx4_find_qp.
  destruct (Z.eq_dec (dqp_cmd_ret k) 0) as [Hr | Hr].
  - destruct (Hok Hr) as (_ & _ & -> & _). by apply lookup_delete_ne.
  - destruct (Hfail Hr) as (_ & _ & -> & _).
    destruct (dqp_store_ret k =? 0).
    + rewrite lookup_insert_ne by done. by apply lookup_delete_ne.
    + by apply lookup_delete_ne.
Qed.

(** X15: when the kernel refuses the destroy command and the re-insertion
    succeeds, a queue pair that was registered is registered again exactly
    as before: the Resource Table and the live allocations are those from
    before the call, and the call can be repeated; once the kernel accepts,
    the repeated call returns 0 and removes the entry. *)
Theorem destroy_qp_refused_restores (k k2 : destroy_qp_outcome)
    (qp : mlx4_qp) (w : world) :
  dqp_cmd_ret k <> 0 ->
  dqp_store_ret k = 0 ->
  mlx4_find_qp w (qp_num (ibv qp)) = Some (qp_addr qp) ->
  dqp_cmd_ret k2 = 0 ->
  let w1 := after (mlx4_destroy_qp k qp) w in
  let w2 := after (mlx4_destroy_qp k2 qp) w1 in
  w_qp_table w1 = w_qp_table w /\
  w_live w1 = w_live w /\
  result (mlx4_destroy_qp k2 qp) w1 = Some 0 /\
  w_qp_table w2 = delete (qp_num (ibv qp)) (w_qp_table w) /\
  filter is_release (calls (mlx4_destroy_qp k qp) w ++
                     calls (mlx4_destroy_qp k2 qp) w1) =
    [EvFreeDb (db qp); EvFree (wq_wrid (sq qp)); EvFree (wq_wrid (rq qp));
     EvFreeBuf (buf (qp_buf qp)); EvFree (qp_addr qp)].
Proof.
  intros Hr Hs Hfind Hr2 w1 w2. subst w1 w2.
  destruct (lock_list_exists (ibv qp)) as [l Hl].
  destruct (destroy_qp_run k qp w l Hl) as [_ Hfail].
  destruct (Hfail Hr) as (_ & Htr & Htab & Hlive).
  destruct (destroy_qp_run k2 qp (after (mlx4_destroy_qp k qp) w) l Hl)
    as [Hok _].
  destruct (Hok Hr2) as (Hres2 & Htr2 & Htab2 & _).
  rewrite Hs in Htab. simpl in Htab.
  assert (Htab' : w_qp_table (after (mlx4_destroy_qp k qp) w) = w_qp_table w).
  { rewrite Htab, insert_delete_eq. by apply insert_id. }
  split; [assumption |]. split; [assumption |]. split; [assumption |].
  split; [by rewrite Htab2, Htab' |].
  unfold calls, new_events. rewrite Htr2, Htr, !drop_app_length.
  rewrite !filter_app. unfold clean_events.
  subst l.
  destruct (cq_addr (send_cq (ibv qp)) =? cq_addr (recv_cq (ibv qp)));
    [| destruct (cqn (send_cq (ibv qp)) <? cqn (recv_cq (ibv qp)))];
    reflexivity.
Qed.

(** *** The lock order across queue pairs *)

Lemma lock_cqs_calls qp w :
  calls (mlx4_lock_cqs qp) w =
  if cq_addr (send_cq qp) =? cq_addr (recv_cq qp)
  then [EvSpinLock (cq_lock (send_cq qp))]
  else if cqn (send_cq qp) <? cqn (recv_cq qp)
       then [EvSpinLock (cq_lock (send_cq qp));
             EvSpinLock (cq_lock (recv_cq qp))]
       else [EvSpinLock (cq_lock (recv_cq qp));
             EvSpinLock (cq_lock (send_cq qp))].
Proof.
  destruct (lock_list_exists qp) as [l Hl].
  destruct (lock_cqs_run qp l w Hl) as [Hrun _].
  unfold calls, after. rewrite Hrun. simpl. rewrite new_events_log. subst l.
  destruct (cq_addr (send_cq qp) =? cq_addr (recv_cq qp));
    [| destruct (cqn (send_cq qp) <? cqn (recv_cq qp))]; reflexivity.
Qed.

Lemma takes_before_pair (a b x y : spinlock) :
  takes_before [EvSpinLock a; EvSpinLock b] x y -> x = a /\ y = b.
Proof.
  intros (i & j & Hij & Hi & Hj).
  destruct i as [| i], j as [| [| j]]; simpl in *;
    try lia; try discriminate.
  by injection Hi as <-; injection Hj as <-.
Qed.

Lemma takes_before_single (a x y : spinlock) :
  ~ takes_before [EvSpinLock a] x y.
Proof.
  intros (i & j & Hij & Hi & Hj).
  destruct i as [| i], j as [| j]; simpl in *; try lia; discriminate.
Qed.

(** Two locks taken one after the other by [mlx4_lock_cqs] belong to two
    different completion queues of the queue pair, the first with the
    smaller identifier. *)
Lemma lock_cqs_takes_ascending qp w x y :
  cq_ids_unique qp ->
  takes_before (calls (mlx4_lock_cqs qp) w) x y ->
  exists a b,
    In a [send_cq qp; recv_cq qp] /\ In b [send_cq qp; recv_cq qp] /\
    x = cq_lock a /\ y = cq_lock b /\ cqn a < cqn b.
Proof.
  intros Huniq. rewrite lock_cqs_calls.
  destruct (Z.eqb_spec (cq_addr (send_cq qp)) (cq_addr (recv_cq qp)))
    as [Heq | Hne].
  - intros H. by apply takes_before_single in H.
  - specialize (Huniq Hne).
    destruct (Z.ltb_spec (cqn (send_cq qp)) (cqn (recv_cq qp))) as [Hlt | Hge];
      intros H; apply takes_before_pair in H as [-> ->].
    + exists (send_cq qp), (recv_cq qp). simpl. auto 6.
    + exists (recv_cq qp), (send_cq qp). simpl.
      repeat split; auto. lia.
Qed.

(** X16: two queue pairs never take a pair of completion-queue locks in
    opposite orders, whichever of them uses a completion queue for sending
    and whichever for receiving: if one takes [x] before [y], the other
    does not take [y] before [x]. *)
Theorem lock_order_is_consistent (qp1 qp2 : ibv_qp) (w1 w2 : world)
    (x y : spinlock) :
  named_by_cqn [send_cq qp1; recv_cq qp1; send_cq qp2; recv_cq qp2] ->
  takes_before (calls (mlx4_lock_cqs qp1) w1) x y ->
  ~ takes_before (calls (mlx4_lock_cqs qp2) w2) y x.
Proof.
  intros Hnamed H1 H2.
  assert (Hu1 : cq_ids_unique qp1).
  { intros Hne Heq. apply Hne. apply Hnamed; simpl; auto. }
  assert (Hu2 : cq_ids_unique qp2).
  { intros Hne Heq. apply Hne. apply Hnamed; simpl; auto. }
  destruct (lock_cqs_takes_ascending qp1 w1 x y Hu1 H1)
    as (a1 & b1 & Ha1 & Hb1 & Hx1 & Hy1 & Hlt1).
  destruct (lock_cqs_takes_ascending qp2 w2 y x Hu2 H2)
    as (a2 & b2 & Ha2 & Hb2 & Hy2 & Hx2 & Hlt2).
  assert (Hxa : cqn a1 = cqn b2).
  { apply Hnamed.
    - simpl in *. intuition.
    - simpl in *. intuition.
    - rewrite Hx1 in Hx2. by injection Hx2. }
  assert (Hyb : cqn b1 = cqn a2).
  { apply Hnamed.
    - simpl in *. intuition.
    - simpl in *. intuition.
    - rewrite Hy1 in Hy2. by injection Hy2. }
  lia.
Qed.

(** *** Address vectors: what the packed fields hold *)

Lemma land_shiftl_disjoint lo hi k :
  0 <= k -> 0 <= lo < 2 ^ k -> Z.land (Z.shiftl hi k) lo = 0.
Proof.
  intros Hk Hlo. apply Z.bits_inj'. intros n Hn.
  rewrite Z.land_spec, Z.bits_0.
  destruct (Z_lt_le_dec n k) as [Hlt | Hge].
  - by rewrite Z.shiftl_spec_low.
  - assert (Z.testbit lo n = false) as ->; [| apply andb_false_r].
    destruct (Z.eq_dec lo 0) as [-> | Hne]; [apply Z.bits_0 |].
    apply Z.bits_above_log2; [lia |].
    assert (Z.log2 lo < k) by (apply Z.log2_lt_pow2; lia). lia.
Qed.

Lemma lor_shiftl lo hi k :
  0 <= k -> 0 <= lo < 2 ^ k -> Z.lor (Z.shiftl hi k) lo = hi * 2 ^ k + lo.
Proof.
  intros Hk Hlo.
  rewrite <- Z.lxor_lor by (by apply land_shiftl_disjoint).
  rewrite <- Z.add_nocarry_lxor by (by apply land_shiftl_disjoint).
  by rewrite Z.shiftl_mul_pow2.
Qed.

Lemma uint32_sint32 z : Int.uint32 (Int.sint32 z) = z mod 2 ^ 32.
Proof.
  unfold Int.uint32, Int.sint32.
  change (2 ^ 32) with 4294967296. change (2 ^ 31) with 2147483648.
  Z.div_mod_to_equations. lia.
Qed.

Lemma uint32_lor a b :
  Int.uint32 (Z.lor a b) = Z.lor (Int.uint32 a) (Int.uint32 b).
Proof.
  unfold Int.uint32. rewrite <- !Z.land_ones by lia.
  apply Z.land_lor_distr_l.
Qed.

Lemma uint32_shl x n :
  0 <= n -> 0 <= x -> x * 2 ^ n < 2 ^ 32 ->
  Int.uint32 (Int.shl x n) = x * 2 ^ n.
Proof.
  intros Hn Hx Hb. unfold Int.shl. rewrite uint32_sint32.
  rewrite Z.shiftl_mul_pow2 by lia. apply Z.mod_small.
  assert (0 <= 2 ^ n) by (apply Z.pow_nonneg; lia). nia.
Qed.

Lemma fill_av_decode (pd : mlx4_pd) (attr : ibv_ah_attr) (g : mlx4_av) :
  ah_attr_in_range pd attr ->
  let v := fill_av pd attr g in
  be_value (av_port_pd v) = port_num attr * 2 ^ 24 + pdn pd /\
  be_value (av_dlid v) = dlid attr /\
  (static_rate attr = 0 -> av_stat_rate v = 0) /\
  (static_rate attr <> 0 ->
   av_stat_rate v = (static_rate attr + MLX4_STAT_RATE_OFFSET) mod 2 ^ 8) /\
  (is_global attr = 0 ->
   av_g_slid v = src_path_bits attr /\
   be_value (av_sl_tclass_flowlabel v) = sl attr * 2 ^ 28 /\
   av_gid_index v = 0 /\ av_hop_limit v = 0 /\
   av_dgid v = replicate 16 0) /\
  (is_global attr <> 0 ->
   av_g_slid v = src_path_bits attr + 2 ^ 7 /\
   be_value (av_sl_tclass_flowlabel v) =
     sl attr * 2 ^ 28 + traffic_class (grh attr) * 2 ^ 20 +
     flow_label (grh attr) /\
   av_gid_index v = sgid_index (grh attr) /\
   av_hop_limit v = hop_limit (grh attr) /\
   (List.length (dgid (grh attr)) = 16%nat ->
    av_dgid v = dgid (grh attr))).
Proof.
  intros (Hpd & Hport & Hsl & Hdlid & Hspb & Htc & Hfl) v. subst v.
  assert (Hword1 : Int.uint32 (Z.lor (pdn pd) (Int.shl (port_num attr) 24)) =
                   port_num attr * 2 ^ 24 + pdn pd).
  { rewrite uint32_lor, uint32_shl by lia.
    unfold Int.uint32. rewrite Z.mod_small by lia.
    rewrite Z.lor_comm, <- Z.shiftl_mul_pow2 by lia.
    rewrite lor_shiftl by lia. by rewrite Z.shiftl_mul_pow2 by lia. }
  assert (Hsl28 : Int.uint32 (Int.shl (sl attr) 28) = sl attr * 2 ^ 28)
    by (apply uint32_shl; lia).
  assert (Hgrh : Int.uint32 (Z.lor (Int.shl (traffic_class (grh attr)) 20)
                               (flow_label (grh attr))) =
                 traffic_class (grh attr) * 2 ^ 20 + flow_label (grh attr)).
  { rewrite uint32_lor, uint32_shl by lia.
    unfold Int.uint32. rewrite (Z.mod_small (flow_label _)) by lia.
    rewrite <- Z.shiftl_mul_pow2 by lia. rewrite lor_shiftl by lia.
    by rewrite Z.shiftl_mul_pow2 by lia. }
  unfold fill_av.
  destruct (Z.eqb_spec (static_rate attr) 0) as [Hsr | Hsr];
    destruct (Z.eqb_spec (is_global attr) 0) as [Hg | Hg];
    cbn -[Z.pow htonl htons be_or be_value Int.uint32 Int.shl Int.uint8
          Z.lor Z.mul Z.add];
    (split; [rewrite Hword1; apply be_value_htonl; lia |]);
    (split; [apply be_value_htons; lia |]);
    (split; [intros ?; first [reflexivity | contradiction] |]);
    (split; [intros ?; first [reflexivity | contradiction] |]);
    (split; [intros ?; try contradiction |
             intros ?; try contradiction]).
  all: try (split; [reflexivity |];
            split; [rewrite Hsl28; apply be_value_htonl; lia |];
            repeat split; reflexivity).
  all: split;
    [rewrite Z.lor_comm; change 128 with (Z.shiftl 1 7);
     rewrite lor_shiftl by lia; lia |].
  all: split;
    [rewrite be_or_htonl, Hsl28, Hgrh;
     rewrite <- (Z.shiftl_mul_pow2 (sl attr)) by lia;
     rewrite lor_shiftl by lia;
     rewrite be_value_htonl; rewrite ?Z.shiftl_mul_pow2 by lia; lia |].
  all: split; [reflexivity |]; split; [reflexivity |].
  all: intros Hlen; apply take_ge; lia.
Qed.


(** X17: what the address vector of a created handle holds, for
    attributes that fit their fields.  The first word is the port number
    in its top byte over the protection-domain number; the destination identifier is stored
    unchanged; a static rate of 0 stays 0 and any other gets the offset
    added.  Without a global route the service level is alone in its word,
    the path bits are stored as they are, and index, hop limit and
    destination address are all zero whatever the route fields of the
    attributes say.  With a global route, bit 7 is added to the path bits,
    the word holds service level, traffic class and flow label side by
    side, and index, hop limit and destination address are copied. *)
Theorem create_ah_fields (m : option (Z * mlx4_ah)) (pd : mlx4_pd)
    (attr : ibv_ah_attr) (w : world) (ah : mlx4_ah) :
  ah_attr_in_range pd attr ->
  result (mlx4_create_ah m pd attr) w = Some (Some ah) ->
  let v := av ah in
  be_value (av_port_pd v) = port_num attr * 2 ^ 24 + pdn pd /\
  be_value (av_dlid v) = dlid attr /\
  (static_rate attr = 0 -> av_stat_rate v = 0) /\
  (static_rate attr <> 0 ->
   av_stat_rate v = (static_rate attr + MLX4_STAT_RATE_OFFSET) mod 2 ^ 8) /\
  (is_global attr = 0 ->
   av_g_slid v = src_path_bits attr /\
   be_value (av_sl_tclass_flowlabel v) = sl attr * 2 ^ 28 /\
   av_gid_index v = 0 /\ av_hop_limit v = 0 /\
   av_dgid v = replicate 16 0) /\
  (is_global attr <> 0 ->
   av_g_slid v = src_path_bits attr + 2 ^ 7 /\
   be_value (av_sl_tclass_flowlabel v) =
     sl attr * 2 ^ 28 + traffic_class (grh attr) * 2 ^ 20 +
     flow_label (grh attr) /\
   av_gid_index v = sgid_index (grh attr) /\
   av_hop_limit v = hop_limit (grh attr) /\
   (List.length (dgid (grh attr)) = 16%nat ->
    av_dgid v = dgid (grh attr))).
Proof.
  intros R Hres v. subst v.
  destruct m as [[p g] |]; [| discriminate].
  unfold result in Hres. simpl in Hres. injection Hres as <-.
  cbn [av]. apply fill_av_decode. exact R.
Qed.

(** X18: what the packing keeps apart.  Two sets of attributes that fit
    their fields and are packed into the same address vector agree on
    protection-domain number, port, destination identifier, service level
    and path bits and on whether the route is global; on the static rate,
    when neither rate plus the offset wraps the 8-bit field; and, for a
    global route, on traffic class, flow label, index, hop limit and the
    16 bytes of the destination address.  The route fields of attributes
    without a global route are not stored, and a rate that wraps is stored
    like a smaller one. *)
Theorem fill_av_injective (pd1 pd2 : mlx4_pd) (a1 a2 : ibv_ah_attr)
    (g1 g2 : mlx4_av) :
  ah_attr_in_range pd1 a1 ->
  ah_attr_in_range pd2 a2 ->
  fill_av pd1 a1 g1 = fill_av pd2 a2 g2 ->
  pdn pd1 = pdn pd2 /\ port_num a1 = port_num a2 /\ dlid a1 = dlid a2 /\
  sl a1 = sl a2 /\ src_path_bits a1 = src_path_bits a2 /\
  (is_global a1 = 0 <-> is_global a2 = 0) /\
  (0 <= MLX4_STAT_RATE_OFFSET ->
   0 <= static_rate a1 -> static_rate a1 + MLX4_STAT_RATE_OFFSET < 2 ^ 8 ->
   0 <= static_rate a2 -> static_rate a2 + MLX4_STAT_RATE_OFFSET < 2 ^ 8 ->
   static_rate a1 = static_rate a2) /\
  (is_global a1 <> 0 ->
   traffic_class (grh a1) = traffic_class (grh a2) /\
   flow_label (grh a1) = flow_label (grh a2) /\
   sgid_index (grh a1) = sgid_index (grh a2) /\
   hop_limit (grh a1) = hop_limit (grh a2) /\
   (List.length (dgid (grh a1)) = 16%nat ->
    List.length (dgid (grh a2)) = 16%nat ->
    dgid (grh a1) = dgid (grh a2))).
Proof.
  intros R1 R2 Heq.
  destruct (fill_av_decode pd1 a1 g1 R1)
    as (Hw1 & Hd1 & Hz1 & Hr1 & Hn1 & Hg1).
  destruct (fill_av_decode pd2 a2 g2 R2)
    as (Hw2 & Hd2 & Hz2 & Hr2 & Hn2 & Hg2).
  rewrite Heq in Hw1, Hd1, Hz1, Hr1, Hn1, Hg1.
  destruct R1 as (? & ? & ? & ? & ? & ? & ?).
  destruct R2 as (? & ? & ? & ? & ? & ? & ?).
  assert (Hrate : 0 <= MLX4_STAT_RATE_OFFSET ->
            0 <= static_rate a1 ->
            static_rate a1 + MLX4_STAT_RATE_OFFSET < 2 ^ 8 ->
            0 <= static_rate a2 ->
            static_rate a2 + MLX4_STAT_RATE_OFFSET < 2 ^ 8 ->
            static_rate a1 = static_rate a2).
  { intros Ho Ha1 Hb1 Ha2 Hb2.
    destruct (Z.eq_dec (static_rate a1) 0) as [Z1 | Z1];
      destruct (Z.eq_dec (static_rate a2) 0) as [Z2 | Z2].
    - lia.
    - specialize (Hz1 Z1). specialize (Hr2 Z2).
      rewrite Z.mod_small in Hr2 by lia. lia.
    - specialize (Hr1 Z1). specialize (Hz2 Z2).
      rewrite Z.mod_small in Hr1 by lia. lia.
    - specialize (Hr1 Z1). specialize (Hr2 Z2).
      rewrite Z.mod_small in Hr1 by lia.
      rewrite Z.mod_small in Hr2 by lia. lia. }
  change (2 ^ 24) with 16777216 in *. change (2 ^ 28) with 268435456 in *.
  change (2 ^ 20) with 1048576 in *. change (2 ^ 16) with 65536 in *.
  change (2 ^ 8) with 256 in *. change (2 ^ 7) with 128 in *.
  change (2 ^ 4) with 16 in *.
  destruct (Z.eq_dec (is_global a1) 0) as [G1 | G1];
    destruct (Z.eq_dec (is_global a2) 0) as [G2 | G2].
  - destruct (Hn1 G1) as (Hs1 & Hf1 & _). destruct (Hn2 G2) as (Hs2 & Hf2 & _).
    repeat split; try lia; try tauto.
  - destruct (Hn1 G1) as (Hs1 & _). destruct (Hg2 G2) as (Hs2 & _). lia.
  - destruct (Hg1 G1) as (Hs1 & _). destruct (Hn2 G2) as (Hs2 & _). lia.
  - destruct (Hg1 G1) as (Hs1 & Hf1 & Hi1 & Hh1 & Hdg1).
    destruct (Hg2 G2) as (Hs2 & Hf2 & Hi2 & Hh2 & Hdg2).
    repeat split; try lia; try tauto; try congruence.
    intros L1 L2. rewrite <- (Hdg1 L1), <- (Hdg2 L2). reflexivity.
Qed.

(** *** The firmware version *)

Lemma string_length_append (s1 s2 : string) :
  String.length (String.append s1 s2) =
  (String.length s1 + String.length s2)%nat.
Proof. induction s1 as [| c s1 IH]; simpl; [reflexivity | by rewrite IH]. Qed.

Lemma substring_all (n : nat) (s : string) :
  (String.length s <= n)%nat -> substring 0 n s = s.
Proof.
  revert n. induction s as [| c s IH]; intros n Hn.
  - destruct n; reflexivity.
  - destruct n as [| n]; simpl in *; [lia |]. rewrite IH by lia. reflexivity.
Qed.

Lemma zeros_length n : String.length (zeros n) = n.
Proof. induction n; simpl; [reflexivity | by rewrite IHn]. Qed.

Lemma holds_on_bits_spec (f : Z -> bool) (b : nat) : forall p n,
  holds_on_bits b p f = true ->
  p * 2 ^ Z.of_nat b <= n < (p + 1) * 2 ^ Z.of_nat b -> f n = true.
Proof.
  induction b as [| b IH]; intros p n Hall Hn.
  - simpl in *. assert (n = p) as -> by lia. assumption.
  - cbn [holds_on_bits] in Hall. apply andb_true_iff in Hall as [Hlo Hhi].
    rewrite Nat2Z.inj_succ, Z.pow_succ_r in Hn by lia.
    assert (0 < 2 ^ Z.of_nat b) by (apply Z.pow_pos_nonneg; lia).
    destruct (Z_lt_le_dec n ((2 * p + 1) * 2 ^ Z.of_nat b)).
    + apply (IH (2 * p)); [assumption | nia].
    + apply (IH (2 * p + 1)); [assumption | nia].
Qed.

Lemma dec_length_16bit n :
  0 <= n < 2 ^ 16 -> (1 <= String.length (dec n) <= 5)%nat.
Proof.
  intros Hn.
  pose (f := fun i : Z =>
               let len := String.length (dec i) in
               (1 <=? len)%nat && (len <=? 5)%nat).
  assert (Hall : holds_on_bits 16 0 f = true) by (vm_compute; reflexivity).
  pose proof (holds_on_bits_spec f 16 0 n Hall) as Hf.
  change (Z.of_nat 16) with 16 in Hf. specialize (Hf ltac:(lia)).
  unfold f in Hf. cbv zeta in Hf.
  apply andb_true_iff in Hf as [H1 H5].
  apply Nat.leb_le in H1. apply Nat.leb_le in H5. lia.
Qed.

(** X19: the firmware version.  When the kernel refuses the query its code
    is returned and the attributes stay as the kernel left them.  Otherwise
    the function returns 0 and the version string is
    "major.minor.sub-minor", the three 16-bit fields of the raw version
    below bit 48, in decimal, with the sub-minor filled up with zeros to
    three digits; the string has between 7 and 17 characters and is never
    cut by the 64-byte field. *)
Theorem query_device_fw_ver (cmd_ret raw_fw_ver : Z)
    (attr : ibv_device_attr) :
  (cmd_ret <> 0 ->
   mlx4_query_device cmd_ret raw_fw_ver attr = (cmd_ret, attr)) /\
  (cmd_ret = 0 -> 0 <= raw_fw_ver ->
   exists major minor sub_minor,
     0 <= major < 2 ^ 16 /\ 0 <= minor < 2 ^ 16 /\
     0 <= sub_minor < 2 ^ 16 /\
     raw_fw_ver mod 2 ^ 48 = major * 2 ^ 32 + minor * 2 ^ 16 + sub_minor /\
     mlx4_query_device cmd_ret raw_fw_ver attr =
       (0, {| fw_ver :=
                String.append (dec major)
                  (String.append "."%string
                     (String.append (dec minor)
                        (String.append "."%string
                           (pad0 3 (dec sub_minor))))) |}) /\
     (3 <= String.length (pad0 3 (dec sub_minor)))%nat /\
     (7 <= String.length
             (fw_ver (mlx4_query_device cmd_ret raw_fw_ver attr).2) <= 17)%nat).
Proof.
  split.
  - intros Hne. unfold mlx4_query_device.
    apply Z.eqb_neq in Hne. by rewrite Hne.
  - intros -> Hraw. unfold mlx4_query_device. cbn [Z.eqb negb].
    change 0xffff with (Z.ones 16).
    rewrite !Z.land_ones, !Z.shiftr_div_pow2 by lia.
    set (major := (raw_fw_ver / 2 ^ 32) mod 2 ^ 16).
    set (minor := (raw_fw_ver / 2 ^ 16) mod 2 ^ 16).
    set (sub_minor := raw_fw_ver mod 2 ^ 16).
    assert (Hmaj : 0 <= major < 2 ^ 16) by (apply Z.mod_pos_bound; lia).
    assert (Hmin : 0 <= minor < 2 ^ 16) by (apply Z.mod_pos_bound; lia).
    assert (Hsub : 0 <= sub_minor < 2 ^ 16) by (apply Z.mod_pos_bound; lia).
    pose proof (dec_length_16bit major Hmaj) as L1.
    pose proof (dec_length_16bit minor Hmin) as L2.
    pose proof (dec_length_16bit sub_minor Hsub) as L3.
    assert (Lpad : (3 <= String.length (pad0 3 (dec sub_minor)) <= 5)%nat).
    { unfold pad0. rewrite string_length_append, zeros_length. lia. }
    assert (Llen : (7 <= String.length
                      (String.append (dec major)
                         (String.append "."%string
                            (String.append (dec minor)
                               (String.append "."%string
                                  (pad0 3 (dec sub_minor)))))) <= 17)%nat).
    { rewrite !string_length_append. simpl. lia. }
    exists major, minor, sub_minor.
    split; [assumption |]. split; [assumption |]. split; [assumption |].
    split.
    { subst major minor sub_minor.
      change (2 ^ 48) with 281474976710656.
      change (2 ^ 32) with 4294967296. change (2 ^ 16) with 65536.
      Z.div_mod_to_equations. lia. }
    unfold snprintf, fw_ver_size.
    rewrite substring_all by (simpl; lia).
    split; [reflexivity |]. split; [lia |]. simpl. exact Llen.
Qed.

(** *** Queue depths that reach the buffer allocation *)

(** X20: in a queue-pair creation that passes the sanity check, the send
    and receive depths handed to the buffer allocation are each either 0
    (when 0 was requested) or a power of two that is at least the requested
    depth, less than twice that, and at most 65536. *)
Theorem create_qp_depths_are_powers_of_two (k : create_qp_outcome)
    (pd : mlx4_pd) (attr : ibv_qp_init_attr) (w : world) (p : Z)
    (g : mlx4_qp) :
  cqp_malloc k = Some (p, g) ->
  qp_cap_within_limits (cap attr) ->
  0 <= max_send_wr (cap attr) ->
  0 <= max_recv_wr (cap attr) ->
  let depth_ok (requested depth : Z) :=
    (requested = 0 /\ depth = 0) \/
    (1 <= requested /\ is_pow2 depth /\
     requested <= depth < 2 * requested /\ depth <= 65536) in
  exists qp0 ok t,
    calls (mlx4_create_qp k pd attr) w =
      EvMalloc (Some p) :: EvAllocQpBuf (cap attr) (qp_type attr) qp0 ok :: t /\
    qp_addr qp0 = p /\
    depth_ok (max_send_wr (cap attr)) (wq_max (sq qp0)) /\
    depth_ok (max_recv_wr (cap attr)) (wq_max (rq qp0)).
Proof.
  intros Hm Hin Hs Hr depth_ok.
  pose proof Hin as (H1 & H2 & _).
  assert (Hdepth : forall d r, 0 <= d <= 65536 ->
            align_queue_size (pd_context pd) d 0 = Some r -> depth_ok d r).
  { intros d r Hd Hal. unfold depth_ok.
    destruct (Z.eq_dec d 0) as [-> | Hne].
    - left. split; [reflexivity |]. by injection Hal.
    - right. split; [lia |].
      destruct (align_queue_size_spec (pd_context pd) d 0)
        as [r' [Hr' Hsm]]; [lia | lia | lia |].
      assert (r' = r) as -> by congruence.
      pose proof (smallest_pow2_ge_below_double (d + 0) r ltac:(lia) Hsm).
      destruct Hsm as (Hp & Hle & Hleast).
      split; [assumption |]. split; [lia |].
      apply Hleast; [exists 16; split; [lia | reflexivity] | lia]. }
  destruct (align_queue_size_returns (pd_context pd)
              (max_send_wr (cap attr)) 0) as [r1 Hr1]; [lia | lia | lia |].
  destruct (align_queue_size_returns (pd_context pd)
              (max_recv_wr (cap attr)) 0) as [r2 Hr2]; [lia | lia | lia |].
  unfold calls, mlx4_create_qp. rewrite (qp_cap_too_large_false _ Hin).
  rewrite Hm, Hr1, Hr2.
  destruct (malloc_run (Some (p, g)) w) as [w1 [Hw1 Ht1]].
  unfold after. rewrite (bind_run _ _ w _ w1 Hw1). cbv beta iota zeta.
  erewrite bind_run by reflexivity. cbv beta iota zeta.
  erewrite bind_run by reflexivity. cbv beta iota zeta.
  lazymatch goal with
  | |- context [mbind ?K (mlx4_alloc_qp_buf ?f ?c ?t ?q)] =>
      assert (HK : forall a, grows (K a)) by (intros; grows_auto);
      destruct (alloc_qp_buf_run f c t q w1) as (b & ok & w2 & Hw2 & Ht2);
      exists q, ok
  end.
  rewrite (bind_run _ _ w1 _ w2 Hw2).
  destruct (HK b w2) as [t Ht]. unfold after in Ht.
  exists t. split.
  { unfold new_events. rewrite Ht, Ht2, Ht1, <- !app_assoc. simpl.
    by rewrite drop_app_length. }
  split; [reflexivity |]. simpl.
  split; apply Hdepth; first [lia | assumption].
Qed.

(** *** Address handles: created, then destroyed *)

(** X21: creating an address handle and destroying it again gives back
    exactly the memory the creation took, touches neither the Resource
    Table nor the kernel, and returns 0; nothing but [malloc] and [free]
    is called. *)
Theorem create_then_destroy_ah (m : option (Z * mlx4_ah)) (pd : mlx4_pd)
    (attr : ibv_ah_attr) (w : world) (ah : mlx4_ah) :
  fresh w (fst <$> m) ->
  let create := mlx4_create_ah m pd attr in
  result create w = Some (Some ah) ->
  let w1 := after create w in
  let destroy := mlx4_destroy_ah ah in
  result destroy w1 = Some 0 /\
  w_live (after destroy w1) = w_live w /\
  w_qp_table (after destroy w1) = w_qp_table w /\
  calls create w ++ calls destroy w1 =
    [EvMalloc (Some (ah_addr ah)); EvFree (ah_addr ah)].
Proof.
  intros Fm create Hres w1 destroy. subst create w1 destroy.
  destruct m as [[p g] |]; [| discriminate].
  pose proof (fresh_some _ _ Fm) as Hp.
  unfold result in Hres. simpl in Hres. injection Hres as <-.
  unfold calls, new_events, result, after. simpl.
  split; [reflexivity |]. split; [live_solver |]. split; [reflexivity |].
  rewrite drop_app_length.
  erewrite drop_length_app by reflexivity. reflexivity.
Qed.

End Verbs.

(** ** The functions on concrete inputs

    With the constants of the device headers: completion-queue entries of
    32 bytes, a static-rate offset of 5 and [3 << 2] as the
    completion-update flag. *)

Example align_queue_size_examples :
  align_queue_size 1 100 0 = Some 128 /\
  align_queue_size 1 128 0 = Some 128 /\
  align_queue_size 1 128 1 = Some 256 /\
  align_queue_size 1 65536 0 = Some 65536 /\
  align_queue_size 1 0 1 = Some 0.
Proof. repeat split; reflexivity. Qed.

Example align_cq_size_examples :
  align_cq_size 100 = Some 128 /\
  align_cq_size 127 = Some 128 /\
  align_cq_size 128 = Some 256 /\
  align_cq_size 1 = Some 2 /\
  align_cq_size 4194303 = Some 4194304.
Proof. repeat split; reflexivity. Qed.

(** Beyond [2 ^ 30] the doubling leaves the range of [int] and the loop
    does not return. *)
Lemma align_queue_size_beyond_range :
  forall n, align_queue_size_loop n 1 (2 ^ 30 + 1) = None.
Proof. apply align_queue_size_loop_fuel_enough. reflexivity. Qed.

Example create_srq_sample :
  let run := mlx4_create_srq sample_srq_outcome sample_pd
               {| max_wr := 128; max_sge := 4; srq_limit := 0 |} in
  exists s, result run sample_world = Some (Some s) /\
            srq_max s = 256 /\ srq_max_gs s = 4 /\ srq_counter s = 0 /\
            srqn s = 3 /\ srq_db s = 520 /\
            w_db (after run sample_world) !! 520 = Some 0.
Proof. eexists. repeat split; reflexivity. Qed.

Example create_srq_too_deep :
  mlx4_create_srq sample_srq_outcome sample_pd
    {| max_wr := 65537; max_sge := 4; srq_limit := 0 |} sample_world =
  (Some None, sample_world).
Proof. reflexivity. Qed.

Example destroy_cq_sample :
  result (mlx4_destroy_cq 0 (sample_cq 20000 5)) sample_world = Some 0 /\
  new_events sample_world
    (after (mlx4_destroy_cq 0 (sample_cq 20000 5)) sample_world) =
    [EvCmd (CmdDestroyCq 20000) 0; EvFreeDb 20064; EvFreeBuf 24096;
     EvFree 20000] /\
  mlx4_destroy_cq 16 (sample_cq 20000 5) sample_world =
    (Some 16, log [EvCmd (CmdDestroyCq 20000) 16] sample_world).
Proof. repeat split; reflexivity. Qed.

Example create_ah_sample :
  result (mlx4_create_ah 5 (Some (7000, garbage_ah)) sample_pd
            sample_ah_attr) sample_world =
  Some (Some
    {| ah_addr := 7000;
       av := {| av_port_pd := [1; 0; 0; 18]; av_g_slid := 133;
                av_dlid := [18; 52]; av_gid_index := 2; av_stat_rate := 7;
                av_hop_limit := 64;
                av_sl_tclass_flowlabel := [48; 113; 35; 69];
                av_dgid := [254; 128; 0; 0; 0; 0; 0; 0;
                            0; 2; 201; 3; 0; 0; 0; 1] |} |}).
Proof. reflexivity. Qed.

Example create_qp_sample :
  let run := mlx4_create_qp 12 sample_qp_outcome sample_pd
               (sample_init_attr cap_no_send) in
  (exists qp c, result run sample_world = Some (Some (qp, c)) /\
                qp_num (ibv qp) = 7 /\ wq_max (sq qp) = 0 /\
                wq_max (rq qp) = 8 /\
                wq_head (sq qp) = 0 /\ wq_tail (rq qp) = 0 /\
                doorbell_qpn qp = [0; 0; 7; 0]) /\
  mlx4_find_qp (after run sample_world) 7 = Some 1000 /\
  filter is_kernel_cmd (w_trace (after run sample_world)) =
    [EvCmd (CmdCreateQp (sample_init_attr cap_no_send) 8192 1300 6 0) 0].
Proof.
  split; [do 2 eexists; repeat split; reflexivity |].
  split; reflexivity.
Qed.

Example create_qp_store_failure_sample :
  let k := {| cqp_malloc := Some (1000, sample_qp);
              cqp_alloc_qp_buf := fun _ _ q => Some q;
              cqp_spin_init_sq := 0; cqp_spin_init_rq := 0;
              cqp_alloc_db := Some 1300; cqp_cmd_ret := 0;
              cqp_resp_qp_num := 9; cqp_resp_cap := cap_no_send;
              cqp_store_ret := -1; cqp_cmd_destroy_ret := 0;
              cqp_set_sq_sizes := fun q c _ => (q, c) |} in
  let run := mlx4_create_qp 12 k sample_pd (sample_init_attr cap_no_send) in
  result run sample_world = Some None /\
  filter is_release (w_trace (after run sample_world)) =
    [EvFreeDb 1300; EvFree 1100; EvFree 1200; EvFreeBuf 8192; EvFree 1000] /\
  filter is_kernel_cmd (w_trace (after run sample_world)) =
    [EvCmd (CmdCreateQp (sample_init_attr cap_no_send) 8192 1300 6 0) 0;
     EvCmd (CmdDestroyQp 1000) 0] /\
  mlx4_find_qp (after run sample_world) 9 = None.
Proof. repeat split; reflexivity. Qed.

(** ** Instances of the theorems, and where claims fail *)

Lemma create_qp_rejects_oversized_witness :
  mlx4_create_qp 12 sample_qp_outcome sample_pd
    (sample_init_attr cap_send_too_deep) sample_world =
    (Some None, sample_world) /\
  exists t,
    new_events sample_world
      (after (mlx4_create_qp 12 sample_qp_outcome sample_pd
                (sample_init_attr cap_at_limits)) sample_world) =
    EvMalloc (Some 1000) :: t.
Proof.
  split.
  - apply (create_qp_rejects_oversized 12 sample_qp_outcome sample_pd
             (sample_init_attr cap_send_too_deep) sample_world).
    simpl. lia.
  - apply (create_qp_rejects_oversized 12 sample_qp_outcome sample_pd
             (sample_init_attr cap_at_limits) sample_world).
    simpl. lia.
Defined.

Lemma destroy_qp_steps_in_order_witness :
  cq_ids_unique (ibv sample_qp) /\
  exists l tail,
    lock_order (ibv sample_qp) l /\
    new_events sample_world
      (after (mlx4_destroy_qp {| dqp_cmd_ret := 0; dqp_store_ret := 0 |}
                sample_qp) sample_world) =
      clean_events (ibv sample_qp) ++ lock_events l ++ [EvClearQp 7] ++
      unlock_events l ++ [EvCmd (CmdDestroyQp 1000) 0] ++ tail /\
    tail = [EvFreeDb 1300; EvFree 1100; EvFree 1200; EvFreeBuf 8192;
            EvFree 1000].
Proof.
  assert (Huniq : cq_ids_unique (ibv sample_qp))
    by (unfold cq_ids_unique; simpl; lia).
  split; [exact Huniq |].
  destruct (destroy_qp_steps_in_order
              {| dqp_cmd_ret := 0; dqp_store_ret := 0 |} sample_qp
              sample_world Huniq)
    as (l & tail & Hord & Hnew & _ & _ & Hok).
  destruct (Hok eq_refl) as (_ & Htail & _).
  exists l, tail. split; [exact Hord |]. split; [exact Hnew | exact Htail].
Defined.

(** C4 as stated fails for the completion-queue rounding: a depth of 4 is
    already a power of two, yet [align_cq_size] returns 8, which is not the
    smallest power of two that is at least 4. *)
Lemma align_cq_size_not_smallest_pow2 :
  align_cq_size 4 = Some 8 /\ is_pow2 4 /\ ~ smallest_pow2_ge 4 8.
Proof.
  split; [reflexivity |].
  assert (Hp : is_pow2 4) by (exists 2; split; [lia | reflexivity]).
  split; [exact Hp |].
  intros (_ & _ & Hleast). specialize (Hleast 4 Hp). lia.
Qed.

Lemma rounding_returns_smallest_pow2_witness :
  (exists r, align_queue_size 1 100 1 = Some r /\
             smallest_pow2_ge (100 + 1) r) /\
  (exists r, align_cq_size 100 = Some r /\ smallest_pow2_ge (100 + 1) r /\
             100 < r).
Proof.
  destruct (rounding_returns_smallest_pow2 100) as [Hq Hc]; [lia |].
  split.
  - apply (Hq 1 1); lia.
  - apply Hc; lia.
Defined.

(** C5 as stated fails at a requested depth of exactly [2 ^ 22]: the claim
    has it accepted, but the creation is refused before anything is
    allocated, even though every collaborator would have succeeded. *)
Lemma create_cq_rejects_two_pow_22 :
  ~ (2 ^ 22 > 2 ^ 22) /\
  mlx4_create_cq 32 sample_cq_outcome 1 (2 ^ 22) 0 0 sample_world =
    (Some None, sample_world).
Proof. split; [lia | reflexivity]. Qed.

Lemma create_cq_rejects_above_limit_witness :
  exists t,
    new_events sample_world
      (after (mlx4_create_cq 32 sample_cq_outcome 1 (2 ^ 22 - 1) 0 0)
         sample_world) =
    EvMalloc (Some 40000) :: t.
Proof.
  apply (create_cq_rejects_above_limit 32 sample_cq_outcome 1 (2 ^ 22 - 1)
           0 0 sample_world).
  lia.
Defined.

Lemma create_cq_depth_100_witness :
  exists cq,
    result (mlx4_create_cq 32 sample_cq_outcome 1 100 0 0) sample_world =
      Some (Some cq) /\
    In (EvCmd (CmdCreateCq 127 0 0 65536 512) 0)
       (new_events sample_world
          (after (mlx4_create_cq 32 sample_cq_outcome 1 100 0 0)
             sample_world)) /\
    buf_length (cq_buf cq) / 32 = 128 /\
    cons_index cq = 0 /\ arm_sn cq = 1 /\ cqn cq = 11.
Proof.
  destruct (create_cq_depth_100 32 sample_cq_outcome 1 0 0 sample_world
              40000 65536 512 (sample_cq 0 0))
    as (cq & Hres & Hnew & _ & _ & Hring & Hci & Hsn & Hcqn & _);
    try reflexivity.
  exists cq. split; [exact Hres |].
  split; [rewrite Hnew; simpl; tauto |].
  split; [apply Hring; lia |].
  split; [exact Hci |]. split; [exact Hsn | exact Hcqn].
Defined.

Lemma lock_cqs_obeys_protocol_witness :
  cq_ids_unique sample_ibv_qp /\
  exists l,
    lock_order sample_ibv_qp l /\
    mlx4_lock_cqs sample_ibv_qp sample_world =
      (Some tt, log (lock_events l) sample_world) /\
    mlx4_unlock_cqs sample_ibv_qp sample_world =
      (Some tt, log (unlock_events l) sample_world).
Proof.
  assert (Huniq : cq_ids_unique sample_ibv_qp)
    by (unfold cq_ids_unique; simpl; lia).
  split; [exact Huniq |].
  destruct (lock_cqs_obeys_protocol sample_ibv_qp sample_world Huniq)
    as (l & Hord & Hlock & Hunlock & _).
  exists l. split; [exact Hord |]. split; [exact Hlock | apply Hunlock].
Defined.

Lemma modify_qp_reset_cleanup_witness :
  (exists qp',
     result (mlx4_modify_qp 0 sample_qp {| qp_state := IBV_QPS_RESET |} 1)
       sample_world = Some (0, qp') /\
     wq_head (sq qp') = 0 /\ wq_tail (sq qp') = 0 /\
     wq_head (rq qp') = 0 /\ wq_tail (rq qp') = 0 /\
     qp_buf qp' = qp_buf sample_qp /\ db qp' = db sample_qp) /\
  mlx4_modify_qp 22 sample_qp {| qp_state := IBV_QPS_RESET |} 1
    sample_world =
    (Some (22, sample_qp),
     log [EvCmd (CmdModifyQp 1000 {| qp_state := IBV_QPS_RESET |} 1) 22]
       sample_world).
Proof.
  split.
  - destruct (modify_qp_reset_cleanup 0 sample_qp
                {| qp_state := IBV_QPS_RESET |} 1 sample_world)
      as [Hreset _].
    destruct Hreset
      as (qp' & Hrun & Hsh & Hst & Hrh & Hrt & Hbuf & Hdb & _);
      [repeat split; reflexivity |].
    exists qp'. unfold result. rewrite Hrun.
    repeat split; assumption.
  - apply (modify_qp_reset_cleanup 22 sample_qp
             {| qp_state := IBV_QPS_RESET |} 1 sample_world).
    intros (Hret & _). discriminate Hret.
Defined.



(** ** Instances of the further theorems *)

Lemma fresh_empty (o : option Z) : fresh empty_world o.
Proof. intros p _. apply not_elem_of_empty. Defined.

Lemma rounding_stays_below_double_witness :
  (exists r, align_queue_size 1 100 1 = Some r /\
             100 + 1 <= r < 2 * (100 + 1)) /\
  (exists r, align_cq_size 100 = Some r /\ 100 < r <= 2 * 100).
Proof.
  destruct (rounding_stays_below_double 1 100 1) as [Hq Hc];
    [lia | lia | lia |].
  split; [exact Hq | apply Hc; lia].
Defined.

Lemma rounding_fixed_points_and_order_witness :
  exists r1 r2,
    align_queue_size 1 0 1 = Some r1 /\
    align_queue_size 1 300 1 = Some r2 /\
    r1 <= r2 /\ r1 = 0 /\
    align_queue_size 1 r2 0 = Some r2.
Proof.
  destruct (rounding_fixed_points_and_order 1 0 300 1)
    as (r1 & r2 & H1 & H2 & Hle & Hz & _ & Hfix); [lia | lia | lia | lia |].
  exists r1, r2. repeat split; first [assumption | apply Hz; reflexivity].
Defined.

Lemma log_sq_bb_count_is_log2_witness :
  exists n, log_sq_bb_count 128 = Some n /\ 2 ^ n = 128.
Proof.
  destruct (log_sq_bb_count_is_log2 1 128) as (n & Hn & _ & _ & _ & Hex & _);
    [lia |].
  exists n. split; [exact Hn |]. apply (Hex 100); [lia | reflexivity].
Defined.

Lemma create_cq_failure_leaves_nothing_witness :
  let run := mlx4_create_cq 32 refused_cq_outcome 1 100 0 0 in
  w_live (after run empty_world) = w_live empty_world /\
  w_qp_table (after run empty_world) = w_qp_table empty_world /\
  List.length (filter is_release (calls run empty_world)) =
  List.length (filter is_allocation (calls run empty_world)).
Proof.
  apply (create_cq_failure_leaves_nothing 32 refused_cq_outcome 1 100 0 0
           empty_world); first [apply fresh_empty | reflexivity].
Defined.

Lemma create_cq_ring_size_witness :
  exists cq nent,
    result (mlx4_create_cq 32 sample_cq_outcome 1 1000 0 0) empty_world =
      Some (Some cq) /\
    is_pow2 nent /\ 1000 < nent <= 2 ^ 22 /\
    buf_length (cq_buf cq) = Int.mul nent 32.
Proof.
  eexists.
  destruct (create_cq_ring_size 32 sample_cq_outcome 1 1000 0 0 empty_world
              _ eq_refl) as (nent & Hp & Hb & _ & Hlen & _).
  exists nent. split; [reflexivity |]. split; [exact Hp |].
  split; [exact Hb | exact Hlen].
Defined.

Lemma create_then_destroy_cq_witness :
  exists cq,
    result (mlx4_create_cq 32 sample_cq_outcome 1 100 0 0) empty_world =
      Some (Some cq) /\
    w_live (after (mlx4_destroy_cq 0 cq)
              (after (mlx4_create_cq 32 sample_cq_outcome 1 100 0 0)
                 empty_world)) = w_live empty_world.
Proof.
  eexists. split; [reflexivity |].
  destruct (create_then_destroy_cq 32 sample_cq_outcome 1 100 0 0
              empty_world _ 0 (fresh_empty _) (fresh_empty _)
              (fresh_empty _) eq_refl) as (_ & _ & Hok & _).
  apply Hok. reflexivity.
Defined.

Lemma create_srq_rejects_oversized_witness :
  exists t,
    calls (mlx4_create_srq sample_srq_outcome sample_pd
             {| max_wr := 65536; max_sge := 64; srq_limit := 0 |})
      empty_world = EvMalloc (Some 5000) :: t.
Proof.
  apply (create_srq_rejects_oversized sample_srq_outcome sample_pd
           {| max_wr := 65536; max_sge := 64; srq_limit := 0 |} empty_world).
  simpl. lia.
Defined.

Lemma create_srq_depth_witness :
  exists s0 ok t,
    calls (mlx4_create_srq sample_srq_outcome sample_pd
             {| max_wr := 128; max_sge := 4; srq_limit := 0 |})
      empty_world =
      EvMalloc (Some 5000) :: EvSpinInit (SrqLock 5000) 0 ::
      EvAllocSrqBuf {| max_wr := 128; max_sge := 4; srq_limit := 0 |} s0 ok
      :: t /\
    128 < srq_max s0 <= 2 * 128.
Proof.
  destruct (create_srq_depth sample_srq_outcome sample_pd
              {| max_wr := 128; max_sge := 4; srq_limit := 0 |} empty_world
              5000 sample_srq)
    as (s0 & ok & t & Hcalls & _ & _ & _ & _ & Hpos);
    try reflexivity; try (simpl; lia).
  exists s0, ok, t. split; [exact Hcalls |]. apply Hpos. simpl. lia.
Defined.

Lemma srq_buf_fresh_empty (k : create_srq_outcome) :
  srq_buf_fresh k empty_world.
Proof. intros s s' _. split; apply not_elem_of_empty. Defined.

Lemma qp_buf_fresh_empty (k : create_qp_outcome) :
  qp_buf_fresh k empty_world.
Proof. intros c t q q' _. repeat split; apply not_elem_of_empty. Defined.

Lemma create_srq_failure_leaves_nothing_witness :
  let run := mlx4_create_srq refused_srq_outcome sample_pd
               {| max_wr := 128; max_sge := 4; srq_limit := 0 |} in
  w_live (after run empty_world) = w_live empty_world /\
  w_qp_table (after run empty_world) = w_qp_table empty_world.
Proof.
  apply (create_srq_failure_leaves_nothing refused_srq_outcome sample_pd
           {| max_wr := 128; max_sge := 4; srq_limit := 0 |} empty_world);
    first [apply fresh_empty | apply srq_buf_fresh_empty | reflexivity].
Defined.

Lemma create_then_destroy_srq_witness :
  exists s,
    result (mlx4_create_srq sample_srq_outcome sample_pd
              {| max_wr := 128; max_sge := 4; srq_limit := 0 |})
      empty_world = Some (Some s) /\
    w_live (after (mlx4_destroy_srq 0 s)
              (after (mlx4_create_srq sample_srq_outcome sample_pd
                        {| max_wr := 128; max_sge := 4; srq_limit := 0 |})
                 empty_world)) = w_live empty_world.
Proof.
  eexists. split; [reflexivity |].
  destruct (create_then_destroy_srq sample_srq_outcome sample_pd
              {| max_wr := 128; max_sge := 4; srq_limit := 0 |} empty_world
              _ 0 (fresh_empty _) (srq_buf_fresh_empty _) (fresh_empty _)
              eq_refl) as (_ & _ & _ & Hok & _).
  apply Hok. reflexivity.
Defined.

Lemma create_qp_failure_leaves_nothing_witness :
  let run := mlx4_create_qp 12 unregistered_qp_outcome sample_pd
               (sample_init_attr cap_no_send) in
  w_live (after run empty_world) = w_live empty_world /\
  w_qp_table (after run empty_world) = w_qp_table empty_world.
Proof.
  apply (create_qp_failure_leaves_nothing 12 unregistered_qp_outcome
           sample_pd (sample_init_attr cap_no_send) empty_world);
    first [apply fresh_empty | apply qp_buf_fresh_empty | reflexivity].
Defined.

Lemma create_qp_failure_kernel_side_witness :
  let run := mlx4_create_qp 12 orphaning_qp_outcome sample_pd
               (sample_init_attr cap_no_send) in
  w_live (after run empty_world) = w_live empty_world /\
  ((filter is_kernel_cmd (calls run empty_world) = [] /\
    kernel_qps_left (calls run empty_world) = 0) \/
   (exists c r, r <> 0 /\
      filter is_kernel_cmd (calls run empty_world) = [EvCmd c r] /\
      kernel_qps_left (calls run empty_world) = 0) \/
   (exists a b d s bb p g,
      cqp_malloc orphaning_qp_outcome = Some (p, g) /\
      cqp_store_ret orphaning_qp_outcome <> 0 /\
      filter is_kernel_cmd (calls run empty_world) =
        [EvCmd (CmdCreateQp a b d s bb) 0; EvCmd (CmdDestroyQp p) 16] /\
      kernel_qps_left (calls run empty_world) = 1)).
Proof.
  apply (create_qp_failure_kernel_side 12 orphaning_qp_outcome sample_pd
           (sample_init_attr cap_no_send) empty_world);
    first [apply fresh_empty | apply qp_buf_fresh_empty | reflexivity].
Defined.

Example create_qp_orphan_sample :
  let run := mlx4_create_qp 12 orphaning_qp_outcome sample_pd
               (sample_init_attr cap_no_send) in
  result run empty_world = Some None /\
  filter is_release (calls run empty_world) =
    [EvFreeDb 1300; EvFree 1100; EvFree 1200; EvFreeBuf 8192; EvFree 1000] /\
  filter is_kernel_cmd (calls run empty_world) =
    [EvCmd (CmdCreateQp (sample_init_attr cap_no_send) 8192 1300 6 0) 0;
     EvCmd (CmdDestroyQp 1000) 16] /\
  kernel_qps_left (calls run empty_world) = 1.
Proof. repeat split; reflexivity. Qed.

Lemma create_qp_registers_witness :
  exists qp c,
    result (mlx4_create_qp 12 sample_qp_outcome sample_pd
              (sample_init_attr cap_no_send)) empty_world =
      Some (Some (qp, c)) /\
    mlx4_find_qp (after (mlx4_create_qp 12 sample_qp_outcome sample_pd
                           (sample_init_attr cap_no_send)) empty_world) 7 =
      Some 1000 /\
    be_value (doorbell_qpn qp) = 7 * 256.
Proof.
  do 2 eexists.
  destruct (create_qp_registers 12 sample_qp_outcome sample_pd
              (sample_init_attr cap_no_send) empty_world _ _ eq_refl)
    as (p & g & Hm & Ha & _ & Hfind & _ & _ & _ & Hdb & _).
  split; [reflexivity |]. simpl in Hm. injection Hm as <- _.
  split; [exact Hfind | exact Hdb].
Defined.

Lemma destroy_qp_keeps_other_entries_witness :
  mlx4_find_qp
    (after (mlx4_destroy_qp {| dqp_cmd_ret := 0; dqp_store_ret := 0 |}
              sample_qp)
       (set_qp_table (<[8 := 2000]> (w_qp_table sample_world)) sample_world))
    8 = Some 2000.
Proof.
  rewrite (destroy_qp_keeps_other_entries
             {| dqp_cmd_ret := 0; dqp_store_ret := 0 |} sample_qp
             (set_qp_table (<[8 := 2000]> (w_qp_table sample_world))
                sample_world) 8); [reflexivity | simpl; lia].
Defined.

Lemma destroy_qp_refused_restores_witness :
  let k := {| dqp_cmd_ret := 16; dqp_store_ret := 0 |} in
  let k2 := {| dqp_cmd_ret := 0; dqp_store_ret := 0 |} in
  let w1 := after (mlx4_destroy_qp k sample_qp) sample_world in
  w_qp_table w1 = w_qp_table sample_world /\
  w_live w1 = w_live sample_world /\
  result (mlx4_destroy_qp k2 sample_qp) w1 = Some 0.
Proof.
  intros k k2 w1.
  destruct (destroy_qp_refused_restores k k2 sample_qp sample_world)
    as (Ht & Hl & Hr & _); try reflexivity; [simpl; lia |].
  split; [exact Ht |]. split; [exact Hl | exact Hr].
Defined.

Lemma sample_cqs_named_by_cqn :
  named_by_cqn [send_cq sample_ibv_qp; recv_cq sample_ibv_qp;
                send_cq swapped_ibv_qp; recv_cq swapped_ibv_qp].
Proof.
  intros a b Ha Hb. simpl in Ha, Hb.
  destruct Ha as [<- | [<- | [<- | [<- | []]]]];
    destruct Hb as [<- | [<- | [<- | [<- | []]]]];
    simpl; split; intros H; first [reflexivity | discriminate H].
Defined.

Lemma lock_order_is_consistent_witness :
  takes_before (calls (mlx4_lock_cqs sample_ibv_qp) empty_world)
    (CqLock 20000) (CqLock 30000) /\
  ~ takes_before (calls (mlx4_lock_cqs swapped_ibv_qp) empty_world)
      (CqLock 30000) (CqLock 20000).
Proof.
  assert (H : takes_before (calls (mlx4_lock_cqs sample_ibv_qp) empty_world)
                (CqLock 20000) (CqLock 30000)).
  { exists 0%nat, 1%nat. split; [lia |]. split; reflexivity. }
  split; [exact H |].
  apply (lock_order_is_consistent sample_ibv_qp swapped_ibv_qp empty_world
           empty_world _ _ sample_cqs_named_by_cqn H).
Defined.

Lemma create_ah_fields_witness :
  exists ah,
    result (mlx4_create_ah 5 (Some (7000, garbage_ah)) sample_pd
              sample_ah_attr) empty_world = Some (Some ah) /\
    be_value (av_port_pd (av ah)) = 1 * 2 ^ 24 + 18 /\
    be_value (av_sl_tclass_flowlabel (av ah)) =
      3 * 2 ^ 28 + 7 * 2 ^ 20 + 0x12345 /\
    av_g_slid (av ah) = 5 + 2 ^ 7.
Proof.
  eexists. split; [reflexivity |].
  assert (R : ah_attr_in_range sample_pd sample_ah_attr)
    by (unfold ah_attr_in_range; simpl; lia).
  destruct (create_ah_fields 5 (Some (7000, garbage_ah)) sample_pd
              sample_ah_attr empty_world _ R eq_refl)
    as (Hw & _ & _ & _ & _ & Hg).
  destruct Hg as (Hs & Hf & _); [simpl; lia |].
  split; [exact Hw |]. split; [exact Hf | exact Hs].
Defined.

Lemma fill_av_injective_witness :
  hop_limit (grh local_ah_attr) <> hop_limit (grh local_ah_attr_other_route)
  /\
  fill_av 5 sample_pd local_ah_attr garbage_av =
    fill_av 5 sample_pd local_ah_attr_other_route (av_zero garbage_av) /\
  dlid local_ah_attr = dlid local_ah_attr_other_route /\
  static_rate local_ah_attr = static_rate local_ah_attr_other_route.
Proof.
  assert (R1 : ah_attr_in_range sample_pd local_ah_attr)
    by (unfold ah_attr_in_range; simpl; lia).
  assert (R2 : ah_attr_in_range sample_pd local_ah_attr_other_route)
    by (unfold ah_attr_in_range; simpl; lia).
  destruct (fill_av_injective 5 sample_pd sample_pd local_ah_attr
              local_ah_attr_other_route garbage_av (av_zero garbage_av)
              R1 R2 eq_refl)
    as (_ & _ & Hd & _ & _ & _ & Hrate & _).
  split; [simpl; lia |]. split; [reflexivity |].
  split; [exact Hd | apply Hrate; simpl; lia].
Defined.

Example fill_av_static_rate_wraps :
  fill_av 5 sample_pd (set_static_rate 251 sample_ah_attr) garbage_av =
  fill_av 5 sample_pd (set_static_rate 0 sample_ah_attr) garbage_av.
Proof. reflexivity. Qed.

Lemma query_device_fw_ver_witness :
  mlx4_query_device 5 0x000200070190 {| fw_ver := "?" |} =
    (5, {| fw_ver := "?" |}) /\
  exists major minor sub_minor,
    0x000200070190 mod 2 ^ 48 = major * 2 ^ 32 + minor * 2 ^ 16 + sub_minor /\
    mlx4_query_device 0 0x000200070190 {| fw_ver := "?" |} =
      (0, {| fw_ver :=
               String.append (dec major)
                 (String.append "."%string
                    (String.append (dec minor)
                       (String.append "."%string
                          (pad0 3 (dec sub_minor))))) |}).
Proof.
  destruct (query_device_fw_ver 5 0x000200070190 {| fw_ver := "?" |})
    as [Hfail _].
  destruct (query_device_fw_ver 0 0x000200070190 {| fw_ver := "?" |})
    as [_ Hok].
  split; [apply Hfail; lia |].
  destruct Hok as (major & minor & sub & _ & _ & _ & Hraw & Hrun & _);
    [reflexivity | lia |].
  exists major, minor, sub. split; [exact Hraw | exact Hrun].
Defined.

Example query_device_sample :
  mlx4_query_device 0 0x000200070190 {| fw_ver := "?" |} =
    (0, {| fw_ver := "2.7.400" |}) /\
  mlx4_query_device 0 0x000200070005 {| fw_ver := "?" |} =
    (0, {| fw_ver := "2.7.005" |}).
Proof. split; reflexivity. Qed.

Lemma create_qp_depths_are_powers_of_two_witness :
  exists qp0 ok t,
    calls (mlx4_create_qp 12 sample_qp_outcome sample_pd
             (sample_init_attr cap_at_limits)) empty_world =
      EvMalloc (Some 1000) ::
      EvAllocQpBuf cap_at_limits IBV_QPT_RC qp0 ok :: t /\
    qp_addr qp0 = 1000.
Proof.
  destruct (create_qp_depths_are_powers_of_two 12 sample_qp_outcome sample_pd
              (sample_init_attr cap_at_limits) empty_world 1000 sample_qp)
    as (qp0 & ok & t & Hcalls & Ha & _).
  - reflexivity.
  - unfold qp_cap_within_limits. simpl. lia.
  - simpl. lia.
  - simpl. lia.
  - exists qp0, ok, t. split; [exact Hcalls | exact Ha].
Defined.

Lemma create_then_destroy_ah_witness :
  exists ah,
    result (mlx4_create_ah 5 (Some (7000, garbage_ah)) sample_pd
              sample_ah_attr) empty_world = Some (Some ah) /\
    w_live (after (mlx4_destroy_ah ah)
              (after (mlx4_create_ah 5 (Some (7000, garbage_ah)) sample_pd
                        sample_ah_attr) empty_world)) = w_live empty_world.
Proof.
  eexists. split; [reflexivity |].
  apply (create_then_destroy_ah 5 (Some (7000, garbage_ah)) sample_pd
           sample_ah_attr empty_world _ (fresh_empty _) eq_refl).
Defined.
